(** * pylutron_caseta.smartbridge: a shallow embedding and its properties

    The development follows [src/pylutron_caseta/smartbridge.py], as it runs
    on CPython 3.6 to 3.8 (the versions that accept its asyncio idioms and
    the [encoding] argument of [json.loads], which they ignore).

    - Python values that travel through the program (JSON data) are the
      inductive type [json]; a Python [str] is a list of Unicode code points,
      [bytes] a list of octets.
    - A Python [dict] is an association list in insertion order
      ([dict_set] overwrites in place or appends, as CPython 3.6+ does).
    - [json.dumps] and [json.loads] are modelled after CPython's [json]
      package with its default settings (ensure_ascii, separators ", " and
      ": ", strict strings).  Floating point numbers are outside the model:
      the decoder answers [Unmodelled] on a float literal, and so it does on
      UTF-16 and UTF-32 input.
    - The asyncio streams are modelled by a reader holding the octets the
      peer will deliver, and by the trace of events the program causes
      (connections opened, octets written, connections closed, subscriber
      callbacks called).  The TLS context and its certificates are not
      modelled.  Coroutines are run one at a time, so the login lock is
      never contended.  Subscriber callbacks are opaque: a call leaves an
      event in the trace and returns. *)

From Stdlib Require Import String Ascii.
From Stdlib Require Import List ZArith NArith Bool Lia.
From Stdlib Require Import Decimal DecimalFacts DecimalN.
Import ListNotations.

Set Implicit Arguments.
Set Warnings "-register-all".
Local Open Scope N_scope.
Local Open Scope list_scope.

(* ===================================================================== *)
(** * Python data *)
(* ===================================================================== *)

Module Py.

(** A [str]: Unicode code points (valid ones are below 0x110000). *)
Definition pystr := list N.
(** A [bytes] object: octets. *)
Definition bytes := list N.

(** A string literal of the source. *)
Definition str (s : string) : pystr :=
  List.map N_of_ascii (list_ascii_of_string s).

Fixpoint pystr_eqb (a b : pystr) : bool :=
  match a, b with
  | [], [] => true
  | x :: a', y :: b' => (x =? y) && pystr_eqb a' b'
  | _, _ => false
  end.

(** Ways a call can end other than by returning: the Python exceptions the
    program can meet, and two outcomes of the model itself. *)
Inductive exn :=
| KeyError | TypeError | IndexError | AttributeError
| ValueError            (* includes JSONDecodeError and UnicodeError *)
| OSError               (* a connection that cannot be opened *)
| ConnectionResetError
| RecursionError        (* nesting beyond what the interpreter still allows *)
| Blocked               (* a read that waits for octets that never come *)
| Unmodelled.           (* floats, UTF-16 and UTF-32 input *)

Inductive result (A : Type) :=
| Ok (a : A)
| Raise (e : exn).
Arguments Raise {A} e.

Definition and_then {A B} (r : result A) (k : A -> result B) : result B :=
  match r with
  | Ok a => k a
  | Raise e => Raise e
  end.

Notation "'let?' x ':=' r 'in' k" := (and_then r (fun x => k))
  (at level 10, x name, r at level 100, k at level 200).

(** The results of [f] on the elements, up to the first that raises. *)
Fixpoint map_result {A B} (f : A -> result B) (l : list A) : result (list B) :=
  match l with
  | [] => Ok []
  | x :: l' => let? y := f x in let? ys := map_result f l' in Ok (y :: ys)
  end.

(** JSON data as Python objects: None, bool, int, str, list, dict. *)
Inductive json :=
| JNull
| JBool (b : bool)
| JInt (z : Z)
| JStr (s : pystr)
| JArr (items : list json)
| JObj (pairs : list (pystr * json)).

(** ** dict *)

Definition dict (V : Type) := list (pystr * V).

Fixpoint dict_get {V} (d : dict V) (k : pystr) : option V :=
  match d with
  | [] => None
  | (k', v) :: d' => if pystr_eqb k' k then Some v else dict_get d' k
  end.

Definition dict_in {V} (k : pystr) (d : dict V) : bool :=
  match dict_get d k with Some _ => true | None => false end.

(** [d[k] = v]: an existing key keeps its place, a new one goes last. *)
Fixpoint dict_set {V} (d : dict V) (k : pystr) (v : V) : dict V :=
  match d with
  | [] => [(k, v)]
  | (k', v') :: d' =>
      if pystr_eqb k' k then (k', v) :: d' else (k', v') :: dict_set d' k v
  end.

Definition keys {V} (d : dict V) : list pystr := List.map fst d.
Definition values {V} (d : dict V) : list V := List.map snd d.

(** ** Operations on objects *)

(** [obj[key]] for a string key. *)
Definition getitem (obj : json) (key : pystr) : result json :=
  match obj with
  | JObj d => match dict_get d key with
              | Some v => Ok v
              | None => Raise KeyError
              end
  | _ => Raise TypeError
  end.

(** [obj[0]]. *)
Definition getitem0 (obj : json) : result json :=
  match obj with
  | JArr (x :: _) => Ok x
  | JArr [] => Raise IndexError
  | JStr (c :: _) => Ok (JStr [c])
  | JStr [] => Raise IndexError
  | JObj _ => Raise KeyError
  | _ => Raise TypeError
  end.

(** [key in obj] for a string key. *)
Definition contains (obj : json) (key : pystr) : result bool :=
  match obj with
  | JObj d => Ok (dict_in key d)
  | JArr l => Ok (existsb (fun x => match x with
                                    | JStr s => pystr_eqb s key
                                    | _ => false
                                    end) l)
  | JStr s => Ok (existsb (fun i => pystr_eqb (firstn (length key) (skipn i s)) key)
                          (seq 0 (S (length s))))
  | _ => Raise TypeError
  end.

(** [for x in obj]: the elements the loop visits. *)
Definition iterate (obj : json) : result (list json) :=
  match obj with
  | JArr l => Ok l
  | JObj d => Ok (List.map JStr (keys d))
  | JStr s => Ok (List.map (fun c => JStr [c]) s)
  | _ => Raise TypeError
  end.

(** Truth value of an object, as [if obj:] tests it. *)
Definition truthy (obj : json) : bool :=
  match obj with
  | JNull => false
  | JBool b => b
  | JInt z => negb (z =? 0)%Z
  | JStr s => match s with [] => false | _ => true end
  | JArr l => match l with [] => false | _ => true end
  | JObj d => match d with [] => false | _ => true end
  end.

(** [obj > 0]. *)
Definition gt_zero (obj : json) : result bool :=
  match obj with
  | JInt z => Ok (0 <? z)%Z
  | JBool b => Ok b
  | _ => Raise TypeError
  end.

(** [s.rfind(c)]: the index of the last [c] in [s], -1 when there is none. *)
Fixpoint rfind_from (s : pystr) (c : N) (i : Z) (found : Z) : Z :=
  match s with
  | [] => found
  | x :: s' => rfind_from s' c (i + 1)%Z (if x =? c then i else found)
  end.

Definition rfind (s : pystr) (c : N) : Z := rfind_from s c 0%Z (-1)%Z.

(** [s[i:]] for an index that is not negative. *)
Definition slice_from (s : pystr) (i : Z) : pystr := skipn (Z.to_nat i) s.

Definition SLASH : N := 47.

(** [s[s.rfind('/') + 1:]], the idiom of the source for the last path
    segment of an href. *)
Definition last_segment (s : pystr) : pystr :=
  slice_from s (rfind s SLASH + 1)%Z.

(** [s.rfind] and slicing exist on [str] only. *)
Definition href_id (obj : json) : result pystr :=
  match obj with
  | JStr s => Ok (last_segment s)
  | JNull | JBool _ | JInt _ => Raise AttributeError
  | JArr _ | JObj _ => Raise AttributeError
  end.

End Py.
Import Py.

(* ===================================================================== *)
(** * The [json] package: [dumps] and [loads] *)
(* ===================================================================== *)

Module Json.

Definition QUOTE : N := 34.
Definition BACKSLASH : N := 92.

(** ** Encoder ([json.dumps] with its defaults) *)

Definition hexdigit (d : N) : N := if d <? 10 then 48 + d else 87 + d.

(** ['\\u{0:04x}'.format(c)] *)
Definition u_escape (c : N) : pystr :=
  [BACKSLASH; 117;
   hexdigit (N.shiftr c 12 mod 16); hexdigit (N.shiftr c 8 mod 16);
   hexdigit (N.shiftr c 4 mod 16); hexdigit (c mod 16)].

(** One character of [encode_basestring_ascii]. *)
Definition escape_char (c : N) : pystr :=
  if c =? QUOTE then [BACKSLASH; QUOTE]
  else if c =? BACKSLASH then [BACKSLASH; BACKSLASH]
  else if c =? 10 then [BACKSLASH; 110]
  else if c =? 13 then [BACKSLASH; 114]
  else if c =? 9 then [BACKSLASH; 116]
  else if c =? 12 then [BACKSLASH; 102]
  else if c =? 8 then [BACKSLASH; 98]
  else if (32 <=? c) && (c <=? 126) then [c]
  else if c <? 65536 then u_escape c
  else
    let n := c - 65536 in
    let s1 := N.lor 55296 (N.land (N.shiftr n 10) 1023) in
    let s2 := N.lor 56320 (N.land n 1023) in
    u_escape s1 ++ u_escape s2.

Definition encode_basestring_ascii (s : pystr) : pystr :=
  QUOTE :: flat_map escape_char s ++ [QUOTE].

Fixpoint uint_chars (d : Decimal.uint) : pystr :=
  match d with
  | Nil => []
  | D0 d' => 48 :: uint_chars d'
  | D1 d' => 49 :: uint_chars d'
  | D2 d' => 50 :: uint_chars d'
  | D3 d' => 51 :: uint_chars d'
  | D4 d' => 52 :: uint_chars d'
  | D5 d' => 53 :: uint_chars d'
  | D6 d' => 54 :: uint_chars d'
  | D7 d' => 55 :: uint_chars d'
  | D8 d' => 56 :: uint_chars d'
  | D9 d' => 57 :: uint_chars d'
  end.

(** [int.__repr__]: decimal digits, a minus sign when negative. *)
Definition int_repr (z : Z) : pystr :=
  if (z <? 0)%Z then 45 :: uint_chars (N.to_uint (Z.abs_N z))
  else uint_chars (N.to_uint (Z.abs_N z)).

(** [sep.join(parts)] *)
Fixpoint join (sep : pystr) (parts : list pystr) : pystr :=
  match parts with
  | [] => []
  | [p] => p
  | p :: rest => p ++ sep ++ join sep rest
  end.

Definition ITEM_SEPARATOR : pystr := str ", ".
Definition KEY_SEPARATOR : pystr := str ": ".

Fixpoint dumps (obj : json) : pystr :=
  match obj with
  | JNull => str "null"
  | JBool true => str "true"
  | JBool false => str "false"
  | JInt z => int_repr z
  | JStr s => encode_basestring_ascii s
  | JArr items =>
      str "[" ++ join ITEM_SEPARATOR (List.map dumps items) ++ str "]"
  | JObj pairs =>
      str "{" ++
      join ITEM_SEPARATOR
        (List.map (fun kv => encode_basestring_ascii (fst kv)
                               ++ KEY_SEPARATOR ++ dumps (snd kv)) pairs)
      ++ str "}"
  end.

(** ** Decoder ([json.loads], the C scanner of CPython) *)

Definition is_ws (c : N) : bool :=
  (c =? 32) || (c =? 9) || (c =? 10) || (c =? 13).

Fixpoint skip_ws (s : pystr) : pystr :=
  match s with
  | c :: r => if is_ws c then skip_ws r else s
  | [] => []
  end.

Definition hexval (d : N) : option N :=
  if (48 <=? d) && (d <=? 57) then Some (d - 48)
  else if (97 <=? d) && (d <=? 102) then Some (d - 87)
  else if (65 <=? d) && (d <=? 70) then Some (d - 55)
  else None.

(** Four hexadecimal digits: [c <<= 4; c |= digit] for each. *)
Definition hex4 (h1 h2 h3 h4 : N) : option N :=
  match hexval h1, hexval h2, hexval h3, hexval h4 with
  | Some a, Some b, Some c, Some d =>
      Some (N.lor (N.shiftl (N.lor (N.shiftl (N.lor (N.shiftl a 4) b) 4) c) 4) d)
  | _, _, _, _ => None
  end.

Definition is_high_surrogate (c : N) : bool := (55296 <=? c) && (c <=? 56319).
Definition is_low_surrogate (c : N) : bool := (56320 <=? c) && (c <=? 57343).

(** [Py_UNICODE_JOIN_SURROGATES] *)
Definition join_surrogates (hi lo : N) : N :=
  N.lor (N.shiftl (N.land hi 1023) 10) (N.land lo 1023) + 65536.

(** The character a one-letter escape stands for. *)
Definition unescape (e : N) : option N :=
  if e =? QUOTE then Some QUOTE
  else if e =? BACKSLASH then Some BACKSLASH
  else if e =? 47 then Some 47
  else if e =? 98 then Some 8
  else if e =? 102 then Some 12
  else if e =? 110 then Some 10
  else if e =? 114 then Some 13
  else if e =? 116 then Some 9
  else None.

Definition push {A B} (c : A) (r : result (list A * B)) : result (list A * B) :=
  match r with
  | Ok (t, rest) => Ok (c :: t, rest)
  | Raise e => Raise e
  end.

(** [scanstring]: the input starts after the opening quote; the result is
    the string and the input after the closing quote. *)
Fixpoint scanstring (s : pystr) : result (pystr * pystr) :=
  match s with
  | [] => Raise ValueError
  | c :: r =>
      if c =? QUOTE then Ok ([], r)
      else if c =? BACKSLASH then
        match r with
        | [] => Raise ValueError
        | e :: r1 =>
            if e =? 117 then
              match r1 with
              | h1 :: h2 :: h3 :: h4 :: r2 =>
                  match hex4 h1 h2 h3 h4 with
                  | None => Raise ValueError
                  | Some u =>
                      if is_high_surrogate u then
                        match r2 with
                        | b :: u' :: g1 :: g2 :: g3 :: g4 :: r3 =>
                            if (b =? BACKSLASH) && (u' =? 117) then
                              match hex4 g1 g2 g3 g4 with
                              | None => Raise ValueError
                              | Some u2 =>
                                  if is_low_surrogate u2
                                  then push (join_surrogates u u2) (scanstring r3)
                                  else push u (scanstring r2)
                              end
                            else push u (scanstring r2)
                        | _ => push u (scanstring r2)
                        end
                      else push u (scanstring r2)
                  end
              | _ => Raise ValueError
              end
            else
              match unescape e with
              | Some c' => push c' (scanstring r1)
              | None => Raise ValueError
              end
        end
      else if c <=? 31 then Raise ValueError
      else push c (scanstring r)
  end.

Definition is_digit (c : N) : bool := (48 <=? c) && (c <=? 57).

Definition digit_cons (c : N) (d : Decimal.uint) : Decimal.uint :=
  if c =? 48 then D0 d else if c =? 49 then D1 d else if c =? 50 then D2 d
  else if c =? 51 then D3 d else if c =? 52 then D4 d else if c =? 53 then D5 d
  else if c =? 54 then D6 d else if c =? 55 then D7 d else if c =? 56 then D8 d
  else D9 d.

Fixpoint read_digits (s : pystr) : Decimal.uint * pystr :=
  match s with
  | c :: r =>
      if is_digit c
      then let (d, r') := read_digits r in (digit_cons c d, r')
      else (Nil, s)
  | [] => (Nil, [])
  end.

(** Does a fraction (a dot and a digit) start here? *)
Definition starts_frac (s : pystr) : bool :=
  match s with
  | p :: d :: _ => (p =? 46) && is_digit d
  | _ => false
  end.

(** Does an exponent (e or E, an optional sign, a digit) start here? *)
Definition starts_exp (s : pystr) : bool :=
  match s with
  | e :: r =>
      ((e =? 101) || (e =? 69)) &&
      match r with
      | x :: r' =>
          is_digit x ||
          (((x =? 45) || (x =? 43)) &&
           match r' with d :: _ => is_digit d | [] => false end)
      | [] => false
      end
  | [] => false
  end.

(** The digits of a number, after its sign: a single 0, or a digit from 1
    to 9 followed by digits; a float when a fraction or an exponent
    follows. *)
Definition match_digits (neg : bool) (s : pystr) : result (json * pystr) :=
  match s with
  | c :: r =>
      let int_part :=
        if (49 <=? c) && (c <=? 57) then Some (read_digits s)
        else if c =? 48 then Some (D0 Nil, r)
        else None in
      match int_part with
      | None => Raise ValueError
      | Some (d, r') =>
          if starts_frac r' || starts_exp r' then Raise Unmodelled
          else Ok (JInt (if neg then - Z.of_N (N.of_uint d)
                         else Z.of_N (N.of_uint d))%Z, r')
      end
  | [] => Raise ValueError
  end.

(** [_match_number]: an optional minus sign, then the digits. *)
Definition match_number (s : pystr) : result (json * pystr) :=
  match s with
  | c :: r => if c =? 45 then match_digits true r else match_digits false s
  | [] => Raise ValueError
  end.

Fixpoint starts_with (p s : pystr) : bool :=
  match p, s with
  | [], _ => true
  | x :: p', y :: s' => (x =? y) && starts_with p' s'
  | _ :: _, [] => false
  end.

(** [PyDict_SetItem] for each pair in the order read. *)
Definition dict_of_pairs (pairs : list (pystr * json)) : dict json :=
  fold_left (fun d kv => dict_set d (fst kv) (snd kv)) pairs [].

(** [scan_once] with [_parse_array] and [_parse_object].  The recursion of
    the scanner is on the nesting of the text; [fuel] bounds it, and
    [fuel_for] gives enough for a text, so that the answer to running out of
    fuel is never seen (see [decode_fuel_enough]). *)
Fixpoint scan_once (fuel : nat) (s : pystr) {struct fuel} : result (json * pystr) :=
  match fuel with
  | O => Raise Unmodelled
  | S f =>
      match s with
      | [] => Raise ValueError
      | c :: r =>
          if c =? QUOTE then
            match scanstring r with
            | Ok (t, rest) => Ok (JStr t, rest)
            | Raise e => Raise e
            end
          else if c =? 123 then
            match skip_ws r with
            | c' :: r' =>
                if c' =? 125 then Ok (JObj [], r')
                else match parse_pairs f (c' :: r') with
                     | Ok (pairs, rest) => Ok (JObj (dict_of_pairs pairs), rest)
                     | Raise e => Raise e
                     end
            | [] => Raise ValueError
            end
          else if c =? 91 then
            match skip_ws r with
            | c' :: r' =>
                if c' =? 93 then Ok (JArr [], r')
                else match parse_items f (c' :: r') with
                     | Ok (items, rest) => Ok (JArr items, rest)
                     | Raise e => Raise e
                     end
            | [] => Raise ValueError
            end
          else if (c =? 110) && starts_with (str "ull") r then Ok (JNull, skipn 3 r)
          else if (c =? 116) && starts_with (str "rue") r then Ok (JBool true, skipn 3 r)
          else if (c =? 102) && starts_with (str "alse") r then Ok (JBool false, skipn 4 r)
          else if (c =? 78) && starts_with (str "aN") r then Raise Unmodelled
          else if (c =? 73) && starts_with (str "nfinity") r then Raise Unmodelled
          else if (c =? 45) && starts_with (str "Infinity") r then Raise Unmodelled
          else match_number s
      end
  end

with parse_items (fuel : nat) (s : pystr) {struct fuel} : result (list json * pystr) :=
  match fuel with
  | O => Raise Unmodelled
  | S f =>
      match scan_once f s with
      | Raise e => Raise e
      | Ok (v, r1) =>
          match skip_ws r1 with
          | c :: r2 =>
              if c =? 93 then Ok ([v], r2)
              else if c =? 44 then push v (parse_items f (skip_ws r2))
              else Raise ValueError
          | [] => Raise ValueError
          end
      end
  end

with parse_pairs (fuel : nat) (s : pystr) {struct fuel} : result (list (pystr * json) * pystr) :=
  match fuel with
  | O => Raise Unmodelled
  | S f =>
      match s with
      | c :: r =>
          if c =? QUOTE then
            match scanstring r with
            | Raise e => Raise e
            | Ok (key, r1) =>
                match skip_ws r1 with
                | c2 :: r2 =>
                    if c2 =? 58 then
                      match scan_once f (skip_ws r2) with
                      | Raise e => Raise e
                      | Ok (v, r3) =>
                          match skip_ws r3 with
                          | c3 :: r4 =>
                              if c3 =? 125 then Ok ([(key, v)], r4)
                              else if c3 =? 44
                              then push (key, v) (parse_pairs f (skip_ws r4))
                              else Raise ValueError
                          | [] => Raise ValueError
                          end
                      end
                    else Raise ValueError
                | [] => Raise ValueError
                end
            end
          else Raise ValueError
      | [] => Raise ValueError
      end
  end.

Definition fuel_for (s : pystr) : nat := 2 * List.length s + 2.

(** [JSONDecoder.decode]: one value, white space around it, nothing else. *)
Definition decode (s : pystr) : result json :=
  match scan_once (fuel_for s) (skip_ws s) with
  | Raise e => Raise e
  | Ok (obj, rest) =>
      match skip_ws rest with
      | [] => Ok obj
      | _ :: _ => Raise ValueError
      end
  end.

(** ** Text and octets *)

(** [str.encode('UTF-8')]; a surrogate cannot be encoded. *)
Fixpoint utf8_encode (s : pystr) : result bytes :=
  match s with
  | [] => Ok []
  | c :: r =>
      let head :=
        if c <? 128 then Ok [c]
        else if c <? 2048 then Ok [192 + N.shiftr c 6; 128 + N.land c 63]
        else if is_high_surrogate c || is_low_surrogate c then Raise ValueError
        else if c <? 65536 then
          Ok [224 + N.shiftr c 12; 128 + N.land (N.shiftr c 6) 63;
              128 + N.land c 63]
        else
          Ok [240 + N.shiftr c 18; 128 + N.land (N.shiftr c 12) 63;
              128 + N.land (N.shiftr c 6) 63; 128 + N.land c 63] in
      match head, utf8_encode r with
      | Ok h, Ok t => Ok (h ++ t)
      | Raise e, _ => Raise e
      | _, Raise e => Raise e
      end
  end.

Definition is_cont (b : N) : bool := (128 <=? b) && (b <=? 191).

Definition push1 {A} (c : A) (r : result (list A)) : result (list A) :=
  match r with
  | Ok t => Ok (c :: t)
  | Raise e => Raise e
  end.

(** [bytes.decode('utf-8', 'surrogatepass')]: strict UTF-8, except that the
    three-octet form of a surrogate is accepted. *)
Fixpoint utf8_decode (b : bytes) : result pystr :=
  match b with
  | [] => Ok []
  | b0 :: r0 =>
      if b0 <? 128 then push1 b0 (utf8_decode r0)
      else if (194 <=? b0) && (b0 <=? 223) then
        match r0 with
        | b1 :: r1 =>
            if is_cont b1
            then push1 (N.shiftl (N.land b0 31) 6 + N.land b1 63) (utf8_decode r1)
            else Raise ValueError
        | _ => Raise ValueError
        end
      else if (224 <=? b0) && (b0 <=? 239) then
        match r0 with
        | b1 :: b2 :: r2 =>
            if is_cont b1 && is_cont b2 && (negb (b0 =? 224) || (160 <=? b1))
            then push1 (N.shiftl (N.land b0 15) 12 + N.shiftl (N.land b1 63) 6
                        + N.land b2 63) (utf8_decode r2)
            else Raise ValueError
        | _ => Raise ValueError
        end
      else if (240 <=? b0) && (b0 <=? 244) then
        match r0 with
        | b1 :: b2 :: b3 :: r3 =>
            if is_cont b1 && is_cont b2 && is_cont b3
               && (negb (b0 =? 240) || (144 <=? b1))
               && (negb (b0 =? 244) || (b1 <=? 143))
            then push1 (N.shiftl (N.land b0 7) 18 + N.shiftl (N.land b1 63) 12
                        + N.shiftl (N.land b2 63) 6 + N.land b3 63)
                       (utf8_decode r3)
            else Raise ValueError
        | _ => Raise ValueError
        end
      else Raise ValueError
  end.

Inductive encoding :=
| UTF_8 | UTF_8_SIG | UTF_16 | UTF_16_BE | UTF_16_LE | UTF_32 | UTF_32_BE | UTF_32_LE.

(** [json.detect_encoding] *)
Definition detect_encoding (b : bytes) : encoding :=
  if starts_with [0; 0; 254; 255] b || starts_with [255; 254; 0; 0] b then UTF_32
  else if starts_with [254; 255] b || starts_with [255; 254] b then UTF_16
  else if starts_with [239; 187; 191] b then UTF_8_SIG
  else
    match b with
    | b0 :: b1 :: b2 :: b3 :: _ =>
        if b0 =? 0 then (if b1 =? 0 then UTF_32_BE else UTF_16_BE)
        else if b1 =? 0
        then (if (b2 =? 0) && (b3 =? 0) then UTF_32_LE else UTF_16_LE)
        else UTF_8
    | [b0; b1] =>
        if b0 =? 0 then UTF_16_BE else if b1 =? 0 then UTF_16_LE else UTF_8
    | _ => UTF_8
    end.

(** [json.loads] of a [bytes] object. *)
Definition loads (b : bytes) : result json :=
  match detect_encoding b with
  | UTF_8 =>
      match utf8_decode b with
      | Ok s => decode s
      | Raise e => Raise e
      end
  | UTF_8_SIG =>
      match utf8_decode (skipn 3 b) with
      | Ok s => decode s
      | Raise e => Raise e
      end
  | _ => Raise Unmodelled
  end.

End Json.

(* ===================================================================== *)
(** * asyncio streams *)
(* ===================================================================== *)

Module Asyncio.

(** The reader of a connection: the octets the peer delivers, whether the
    peer then closes, and the exception the transport has stored. *)
Record StreamReader := mkReader {
  buffer : bytes;
  eof : bool;
  exception : option exn
}.

(** The writer of a connection, with the endpoint it is connected to. *)
Record StreamWriter := mkWriter {
  peer_host : pystr;
  peer_port : Z
}.

Definition at_eof (r : StreamReader) : bool :=
  eof r && match buffer r with [] => true | _ => false end.

(** The default limit of a stream, 2 ** 16. *)
Definition LIMIT : N := 65536.

(** Index of the first line feed. *)
Fixpoint find_lf (b : bytes) : option nat :=
  match b with
  | [] => None
  | x :: b' => if x =? 10 then Some O
               else match find_lf b' with
                    | Some i => Some (S i)
                    | None => None
                    end
  end.

(** [StreamReader.readline]: the line with its line feed; what is left when
    the peer has closed; [ValueError] for a line over the limit. *)
Definition readline (r : StreamReader) : result bytes * StreamReader :=
  match exception r with
  | Some e => (Raise e, r)
  | None =>
      match find_lf (buffer r) with
      | Some isep =>
          let rest := mkReader (skipn (S isep) (buffer r)) (eof r) None in
          if LIMIT <? N.of_nat isep then (Raise ValueError, rest)
          else (Ok (firstn (S isep) (buffer r)), rest)
      | None =>
          if LIMIT <? N.of_nat (List.length (buffer r))
          then (Raise ValueError, mkReader [] (eof r) None)
          else if eof r then (Ok (buffer r), mkReader [] true None)
          else (Raise Blocked, r)
      end
  end.

End Asyncio.
Import Asyncio.

(* ===================================================================== *)
(** * The Smart Bridge *)
(* ===================================================================== *)

Definition LEAP_PORT : Z := 8081.

(** An entry of [self.devices]. *)
Record Device := mkDevice {
  device_id : pystr;
  name : json;
  type : json;
  zone : option pystr;
  current_state : json
}.

(** An entry of [self.scenes] (keys 'scene_id' and 'name'). *)
Record Scene := mkScene {
  scene_id : pystr;
  scene_name : json
}.

(** A subscriber callback, known by its identity only. *)
Definition callback := nat.

Record Smartbridge := mkBridge {
  devices : dict Device;
  scenes : dict Scene;
  logged_in : bool;
  _subscribers : dict callback;
  _hostname : pystr;
  _port : Z;
  _reader : option StreamReader;
  _writer : option StreamWriter
}.

(** What the program does to the world around it. *)
Inductive event :=
| EvConnect (host : pystr) (port : Z)
| EvWrite (data : bytes)
| EvClose
| EvCallback (id : pystr) (callback_ : callback).

(** The bridge object, the events so far, and the network: the endpoints
    that accept a connection, each with the stream it serves. *)
Record World := mkWorld {
  self : Smartbridge;
  trace : list event;
  network : list (pystr * Z * StreamReader)
}.

(** ** Statements with state and exceptions *)

Definition M (A : Type) := World -> result A * World.

Definition ret {A} (a : A) : M A := fun w => (Ok a, w).

Definition bind {A B} (c : M A) (k : A -> M B) : M B :=
  fun w => match c w with
           | (Ok a, w') => k a w'
           | (Raise e, w') => (Raise e, w')
           end.

Definition raise {A} (e : exn) : M A := fun w => (Raise e, w).

Definition lift {A} (r : result A) : M A := fun w => (r, w).

Declare Scope stmt_scope.
Delimit Scope stmt_scope with stmt.
Notation "x <- c ;; k" := (bind c (fun x => k))
  (at level 61, c at next level, right associativity) : stmt_scope.
Notation "c ;; k" := (bind c (fun _ => k))
  (at level 61, right associativity) : stmt_scope.
Local Open Scope stmt_scope.

Definition get_self : M Smartbridge := fun w => (Ok (self w), w).

Definition update (f : Smartbridge -> Smartbridge) : M unit :=
  fun w => (Ok tt, mkWorld (f (self w)) (trace w) (network w)).

Definition emit (e : event) : M unit :=
  fun w => (Ok tt, mkWorld (self w) (trace w ++ [e]) (network w)).

(** [for x in l: body(x)] *)
Fixpoint for_each {A} (l : list A) (body : A -> M unit) : M unit :=
  match l with
  | [] => ret tt
  | x :: l' => body x ;; for_each l' body
  end.

Definition set_devices (d : dict Device) (b : Smartbridge) : Smartbridge :=
  mkBridge d (scenes b) (logged_in b) (_subscribers b) (_hostname b) (_port b)
           (_reader b) (_writer b).

Definition set_scenes (s : dict Scene) (b : Smartbridge) : Smartbridge :=
  mkBridge (devices b) s (logged_in b) (_subscribers b) (_hostname b) (_port b)
           (_reader b) (_writer b).

Definition set_logged_in (l : bool) (b : Smartbridge) : Smartbridge :=
  mkBridge (devices b) (scenes b) l (_subscribers b) (_hostname b) (_port b)
           (_reader b) (_writer b).

Definition set_subscribers (s : dict callback) (b : Smartbridge) : Smartbridge :=
  mkBridge (devices b) (scenes b) (logged_in b) s (_hostname b) (_port b)
           (_reader b) (_writer b).

Definition set_streams (r : option StreamReader) (w : option StreamWriter)
    (b : Smartbridge) : Smartbridge :=
  mkBridge (devices b) (scenes b) (logged_in b) (_subscribers b) (_hostname b)
           (_port b) r w.

Definition set_current_state (level : json) (d : Device) : Device :=
  mkDevice (device_id d) (name d) (type d) (zone d) level.

(** [asyncio.open_connection(host, port, ssl=...)] *)
Fixpoint lookup_endpoint (net : list (pystr * Z * StreamReader))
    (host : pystr) (port : Z) : option StreamReader :=
  match net with
  | [] => None
  | (h, p, r) :: net' =>
      if pystr_eqb h host && (p =? port)%Z then Some r
      else lookup_endpoint net' host port
  end.

Definition open_connection (host : pystr) (port : Z)
  : M (StreamReader * StreamWriter) :=
  fun w =>
    let w' := mkWorld (self w) (trace w ++ [EvConnect host port]) (network w) in
    match lookup_endpoint (network w) host port with
    | Some r => (Ok (r, mkWriter host port), w')
    | None => (Raise OSError, w')
    end.

(** ** Methods *)

Definition add_subscriber (device_id : pystr) (callback_ : callback) : M unit :=
  update (fun b => set_subscribers (dict_set (_subscribers b) device_id callback_) b).

Definition get_devices (b : Smartbridge) : dict Device := devices b.

Definition get_device_by_id (b : Smartbridge) (device_id : pystr) : result Device :=
  match dict_get (devices b) device_id with
  | Some d => Ok d
  | None => Raise KeyError
  end.

Definition get_scenes (b : Smartbridge) : dict Scene := scenes b.

Definition get_scene_by_id (b : Smartbridge) (scene_id : pystr) : result Scene :=
  match dict_get (scenes b) scene_id with
  | Some s => Ok s
  | None => Raise KeyError
  end.

Definition is_connected (b : Smartbridge) : bool := logged_in b.

Definition is_on (b : Smartbridge) (device_id : pystr) : result bool :=
  match dict_get (devices b) device_id with
  | Some d => gt_zero (current_state d)
  | None => Raise KeyError
  end.

Definition _get_zone_id (b : Smartbridge) (device_id : pystr)
  : result (option pystr) :=
  match dict_get (devices b) device_id with
  | Some device => Ok (zone device)
  | None => Raise KeyError
  end.

Definition CRLF : bytes := [13; 10].

(** The octets [_write_object] hands to the writer. *)
Definition wire_form (obj : json) : result bytes :=
  match Json.utf8_encode (Json.dumps obj) with
  | Ok text => Ok (text ++ CRLF)
  | Raise e => Raise e
  end.

(** [StreamWriter.drain]: re-raises what the reader has stored. *)
Definition drain : M unit :=
  b <- get_self ;;
  match _reader b with
  | Some r => match exception r with
              | Some e => raise e
              | None => ret tt
              end
  | None => ret tt
  end.

Definition _write_object (obj : json) : M unit :=
  data <- lift (wire_form obj) ;;
  b <- get_self ;;
  match _writer b with
  | None => raise AttributeError
  | Some _ => emit (EvWrite data) ;; drain
  end.

Definition _send_command_from_loop (cmd : json) : M unit := _write_object cmd.

(** Returns nothing: the result of the call is [None]. *)
Definition _send_command (cmd : json) : M json :=
  _send_command_from_loop cmd ;; ret JNull.

(** What [_read_object] makes of the line it has received. *)
Definition parse_line (received : bytes) : result json :=
  match received with
  | [] => Ok JNull
  | _ :: _ => Json.loads received
  end.

Definition _read_object : M json :=
  b <- get_self ;;
  match _reader b with
  | None => raise AttributeError
  | Some r =>
      let (received, r') := readline r in
      update (set_streams (Some r') (_writer b)) ;;
      line <- lift received ;;
      lift (parse_line line)
  end.

(** The dict literal of a ReadRequest for [url]. *)
Definition read_request (url : pystr) : json :=
  JObj [(str "CommuniqueType", JStr (str "ReadRequest"));
        (str "Header", JObj [(str "Url", JStr url)])].

Definition get_value (device_id : pystr) : M json :=
  b <- get_self ;;
  zone_id <- lift (_get_zone_id b device_id) ;;
  match zone_id with
  | Some (c :: z) =>
      let cmd := read_request (str "/zone/" ++ (c :: z) ++ str "/status") in
      _send_command cmd
  | _ => ret JNull
  end.

Definition set_value (device_id : pystr) (value : Z) : M json :=
  b <- get_self ;;
  zone_id <- lift (_get_zone_id b device_id) ;;
  match zone_id with
  | Some (c :: z) =>
      let cmd :=
        JObj [(str "CommuniqueType", JStr (str "CreateRequest"));
              (str "Header",
               JObj [(str "Url",
                      JStr (str "/zone/" ++ (c :: z) ++ str "/commandprocessor"))]);
              (str "Body",
               JObj [(str "Command",
                      JObj [(str "CommandType", JStr (str "GoToLevel"));
                            (str "Parameter",
                             JArr [JObj [(str "Type", JStr (str "Level"));
                                         (str "Value", JInt value)]])])])] in
      _send_command cmd
  | _ => ret JNull
  end.

Definition turn_on (device_id : pystr) : M json := set_value device_id 100.

Definition turn_off (device_id : pystr) : M json := set_value device_id 0.

Definition activate_scene (scene_id : pystr) : M json :=
  b <- get_self ;;
  if dict_in scene_id (scenes b) then
    let cmd :=
      JObj [(str "CommuniqueType", JStr (str "CreateRequest"));
            (str "Header",
             JObj [(str "Url",
                    JStr (str "/virtualbutton/" ++ scene_id
                          ++ str "/commandprocessor"))]);
            (str "Body",
             JObj [(str "Command",
                    JObj [(str "CommandType", JStr (str "PressAndRelease"))])])] in
    _send_command cmd
  else ret JNull.

(** [value == 'text'] *)
Definition eq_str (value : json) (text : pystr) : bool :=
  match value with
  | JStr s => pystr_eqb s text
  | _ => false
  end.

(** [zone == device['zone']] for a string [zone]. *)
Definition zone_matches (id : pystr) (device : Device) : bool :=
  match zone device with
  | Some z => pystr_eqb id z
  | None => false
  end.

Definition _handle_response (resp_json : json) : M unit :=
  comm_type <- lift (getitem resp_json (str "CommuniqueType")) ;;
  if eq_str comm_type (str "ReadResponse") then
    body <- lift (getitem resp_json (str "Body")) ;;
    status <- lift (getitem body (str "ZoneStatus")) ;;
    zone_ref <- lift (getitem status (str "Zone")) ;;
    href <- lift (getitem zone_ref (str "href")) ;;
    zone_id <- lift (href_id href) ;;
    status' <- lift (getitem body (str "ZoneStatus")) ;;
    level <- lift (getitem status' (str "Level")) ;;
    b <- get_self ;;
    for_each (keys (devices b)) (fun _device_id =>
      b' <- get_self ;;
      match dict_get (devices b') _device_id with
      | None => raise KeyError
      | Some device =>
          if zone_matches zone_id device then
            update (fun b'' => set_devices
                      (dict_set (devices b'') _device_id
                                (set_current_state level device)) b'') ;;
            match dict_get (_subscribers b') _device_id with
            | Some callback_ => emit (EvCallback _device_id callback_)
            | None => ret tt
            end
          else ret tt
      end)
  else ret tt.

(** The body of the loop of [_load_devices]: the entry made of one element
    of the list of the hub. *)
Definition device_of (device : json) : result Device :=
  let? href := getitem device (str "href") in
  let? device_id := href_id href in
  let? has_zones := contains device (str "LocalZones") in
  let? device_zone :=
    (if has_zones : bool then
       let? zones := getitem device (str "LocalZones") in
       let? first := getitem0 zones in
       let? zone_href := getitem first (str "href") in
       let? z := href_id zone_href in
       Ok (Some z)
     else Ok None) in
  let? device_name := getitem device (str "Name") in
  let? device_type := getitem device (str "DeviceType") in
  Ok (mkDevice device_id device_name device_type device_zone (JInt (-1))).

(** [self.devices[device_id] = entry] *)
Definition store_device (entry : Device) (b : Smartbridge) : Smartbridge :=
  set_devices (dict_set (devices b) (device_id entry) entry) b.

Definition _load_devices : M unit :=
  _write_object (read_request (str "/device")) ;;
  device_json <- _read_object ;;
  body <- lift (getitem device_json (str "Body")) ;;
  listed <- lift (getitem body (str "Devices")) ;;
  elements <- lift (iterate listed) ;;
  for_each elements (fun device =>
    entry <- lift (device_of device) ;;
    update (store_device entry)).

(** The body of the loop of [_load_scenes]: the entry of a programmed
    virtual button, nothing for one that is not programmed. *)
Definition scene_of (scene : json) : result (option Scene) :=
  let? programmed := getitem scene (str "IsProgrammed") in
  if truthy programmed then
    let? href := getitem scene (str "href") in
    let? scene_id := href_id href in
    let? scene_name := getitem scene (str "Name") in
    Ok (Some (mkScene scene_id scene_name))
  else Ok None.

Definition store_scene (entry : option Scene) (b : Smartbridge) : Smartbridge :=
  match entry with
  | Some s => set_scenes (dict_set (scenes b) (scene_id s) s) b
  | None => b
  end.

Definition _load_scenes : M unit :=
  _write_object (read_request (str "/virtualbutton")) ;;
  scene_json <- _read_object ;;
  body <- lift (getitem scene_json (str "Body")) ;;
  listed <- lift (getitem body (str "VirtualButtons")) ;;
  elements <- lift (iterate listed) ;;
  for_each elements (fun scene =>
    entry <- lift (scene_of scene) ;;
    update (store_scene entry)).

(** The part of [_login] after the check of the current connection. *)
Definition connect_and_load : M unit :=
  update (set_logged_in false) ;;
  b <- get_self ;;
  socket <- open_connection (_hostname b) LEAP_PORT ;;
  update (set_streams (Some (fst socket)) (Some (snd socket))) ;;
  _load_devices ;;
  _load_scenes ;;
  b' <- get_self ;;
  for_each (values (devices b')) (fun device =>
    match zone device with
    | Some z => _write_object (read_request (str "/zone/" ++ z ++ str "/status"))
    | None => ret tt
    end) ;;
  update (set_logged_in true).

Definition _login : M unit :=
  b <- get_self ;;
  match _reader b with
  | Some r =>
      if match exception r with None => true | Some _ => false end
         && negb (at_eof r)
      then ret tt
      else
        (match _writer b with
         | Some _ => emit EvClose
         | None => raise AttributeError
         end) ;;
        update (set_streams None None) ;;
        connect_and_load
  | None => connect_and_load
  end.

(** [Smartbridge(hostname, keyfile, certfile, ca_certs, port)]: the fields,
    then the first login.  [port] is [None] when the argument is left to its
    default. *)
Definition __init__ (hostname : pystr) (port : option Z)
    (net : list (pystr * Z * StreamReader)) : result unit * World :=
  let b := mkBridge [] [] false [] hostname
             (match port with Some p => p | None => LEAP_PORT end) None None in
  _login (mkWorld b [] net).

(** One turn of the loop of [_monitor]. *)
Definition _monitor_turn : M unit :=
  fun w =>
    match (_login ;;
           received <- _read_object ;;
           match received with
           | JNull => ret tt
           | _ => _handle_response received
           end) w with
    | (Raise ValueError, w') => (Ok tt, w')
    | (Raise ConnectionResetError, w') => (Ok tt, w')
    | other => other
    end.


(* ===================================================================== *)
(** * Vocabulary of the properties *)
(* ===================================================================== *)

(** The same world with more events in its trace. *)
Definition with_events (w : World) (evs : list event) : World :=
  mkWorld (self w) (trace w ++ evs) (network w).

(** The entry of a device after a push of [level] for the zone [id]. *)
Definition pushed (id : pystr) (level : json) (d : Device) : Device :=
  if zone_matches id d then set_current_state level d else d.

(** The callback events a push for the zone [id] causes, device by device. *)
Definition notified (subscribers : dict callback) (id : pystr)
    (entry : pystr * Device) : list event :=
  if zone_matches id (snd entry) then
    match dict_get subscribers (fst entry) with
    | Some callback_ => [EvCallback (fst entry) callback_]
    | None => []
    end
  else [].

(** How many times the callback registered for [id] is called in [evs]. *)
Definition calls_for (id : pystr) (evs : list event) : nat :=
  List.length (filter (fun e => match e with
                                | EvCallback i _ => pystr_eqb i id
                                | _ => false
                                end) evs).

(** The events about the subscriber of [id]. *)
Definition calls_of (id : pystr) (evs : list event) : list event :=
  filter (fun e => match e with
                   | EvCallback i _ => pystr_eqb i id
                   | _ => false
                   end) evs.

(** One turn of the loop of [_handle_response]. *)
Definition push_turn (id : pystr) (level : json) (_device_id : pystr) : M unit :=
  b' <- get_self ;;
  match dict_get (devices b') _device_id with
  | None => raise KeyError
  | Some device =>
      if zone_matches id device then
        update (fun b'' => set_devices
                  (dict_set (devices b'') _device_id
                            (set_current_state level device)) b'') ;;
        match dict_get (_subscribers b') _device_id with
        | Some callback_ => emit (EvCallback _device_id callback_)
        | None => ret tt
        end
      else ret tt
  end.

(** What a response is to [_handle_response]: a zone status, or not. *)
Inductive zone_status (resp : json) (href : pystr) (level : json) : Prop :=
| ZoneStatus (body status zone_ref : json)
    (Htype : getitem resp (str "CommuniqueType") = Ok (JStr (str "ReadResponse")))
    (Hbody : getitem resp (str "Body") = Ok body)
    (Hstatus : getitem body (str "ZoneStatus") = Ok status)
    (Hzone : getitem status (str "Zone") = Ok zone_ref)
    (Hhref : getitem zone_ref (str "href") = Ok (JStr href))
    (Hlevel : getitem status (str "Level") = Ok level).

(** Each cached entry is as it was, or as the push sets it. *)
Definition push_inv (id : pystr) (level : json) (D0 D : dict Device) : Prop :=
  forall k,
    match dict_get D0 k with
    | Some d => dict_get D k = Some d \/ dict_get D k = Some (pushed id level d)
    | None => dict_get D k = None
    end.

(** The entries [_load_devices] makes of a response of the hub. *)
Definition listed_devices (device_json : json) : result (list Device) :=
  let? body := getitem device_json (str "Body") in
  let? listed := getitem body (str "Devices") in
  let? elements := iterate listed in
  map_result device_of elements.

(** The entries [_load_scenes] makes of a response of the hub. *)
Definition listed_scenes (scene_json : json) : result (list (option Scene)) :=
  let? body := getitem scene_json (str "Body") in
  let? listed := getitem body (str "VirtualButtons") in
  let? elements := iterate listed in
  map_result scene_of elements.

(** The last entry of a list with a given id. *)
Fixpoint last_device (id : pystr) (l : list Device) : option Device :=
  match l with
  | [] => None
  | d :: l' =>
      match last_device id l' with
      | Some d' => Some d'
      | None => if pystr_eqb (device_id d) id then Some d else None
      end
  end.

Fixpoint last_scene (id : pystr) (l : list (option Scene)) : option Scene :=
  match l with
  | [] => None
  | e :: l' =>
      match last_scene id l' with
      | Some s' => Some s'
      | None =>
          match e with
          | Some s => if pystr_eqb (scene_id s) id then Some s else None
          | None => None
          end
      end
  end.

(** No usable connection: [_login] will connect. *)
Definition must_connect (b : Smartbridge) : Prop :=
  match _reader b with
  | None => True
  | Some r => (exception r <> None \/ at_eof r = true) /\ _writer b <> None
  end.

(** ** Worlds used as examples *)

Definition quoted (b : bytes) : bytes :=
  List.map (fun c => if c =? 39 then Json.QUOTE else c) b.

Definition lamp : Device :=
  mkDevice (str "5") (JStr (str "Lamp")) (JStr (str "WallDimmer"))
           (Some (str "3")) (JInt 42).

Definition remote : Device :=
  mkDevice (str "9") (JStr (str "Pico")) (JStr (str "Pico3Button"))
           None (JInt (-1)).

Definition fresh_lamp : Device :=
  mkDevice (str "5") (JStr (str "Lamp")) (JStr (str "WallDimmer"))
           (Some (str "3")) (JInt (-1)).

Definition movie : Scene := mkScene (str "7") (JStr (str "Movie")).

Definition live_reader : StreamReader := mkReader [] false None.

Definition hub_writer : StreamWriter := mkWriter (str "hub") LEAP_PORT.

(** A bridge that is logged in, with a lamp, a remote and one scene. *)
Definition home : Smartbridge :=
  mkBridge [(str "5", lamp); (str "9", remote)] [(str "7", movie)] true
           [(str "5", 1%nat)] (str "hub") LEAP_PORT
           (Some live_reader) (Some hub_writer).

Definition home_world : World := mkWorld home [] [].

(** The hub answers the two bulk loads: one lamp, one programmed scene and
    one that is not. *)
Definition hub_stream : StreamReader :=
  mkReader
    (quoted (str "{'Body': {'Devices': [{'href': '/device/5', 'Name': 'Lamp', 'DeviceType': 'WallDimmer', 'LocalZones': [{'href': '/zone/3'}]}]}}")
     ++ CRLF ++
     quoted (str "{'Body': {'VirtualButtons': [{'href': '/virtualbutton/1', 'Name': 'Night', 'IsProgrammed': true}, {'href': '/virtualbutton/2', 'Name': 'Button 2', 'IsProgrammed': false}]}}")
     ++ CRLF)
    false None.

(** The bridge of [home] after the hub has closed the connection. *)
Definition stale_world : World :=
  mkWorld (set_streams (Some (mkReader [] true None)) (Some hub_writer) home)
          [] [(str "hub", LEAP_PORT, hub_stream)].

(** A push: zone 3 is at level 75. *)
Definition push_75 : json :=
  JObj [(str "CommuniqueType", JStr (str "ReadResponse"));
        (str "Body",
         JObj [(str "ZoneStatus",
                JObj [(str "Zone", JObj [(str "href", JStr (str "/zone/3"))]);
                      (str "Level", JInt 75)])])].

(** The lamp of [home] at level 75. *)
Definition lamp_75 : Device :=
  mkDevice (str "5") (JStr (str "Lamp")) (JStr (str "WallDimmer"))
           (Some (str "3")) (JInt 75).

(** A push: zone 3 is at level 42. *)
Definition push_42 : json :=
  JObj [(str "CommuniqueType", JStr (str "ReadResponse"));
        (str "Body",
         JObj [(str "ZoneStatus",
                JObj [(str "Zone", JObj [(str "href", JStr (str "/zone/3"))]);
                      (str "Level", JInt 42)])])].

(** ** Messages on the wire *)

(** A request message: CommuniqueType, Header.Url and an optional Body. *)
Record request := mkRequest {
  CommuniqueType : pystr;
  Url : pystr;
  Body : option json
}.

(** The dict the source writes for such a message. *)
Definition request_json (r : request) : json :=
  JObj ((str "CommuniqueType", JStr (CommuniqueType r))
        :: (str "Header", JObj [(str "Url", JStr (Url r))])
        :: match Body r with
           | Some body => [(str "Body", body)]
           | None => []
           end).

(** The Body of the command of [set_value]. *)
Definition go_to_level (value : Z) : json :=
  JObj [(str "Command",
         JObj [(str "CommandType", JStr (str "GoToLevel"));
               (str "Parameter",
                JArr [JObj [(str "Type", JStr (str "Level"));
                            (str "Value", JInt value)]])])].

(** The Body of the command of [activate_scene]. *)
Definition press_and_release : json :=
  JObj [(str "Command",
         JObj [(str "CommandType", JStr (str "PressAndRelease"))])].

(** The nesting of an object: the number of lists and dicts around its
    innermost value.  The encoder and the scanner of the json package make
    one guarded recursive call for each list and dict they go into. *)
Fixpoint depth (v : json) : nat :=
  match v with
  | JArr items => S (fold_right (fun x m => Nat.max (depth x) m) O items)
  | JObj pairs =>
      S (fold_right (fun kv m => Nat.max (depth (snd kv)) m) O pairs)
  | _ => O
  end.

(** [json.dumps(obj)] when the recursion limit of the interpreter leaves
    room for [room] nested calls: RecursionError for an object that nests
    deeper. *)
Definition dumps_within (room : nat) (obj : json) : result pystr :=
  if (depth obj <=? room)%nat then Ok (Json.dumps obj)
  else Raise RecursionError.

(** What [_read_object] makes of a line, likewise: the scanner raises
    RecursionError on a text that nests deeper than [room]. *)
Definition parse_line_within (room : nat) (received : bytes) : result json :=
  let? v := parse_line received in
  if (depth v <=? room)%nat then Ok v else Raise RecursionError.

(** Encoding a message and decoding the line: the steps of [_write_object]
    (the text of [json.dumps], its octets, CR LF), then those of
    [_read_object] on a stream that holds the octets written ([readline],
    with the limit of the stream, and [json.loads]). *)
Definition round_trip (room : nat) (obj : json) : result json :=
  let? text := dumps_within room obj in
  let? data := Json.utf8_encode text in
  let (received, _) := readline (mkReader (data ++ CRLF) false None) in
  let? line := received in
  parse_line_within room line.

Definition valid_char (c : N) : bool := c <? 1114112.

(** No high surrogate is followed at once by a low surrogate. *)
Fixpoint pair_free (s : pystr) : bool :=
  match s with
  | c :: s' =>
      match s' with
      | c' :: _ => negb (Json.is_high_surrogate c && Json.is_low_surrogate c')
      | [] => true
      end && pair_free s'
  | [] => true
  end.

Definition text_ok (s : pystr) : bool := forallb valid_char s && pair_free s.

Fixpoint distinct (l : list pystr) : bool :=
  match l with
  | [] => true
  | k :: l' => negb (existsb (pystr_eqb k) l') && distinct l'
  end.

(** Objects of Python: the keys of a dict are distinct, the characters of a
    str are code points; and no str pairs two surrogates. *)
Fixpoint json_ok (v : json) : bool :=
  match v with
  | JNull | JBool _ | JInt _ => true
  | JStr s => text_ok s
  | JArr items => forallb json_ok items
  | JObj pairs =>
      forallb (fun kv => text_ok (fst kv) && json_ok (snd kv)) pairs
      && distinct (List.map fst pairs)
  end.

Definition request_ok (r : request) : bool :=
  text_ok (CommuniqueType r) && text_ok (Url r) &&
  match Body r with
  | Some body => json_ok body
  | None => true
  end.

(** Octets of ASCII text other than NUL. *)
Definition is_ascii (c : N) : bool := (1 <=? c) && (c <=? 127).

(** Characters [dumps] writes. *)
Definition printable (c : N) : bool := (32 <=? c) && (c <=? 126).

(** What may follow a value in a text. *)
Definition value_end (s : pystr) : bool :=
  match s with
  | [] => true
  | c :: _ => (c =? 44) || (c =? 93) || (c =? 125) || Json.is_ws c
  end.

(** The fuel the scanner uses on the text of an object. *)
Fixpoint weight (v : json) : nat :=
  match v with
  | JArr items => S (fold_right (fun x n => S (weight x + n)) O items)
  | JObj pairs => S (fold_right (fun kv n => S (weight (snd kv) + n)) O pairs)
  | _ => 1
  end.

(** [p] holds of the numbers that are [prefix] followed by [n] bits. *)
Fixpoint all_bits (n : nat) (prefix : N) (p : N -> bool) : bool :=
  match n with
  | O => p prefix
  | S k => all_bits k (2 * prefix) p && all_bits k (2 * prefix + 1) p
  end.

(** The four digits of an escape read back as the number escaped. *)
Definition escape_reads_back (c : N) : bool :=
  match Json.u_escape c with
  | [b; u; h1; h2; h3; h4] =>
      (b =? Json.BACKSLASH) && (u =? 117) &&
      printable h1 && printable h2 && printable h3 && printable h4 &&
      match Json.hex4 h1 h2 h3 h4 with
      | Some c' => c' =? c
      | None => false
      end
  | _ => false
  end.

(** Facts about a number below 1024 as the low bits of a surrogate. *)
Definition surrogate_bits (x : N) : bool :=
  (N.lor 55296 x =? 55296 + x) && (N.lor 56320 x =? 56320 + x) &&
  (N.land (55296 + x) 1023 =? x) && (N.land (56320 + x) 1023 =? x).

(** A request with two surrogates in its Url. *)
Definition paired_request : request :=
  mkRequest (str "ReadRequest") [55357; 56832] None.

(** The request of [get_value] for zone 3. *)
Definition status_request : request :=
  mkRequest (str "ReadRequest") (str "/zone/3/status") None.

(** The request of [set_value] for zone 3 and level 40. *)
Definition level_request : request :=
  mkRequest (str "CreateRequest") (str "/zone/3/commandprocessor")
    (Some (go_to_level 40)).

(** A list nested [n] deep around None. *)
Fixpoint nested (n : nat) : json :=
  match n with
  | O => JNull
  | S n' => JArr [nested n']
  end.

(** A request whose Body nests 1000 deep. *)
Definition deep_request : request :=
  mkRequest (str "CreateRequest") (str "/zone/3/commandprocessor")
    (Some (nested 1000)).

(** A request whose Url has 2 ** 16 characters. *)
Definition long_request : request :=
  mkRequest (str "ReadRequest") (repeat 97 (N.to_nat 65536)) None.

(** The text does not start with the escape of a low surrogate. *)
Definition no_low_escape (s : pystr) : Prop :=
  forall g1 g2 g3 g4 r,
    s = Json.BACKSLASH :: 117 :: g1 :: g2 :: g3 :: g4 :: r ->
    exists u, Json.hex4 g1 g2 g3 g4 = Some u /\ Json.is_low_surrogate u = false.

(** ** Vocabulary of the proofs about the codec *)

(** The cases of [escape_char]. *)
Inductive escape_case (c : N) : pystr -> Prop :=
| EscNamed e : e <> 117 -> Json.unescape e = Some c -> printable e = true ->
    escape_case c [Json.BACKSLASH; e]
| EscPlain : (c =? Json.QUOTE) = false -> (c =? Json.BACKSLASH) = false ->
    printable c = true -> escape_case c [c]
| EscU h1 h2 h3 h4 : c < 65536 ->
    printable h1 = true -> printable h2 = true ->
    printable h3 = true -> printable h4 = true ->
    Json.hex4 h1 h2 h3 h4 = Some c ->
    escape_case c [Json.BACKSLASH; 117; h1; h2; h3; h4]
| EscPair h1 h2 h3 h4 g1 g2 g3 g4 s1 s2 :
    printable h1 = true -> printable h2 = true ->
    printable h3 = true -> printable h4 = true ->
    printable g1 = true -> printable g2 = true ->
    printable g3 = true -> printable g4 = true ->
    Json.hex4 h1 h2 h3 h4 = Some s1 -> Json.hex4 g1 g2 g3 g4 = Some s2 ->
    Json.is_high_surrogate s1 = true -> Json.is_low_surrogate s1 = false ->
    Json.is_low_surrogate s2 = true -> Json.join_surrogates s1 s2 = c ->
    65536 <= c ->
    escape_case c [Json.BACKSLASH; 117; h1; h2; h3; h4;
                   Json.BACKSLASH; 117; g1; g2; g3; g4].

Definition leading_nonzero (d : Decimal.uint) : Prop :=
  match d with
  | D1 _ | D2 _ | D3 _ | D4 _ | D5 _ | D6 _ | D7 _ | D8 _ | D9 _ => True
  | Nil | D0 _ => False
  end.

Definition not_digit_next (s : pystr) : Prop :=
  match s with
  | [] => True
  | c :: _ => Json.is_digit c = false
  end.

(** The first character of a value: not white space, not a closing
    bracket. *)
Definition starts_value (s : pystr) : Prop :=
  exists c t, s = c :: t /\ Json.is_ws c = false /\ (c =? 93) = false /\ (c =? 125) = false.

Definition scans_back (v : json) : Prop :=
  json_ok v = true ->
  forall fuel rest,
    (weight v <= fuel)%nat -> value_end rest = true ->
    Json.scan_once fuel (Json.dumps v ++ rest) = Ok (v, rest).

Definition items_weight (items : list json) : nat :=
  fold_right (fun x n => S (weight x + n)) O items.

Definition pairs_weight (pairs : list (pystr * json)) : nat :=
  fold_right (fun kv n => S (weight (snd kv) + n)) O pairs.

Definition pair_text (kv : pystr * json) : pystr :=
  Json.encode_basestring_ascii (fst kv) ++ Json.KEY_SEPARATOR ++ Json.dumps (snd kv).


(** ** Frames *)

(** [w'] comes after [w]: the same network, host name and port, and the
    events of [w] followed by more. *)
Definition follows (w w' : World) : Prop :=
  network w' = network w /\
  _hostname (self w') = _hostname (self w) /\
  _port (self w') = _port (self w) /\
  exists evs, trace w' = trace w ++ evs.

(** A statement after which the world follows the one before. *)
Definition orderly {A} (c : M A) : Prop :=
  forall w r w', c w = (r, w') -> follows w w'.

(** An update of the bridge that keeps its configuration. *)
Definition keeps_config (f : Smartbridge -> Smartbridge) : Prop :=
  forall b, _hostname (f b) = _hostname b /\ _port (f b) = _port b.

(** What [_login] does once the connection is open. *)
Definition load_state (socket : StreamReader * StreamWriter) : M unit :=
  update (set_streams (Some (fst socket)) (Some (snd socket))) ;;
  _load_devices ;;
  _load_scenes ;;
  b' <- get_self ;;
  for_each (values (devices b')) (fun device =>
    match zone device with
    | Some z => _write_object (read_request (str "/zone/" ++ z ++ str "/status"))
    | None => ret tt
    end) ;;
  update (set_logged_in true).

(** The world once [_login] has asked for a connection. *)
Definition connecting (w : World) : World :=
  mkWorld (set_logged_in false (self w))
          (trace w ++ [EvConnect (_hostname (self w)) LEAP_PORT])
          (network w).

(** A bridge built for port 8083 and a hub that listens there only. *)
Definition hub_8083 : list (pystr * Z * StreamReader) :=
  [(str "hub", 8083%Z, hub_stream)].

(* ===================================================================== *)
(** * The queries by type and by domain *)
(* ===================================================================== *)

(** The loop of [get_devices_by_type], [get_devices_by_types] and
    [get_devices_by_domain]: for each key of [self.devices], the entry is
    appended to [devs] when its type passes the test. *)
Fixpoint collect_devices (b : Smartbridge) (test : json -> bool)
    (ids : list pystr) (devs : list Device) : result (list Device) :=
  match ids with
  | [] => Ok devs
  | device_id :: ids' =>
      match dict_get (devices b) device_id with
      | None => Raise KeyError
      | Some device =>
          collect_devices b test ids'
            (if test (type device) then devs ++ [device] else devs)
      end
  end.

(** [get_devices_by_type(type_)] for a type given as a str. *)
Definition get_devices_by_type (b : Smartbridge) (type_ : pystr)
  : result (list Device) :=
  collect_devices b (fun t => eq_str t type_) (keys (devices b)) [].

(** [value in types] for a list of str. *)
Definition in_types (types : list pystr) (value : json) : bool :=
  existsb (eq_str value) types.

(** [get_devices_by_types(types)] for a list of str. *)
Definition get_devices_by_types (b : Smartbridge) (types : list pystr)
  : result (list Device) :=
  collect_devices b (in_types types) (keys (devices b)) [].

Section Domains.

(** The table of the package, from a domain to the device types in it. *)
Variable _LEAP_DEVICE_TYPES : dict (list pystr).

Definition get_devices_by_domain (b : Smartbridge) (domain : pystr)
  : result (list Device) :=
  match dict_get _LEAP_DEVICE_TYPES domain with
  | None => Ok []
  | Some types => collect_devices b (in_types types) (keys (devices b)) []
  end.

End Domains.

(* ===================================================================== *)
(** * More vocabulary *)
(* ===================================================================== *)

(** A statement that keeps a part [p] of the bridge object as it is. *)
Definition preserves {A X} (p : Smartbridge -> X) (c : M A) : Prop :=
  forall w r w', c w = (r, w') -> p (self w') = p (self w).

(** The status request [_login] writes for a device that has a zone. *)
Definition status_request_of (d : Device) : list event :=
  match zone d with
  | Some z =>
      [EvWrite (Json.dumps (read_request (str "/zone/" ++ z ++ str "/status"))
                ++ CRLF)]
  | None => []
  end.

(** The world after a line has been read: the reader is [r']. *)
Definition after_read (w : World) (r' : StreamReader) : World :=
  mkWorld (set_streams (Some r') (_writer (self w)) (self w))
          (trace w) (network w).

(** The world in which [_login] connects: a connection that is dead has
    been closed and dropped. *)
Definition dropped (w : World) : World :=
  match _reader (self w) with
  | Some _ => mkWorld (set_streams None None (self w))
                      (trace w ++ [EvClose]) (network w)
  | None => w
  end.

(** The exceptions of a lookup that fails. *)
Definition lookup_error (e : exn) : Prop :=
  e = KeyError \/ e = TypeError \/ e = AttributeError.

(** A table of domains, as an example. *)
Definition domains : dict (list pystr) :=
  [(str "light", [str "WallDimmer"; str "PlugInDimmer"]);
   (str "switch", [str "WallSwitch"]);
   (str "sensor", [str "Pico3Button"])].

(** A line that is not JSON. *)
Definition garbage_line : bytes := str "{oops" ++ [10].

(** [home] with a live connection on which the hub has sent [data]. *)
Definition receiving (data : bytes) : World :=
  mkWorld (set_streams (Some (mkReader data false None))
                       (Some hub_writer) home) [] [].

(** The answer of the hub to a command: no zone status. *)
Definition create_response : json :=
  JObj [(str "CommuniqueType", JStr (str "CreateResponse"));
        (str "Header", JObj [(str "StatusCode", JStr (str "201 Created"))])].

(** [home] after the connection has been lost and no hub answers. *)
Definition offline_world : World :=
  mkWorld (set_streams (Some (mkReader [] true None)) (Some hub_writer) home)
          [] [].

(** A push whose level is null. *)
Definition push_null : json :=
  JObj [(str "CommuniqueType", JStr (str "ReadResponse"));
        (str "Body",
         JObj [(str "ZoneStatus",
                JObj [(str "Zone", JObj [(str "href", JStr (str "/zone/3"))]);
                      (str "Level", JNull)])])].

(** The first [turns] turns of the loop of [_monitor], which has no end of
    its own: an exception that a turn lets through ends it. *)
Fixpoint _monitor (turns : nat) : M unit :=
  match turns with
  | O => ret tt
  | S n => _monitor_turn ;; _monitor n
  end.

(** A list of devices with a lamp and then an element with an empty list
    of zones, and an empty list of virtual buttons. *)
Definition broken_line : bytes :=
  quoted (str "{'Body': {'Devices': [{'href': '/device/5', 'Name': 'Lamp', 'DeviceType': 'WallDimmer', 'LocalZones': [{'href': '/zone/3'}]}, {'href': '/device/6', 'Name': 'Fan', 'DeviceType': 'FanControl', 'LocalZones': []}]}}")
  ++ CRLF.

Definition no_buttons_line : bytes :=
  quoted (str "{'Body': {'VirtualButtons': []}}") ++ CRLF.

(** A hub that answers with these two lines. *)
Definition broken_stream : StreamReader :=
  mkReader (broken_line ++ no_buttons_line) false None.

(** A bridge with nothing loaded, connected to that hub. *)
Definition broken_world : World :=
  mkWorld (mkBridge [] [] false [] (str "hub") LEAP_PORT
                    (Some broken_stream) (Some hub_writer)) [] [].

(** A bridge with nothing loaded and no connection, and that hub. *)
Definition unloaded_world : World :=
  mkWorld (mkBridge [] [] false [] (str "hub") LEAP_PORT None None) []
          [(str "hub", LEAP_PORT, broken_stream)].

(** The elements of [broken_stream]. *)
Definition lamp_element : json :=
  JObj [(str "href", JStr (str "/device/5"));
        (str "Name", JStr (str "Lamp"));
        (str "DeviceType", JStr (str "WallDimmer"));
        (str "LocalZones", JArr [JObj [(str "href", JStr (str "/zone/3"))]])].

Definition fan_element : json :=
  JObj [(str "href", JStr (str "/device/6"));
        (str "Name", JStr (str "Fan"));
        (str "DeviceType", JStr (str "FanControl"));
        (str "LocalZones", JArr [])].

(** The answer of the hub to the request for the devices, in [hub_stream]. *)
Definition hub_devices : json :=
  JObj [(str "Body", JObj [(str "Devices", JArr [lamp_element])])].

(** The answer of the hub to the request for the virtual buttons, in
    [hub_stream]. *)
Definition hub_buttons : json :=
  JObj [(str "Body",
         JObj [(str "VirtualButtons",
                JArr [JObj [(str "href", JStr (str "/virtualbutton/1"));
                            (str "Name", JStr (str "Night"));
                            (str "IsProgrammed", JBool true)];
                      JObj [(str "href", JStr (str "/virtualbutton/2"));
                            (str "Name", JStr (str "Button 2"));
                            (str "IsProgrammed", JBool false)]])])].

(* ===================================================================== *)
(** * Properties *)
(* ===================================================================== *)

(** ** Strings and dicts *)

Lemma pystr_eqb_eq (a b : pystr) : pystr_eqb a b = true <-> a = b.
Proof.
  revert b; induction a as [|x a IH]; intros [|y b]; simpl; split;
    try congruence; try reflexivity.
  - rewrite andb_true_iff, N.eqb_eq, IH. intros [-> ->]; reflexivity.
  - intros [= -> ->]. now rewrite N.eqb_refl, (proj2 (IH b)).
Qed.

Lemma pystr_eqb_refl (a : pystr) : pystr_eqb a a = true.
Proof. now apply pystr_eqb_eq. Qed.

Lemma pystr_eqb_neq (a b : pystr) : pystr_eqb a b = false <-> a <> b.
Proof.
  rewrite <- pystr_eqb_eq. destruct (pystr_eqb a b); split; congruence.
Qed.

Lemma pystr_eqb_sym (a b : pystr) : pystr_eqb a b = pystr_eqb b a.
Proof.
  destruct (pystr_eqb a b) eqn:E.
  - apply pystr_eqb_eq in E; subst. now rewrite pystr_eqb_refl.
  - symmetry. apply pystr_eqb_neq. apply pystr_eqb_neq in E. congruence.
Qed.

Section Dict.
Context {V : Type}.
Implicit Types (d : dict V) (k : pystr) (v : V).

Lemma dict_get_set_same d k v : dict_get (dict_set d k v) k = Some v.
Proof.
  induction d as [|[k' v'] d IH]; simpl.
  - now rewrite pystr_eqb_refl.
  - destruct (pystr_eqb k' k) eqn:E; simpl; rewrite E; auto.
Qed.

Lemma dict_get_set_other d k k' v :
  k <> k' -> dict_get (dict_set d k v) k' = dict_get d k'.
Proof.
  intros Hne. induction d as [|[k0 v0] d IH]; simpl.
  - now rewrite (proj2 (pystr_eqb_neq k k')).
  - destruct (pystr_eqb k0 k) eqn:E; simpl.
    + apply pystr_eqb_eq in E; subst k0.
      now rewrite (proj2 (pystr_eqb_neq k k')).
    + now rewrite IH.
Qed.

Lemma dict_get_In d k v : dict_get d k = Some v -> In (k, v) d.
Proof.
  induction d as [|[k0 v0] d IH]; simpl; [discriminate|].
  destruct (pystr_eqb k0 k) eqn:E.
  - apply pystr_eqb_eq in E; subst. intros [= ->]. now left.
  - intros H. right. auto.
Qed.

Lemma dict_get_None d k : dict_get d k = None <-> ~ In k (keys d).
Proof.
  induction d as [|[k0 v0] d IH]; simpl.
  - tauto.
  - destruct (pystr_eqb k0 k) eqn:E.
    + apply pystr_eqb_eq in E; subst. split; [discriminate|]. tauto.
    + apply pystr_eqb_neq in E. rewrite IH. tauto.
Qed.

Lemma dict_get_app_skip pre d k :
  ~ In k (keys pre) -> dict_get (pre ++ d) k = dict_get d k.
Proof.
  induction pre as [|[k0 v0] pre IH]; simpl; auto.
  intros H. destruct (pystr_eqb k0 k) eqn:E.
  - apply pystr_eqb_eq in E. tauto.
  - apply IH. tauto.
Qed.

Lemma dict_set_app_skip pre d k v :
  ~ In k (keys pre) -> dict_set (pre ++ d) k v = pre ++ dict_set d k v.
Proof.
  induction pre as [|[k0 v0] pre IH]; simpl; auto.
  intros H. destruct (pystr_eqb k0 k) eqn:E.
  - apply pystr_eqb_eq in E. tauto.
  - f_equal. apply IH. tauto.
Qed.

(** Assignment keeps the keys of a dict distinct. *)
Lemma dict_set_keys_NoDup d k v : NoDup (keys d) -> NoDup (keys (dict_set d k v)).
Proof.
  induction d as [|[k0 v0] d IH]; simpl; intros H.
  - constructor; [tauto | constructor].
  - inversion H as [|? ? Hn Hd]; subst.
    destruct (pystr_eqb k0 k) eqn:E; simpl; constructor; auto.
    intros Hin. apply Hn. clear IH H Hn Hd.
    apply pystr_eqb_neq in E.
    induction d as [|[k1 v1] d IH]; simpl in *.
    + destruct Hin as [Hin|[]]. congruence.
    + destruct (pystr_eqb k1 k); simpl in *; tauto.
Qed.
End Dict.

(** ** Running statements *)

Lemma bind_run {A B} (c : M A) (k : A -> M B) w a w1 :
  c w = (Ok a, w1) -> bind c k w = k a w1.
Proof. unfold bind. now intros ->. Qed.

Lemma bind_raise {A B} (c : M A) (k : A -> M B) w e w1 :
  c w = (Raise e, w1) -> bind c k w = (Raise e, w1).
Proof. unfold bind. now intros ->. Qed.

(** A sequence that returns: its first statement returned too. *)
Lemma bind_Ok_inv {A B} (c : M A) (k : A -> M B) w b w' :
  bind c k w = (Ok b, w') ->
  exists a w1, c w = (Ok a, w1) /\ k a w1 = (Ok b, w').
Proof.
  unfold bind. destruct (c w) as [[a|e] w1]; [eauto | discriminate].
Qed.

Lemma lift_Ok_inv {A} (r : result A) w a w' :
  lift r w = (Ok a, w') -> r = Ok a /\ w' = w.
Proof. unfold lift. now intros [= -> ->]. Qed.

(** ** C5 *)

(** C5. Calling [_login] while the session holds a live connection (the
    reader has stored no exception and is not at end of file) performs no
    network I/O and leaves the device cache, the scene cache and the
    logged_in flag unchanged: the call returns at once and the world,
    bridge object and trace of events alike, is the one before the call. *)
Theorem login_with_live_connection_is_noop (w : World) (r : StreamReader) :
  _reader (self w) = Some r ->
  exception r = None ->
  at_eof r = false ->
  _login w = (Ok tt, w).
Proof.
  intros Hr Hexc Heof. unfold _login, bind, get_self.
  rewrite Hr, Hexc, Heof. reflexivity.
Qed.

Lemma login_with_live_connection_is_noop_witness :
  _login home_world = (Ok tt, home_world).
Proof.
  apply (@login_with_live_connection_is_noop home_world live_reader);
    reflexivity.
Defined.

(** ** C7 *)

(** C7. For every device id, [turn_on] is [set_value] with 100 and
    [turn_off] is [set_value] with 0: from any world the two calls end the
    same way and leave the same world, trace of events included, so the
    request message written to the hub, if any, is the same octets. *)
Theorem turn_on_off_send_set_value_request (id : pystr) (w : World) :
  turn_on id w = set_value id 100 w /\
  turn_off id w = set_value id 0 w.
Proof. split; reflexivity. Qed.

(** ** C8 *)

(** C8. For every scene id that is not in the scene cache,
    [activate_scene] does nothing: it returns without an error, writes
    nothing, and the world after the call is the world before it. *)
Theorem activate_unknown_scene_is_noop (id : pystr) (w : World) :
  dict_in id (scenes (self w)) = false ->
  activate_scene id w = (Ok JNull, w).
Proof.
  intros H. unfold activate_scene, bind, get_self. now rewrite H.
Qed.

Lemma activate_unknown_scene_is_noop_witness :
  activate_scene (str "23") home_world = (Ok JNull, home_world).
Proof.
  apply (@activate_unknown_scene_is_noop (str "23") home_world). reflexivity.
Defined.

(** ** C10 *)

(** C10. For every cached device whose current_state still holds the
    initial value -1, [is_on] returns False. *)
Theorem is_on_false_before_first_report (b : Smartbridge) (id : pystr) (d : Device) :
  dict_get (devices b) id = Some d ->
  current_state d = JInt (-1) ->
  is_on b id = Ok false.
Proof.
  intros Hd Hs. unfold is_on. rewrite Hd, Hs. reflexivity.
Qed.

Lemma is_on_false_before_first_report_witness :
  is_on home (str "9") = Ok false.
Proof.
  apply (@is_on_false_before_first_report home (str "9") remote); reflexivity.
Defined.

(** Every entry that [_load_devices] makes starts at -1. *)
Lemma device_of_current_state (device : json) (d : Device) :
  device_of device = Ok d -> current_state d = JInt (-1).
Proof.
  unfold device_of, and_then.
  repeat match goal with
         | |- context [match ?x with _ => _ end] => destruct x; try discriminate
         end; now intros [= <-].
Qed.

(** ** Pushes of the hub: C4 and C6 *)

(** Run the statement in front, a lifted result known by [H]. *)
Ltac run_lift H := unfold bind at 1, lift at 1; rewrite H; cbv beta iota.

Lemma eq_str_true (v : json) (s : pystr) : eq_str v s = true -> v = JStr s.
Proof.
  destruct v; simpl; try discriminate. intros H.
  apply pystr_eqb_eq in H. now subst.
Qed.

Lemma handle_response_zone_status resp href level w :
  zone_status resp href level ->
  _handle_response resp w =
  (b <- get_self ;;
   for_each (keys (devices b)) (push_turn (last_segment href) level)) w.
Proof.
  intros [body status zone_ref H1 H2 H3 H4 H5 H6].
  unfold _handle_response.
  run_lift H1.
  change (eq_str (JStr (str "ReadResponse")) (str "ReadResponse")) with true.
  cbv iota.
  run_lift H2. run_lift H3. run_lift H4. run_lift H5.
  unfold bind at 1, lift at 1, href_id. cbv beta iota.
  unfold bind at 1, lift at 1. cbv beta iota.
  run_lift H6.
  reflexivity.
Qed.

(** A response is a zone status, or handling it changes nothing. *)
Lemma handle_response_cases resp w :
  snd (_handle_response resp w) = w \/
  exists href level, zone_status resp href level.
Proof.
  unfold _handle_response.
  unfold bind at 1, lift at 1.
  destruct (getitem resp (str "CommuniqueType")) as [ct|] eqn:H1; [|now left].
  destruct (eq_str ct (str "ReadResponse")) eqn:Hct; [|now left].
  apply eq_str_true in Hct; subst ct.
  unfold bind at 1, lift at 1.
  destruct (getitem resp (str "Body")) as [body|] eqn:H2; [|now left].
  unfold bind at 1, lift at 1.
  destruct (getitem body (str "ZoneStatus")) as [status|] eqn:H3; [|now left].
  unfold bind at 1, lift at 1.
  destruct (getitem status (str "Zone")) as [zone_ref|] eqn:H4; [|now left].
  unfold bind at 1, lift at 1.
  destruct (getitem zone_ref (str "href")) as [href|] eqn:H5; [|now left].
  unfold bind at 1, lift at 1.
  destruct href as [| | |href| |]; try (now left).
  cbn [href_id].
  unfold bind at 1, lift at 1.
  destruct (getitem status (str "Level")) as [level|] eqn:H6; [|now left].
  right. exists href, level. econstructor; eauto.
Qed.

Lemma zone_matches_set_current_state id level d :
  zone_matches id (set_current_state level d) = zone_matches id d.
Proof. reflexivity. Qed.

Lemma pushed_idem id level d : pushed id level (pushed id level d) = pushed id level d.
Proof.
  unfold pushed. destruct (zone_matches id d) eqn:E.
  - now rewrite zone_matches_set_current_state, E.
  - now rewrite E.
Qed.

Lemma push_inv_refl id level D : push_inv id level D D.
Proof. intros k. destruct (dict_get D k); auto. Qed.

Lemma push_turn_inv id level D0 k w r w' :
  push_inv id level D0 (devices (self w)) ->
  push_turn id level k w = (r, w') ->
  push_inv id level D0 (devices (self w')).
Proof.
  intros Hinv. unfold push_turn, bind, get_self.
  destruct (dict_get (devices (self w)) k) as [dk|] eqn:Hk.
  2:{ unfold raise. now intros [= <- <-]. }
  destruct (zone_matches id dk) eqn:Hm.
  2:{ unfold ret. now intros [= <- <-]. }
  assert (Hupd : push_inv id level D0
            (dict_set (devices (self w)) k (set_current_state level dk))).
  { intros k'. specialize (Hinv k').
    destruct (list_eq_dec N.eq_dec k k') as [->|Hne].
    - rewrite dict_get_set_same. rewrite Hk in Hinv.
      destruct (dict_get D0 k') as [d0|]; [|discriminate]. right.
      destruct Hinv as [[= ->]|[= ->]]; unfold pushed.
      + now rewrite Hm.
      + unfold pushed in Hm |- *. destruct (zone_matches id d0) eqn:E.
        * reflexivity.
        * now rewrite E in Hm.
    - now rewrite dict_get_set_other. }
  unfold update; simpl.
  destruct (dict_get (_subscribers (self w)) k);
    unfold emit, ret; intros [= <- <-]; exact Hupd.
Qed.

Lemma push_loop_inv id level D0 ks : forall w r w',
  push_inv id level D0 (devices (self w)) ->
  for_each ks (push_turn id level) w = (r, w') ->
  push_inv id level D0 (devices (self w')).
Proof.
  induction ks as [|k ks IH]; intros w r w' Hinv; simpl.
  - unfold ret. now intros [= <- <-].
  - unfold bind. destruct (push_turn id level k w) as [[[]|e] w1] eqn:Hstep.
    + intros H. eapply IH; [|exact H]. eapply push_turn_inv; eauto.
    + intros [= <- <-]. eapply push_turn_inv; eauto.
Qed.

(** C6. For every device in the cache whose zone is null, handling any
    message leaves its entry, and so its current_state, unchanged, however
    the handling ends.  More generally an entry changes only when the
    message is a zone status whose zone id (the text after the last slash of
    its href) is the zone of the device, and then only its current_state
    changes, to the level of the message. *)
Theorem push_leaves_devices_without_zone (resp : json) (w w' : World)
    (r : result unit) (k : pystr) (d : Device) :
  _handle_response resp w = (r, w') ->
  dict_get (devices (self w)) k = Some d ->
  (zone d = None -> dict_get (devices (self w')) k = Some d) /\
  (dict_get (devices (self w')) k = Some d \/
   exists href level,
     zone_status resp href level /\
     zone d = Some (last_segment href) /\
     dict_get (devices (self w')) k = Some (set_current_state level d)).
Proof.
  intros Hrun Hd.
  assert (Hmain : dict_get (devices (self w')) k = Some d \/
    exists href level,
      zone_status resp href level /\
      zone d = Some (last_segment href) /\
      dict_get (devices (self w')) k = Some (set_current_state level d)).
  { destruct (handle_response_cases resp w) as [Hsame|(href & level & Hzs)].
    - rewrite Hrun in Hsame. simpl in Hsame. subst w'. now left.
    - rewrite (@handle_response_zone_status resp href level w Hzs) in Hrun.
      unfold bind at 1, get_self in Hrun.
      eapply push_loop_inv in Hrun; [|apply push_inv_refl].
      pose proof (Hrun k) as Hk.
      rewrite Hd in Hk. destruct Hk as [Hk|Hk]; [now left|].
      unfold pushed in Hk. destruct (zone_matches (last_segment href) d) eqn:Hm.
      + right. exists href, level. repeat split; auto.
        unfold zone_matches in Hm. destruct (zone d) as [z|]; [|discriminate].
        apply pystr_eqb_eq in Hm. now subst.
      + now left. }
  split; [|exact Hmain].
  intros Hz. destruct Hmain as [H|(href & level & _ & Hz' & _)]; [exact H|].
  congruence.
Qed.

Lemma push_leaves_devices_without_zone_witness :
  dict_get (devices (self (snd (_handle_response push_42 home_world)))) (str "9")
  = Some remote.
Proof.
  refine (proj1 (@push_leaves_devices_without_zone push_42 home_world
                   (snd (_handle_response push_42 home_world))
                   (fst (_handle_response push_42 home_world))
                   (str "9") remote _ _) _).
  - vm_compute. reflexivity.
  - reflexivity.
  - reflexivity.
Defined.

(** The loop of [_handle_response] entry by entry: [pre] has been visited,
    [rest] is still to come. *)
Lemma push_loop_run id level : forall rest pre w,
  devices (self w) = pre ++ rest ->
  NoDup (keys (pre ++ rest)) ->
  for_each (keys rest) (push_turn id level) w =
  (Ok tt,
   mkWorld (set_devices (pre ++ List.map (fun e => (fst e, pushed id level (snd e))) rest)
                        (self w))
           (trace w ++ flat_map (notified (_subscribers (self w)) id) rest)
           (network w)).
Proof.
  induction rest as [|[k d] rest IH]; intros pre w Hdev Hnd.
  - simpl. unfold ret. rewrite List.app_nil_r in Hdev. rewrite !List.app_nil_r.
    destruct w as [[] ? ?]; simpl in *. now subst.
  - assert (Hk : ~ In k (keys pre)).
    { unfold keys in *. rewrite map_app in Hnd. simpl in Hnd.
      apply NoDup_remove_2 in Hnd. intros Hin. apply Hnd.
      apply in_or_app. now left. }
    assert (Hget : dict_get (devices (self w)) k = Some d).
    { rewrite Hdev, dict_get_app_skip by exact Hk. simpl.
      now rewrite pystr_eqb_refl. }
    assert (Hnd' : forall d', NoDup (keys ((pre ++ [(k, d')]) ++ rest))).
    { intros d'. rewrite <- List.app_assoc. simpl.
      unfold keys in *. rewrite map_app in *. exact Hnd. }
    cbn [keys List.map fst for_each].
    change (List.map fst rest) with (keys rest).
    unfold bind at 1. unfold push_turn at 1. unfold bind at 1, get_self at 1.
    rewrite Hget.
    assert (Hright :
      flat_map (notified (_subscribers (self w)) id) ((k, d) :: rest)
      = notified (_subscribers (self w)) id (k, d)
        ++ flat_map (notified (_subscribers (self w)) id) rest) by reflexivity.
    rewrite Hright. clear Hright.
    unfold notified at 1, pushed at 1. cbn [fst snd].
    destruct (zone_matches id d) eqn:Hm.
    + set (w1 := mkWorld
                   (set_devices (dict_set (devices (self w)) k
                                          (set_current_state level d)) (self w))
                   (trace w) (network w)).
      assert (Hdev1 : devices (self w1)
                      = (pre ++ [(k, set_current_state level d)]) ++ rest).
      { simpl. rewrite Hdev, dict_set_app_skip by exact Hk. simpl.
        rewrite pystr_eqb_refl. now rewrite <- List.app_assoc. }
      unfold bind at 1, update at 1. fold w1.
      destruct (dict_get (_subscribers (self w)) k) as [cb|] eqn:Hsub.
      * unfold emit at 1. cbv beta iota.
        rewrite (IH (pre ++ [(k, set_current_state level d)]));
          [|exact Hdev1|apply Hnd'].
        subst w1. unfold set_devices. simpl.
        rewrite <- !List.app_assoc. reflexivity.
      * unfold ret at 1. cbv beta iota.
        rewrite (IH (pre ++ [(k, set_current_state level d)]));
          [|exact Hdev1|apply Hnd'].
        subst w1. unfold set_devices. simpl.
        rewrite <- !List.app_assoc. reflexivity.
    + unfold ret at 1. cbv beta iota.
      rewrite (IH (pre ++ [(k, d)]));
        [|rewrite Hdev; now rewrite <- List.app_assoc|apply Hnd'].
      unfold set_devices. simpl. rewrite <- !List.app_assoc. reflexivity.
Qed.

Lemma calls_for_app id a b : calls_for id (a ++ b) = (calls_for id a + calls_for id b)%nat.
Proof. unfold calls_for. now rewrite filter_app, List.length_app. Qed.

(** A device that is not in the cache is not called. *)
Lemma calls_for_absent subs zid id : forall D,
  ~ In id (keys D) -> calls_for id (flat_map (notified subs zid) D) = O.
Proof.
  induction D as [|[k d] D IH]; intros Hin; [reflexivity|].
  simpl in Hin. cbn [flat_map]. rewrite calls_for_app, IH by tauto.
  unfold notified; cbn [fst snd].
  destruct (zone_matches zid d); [|reflexivity].
  destruct (dict_get subs k); [|reflexivity].
  unfold calls_for; simpl.
  rewrite (proj2 (pystr_eqb_neq k id)) by tauto. reflexivity.
Qed.

Lemma calls_for_entry subs zid id : forall D d,
  NoDup (keys D) ->
  dict_get D id = Some d ->
  calls_for id (flat_map (notified subs zid) D)
  = if zone_matches zid d && dict_in id subs then 1%nat else O.
Proof.
  induction D as [|[k d0] D IH]; intros d Hnd Hget; [discriminate|].
  simpl in Hget, Hnd. inversion Hnd as [|? ? Hn Hd]; subst.
  cbn [flat_map]. rewrite calls_for_app.
  destruct (pystr_eqb k id) eqn:E.
  - apply pystr_eqb_eq in E; subst k. injection Hget as ->.
    rewrite calls_for_absent by exact Hn.
    unfold notified, dict_in; cbn [fst snd].
    destruct (zone_matches zid d); [|reflexivity].
    destruct (dict_get subs id); [|reflexivity].
    unfold calls_for; simpl. now rewrite pystr_eqb_refl.
  - rewrite (IH d Hd Hget).
    unfold notified; cbn [fst snd].
    destruct (zone_matches zid d0); [|reflexivity].
    destruct (dict_get subs k); [|reflexivity].
    unfold calls_for at 1; simpl. now rewrite E.
Qed.

Lemma dict_get_map_values {V} (f : V -> V) : forall (D : dict V) k,
  dict_get (List.map (fun e => (fst e, f (snd e))) D) k
  = option_map f (dict_get D k).
Proof.
  induction D as [|[k0 v0] D IH]; intros k; [reflexivity|].
  simpl. destruct (pystr_eqb k0 k); [reflexivity | apply IH].
Qed.

Lemma zone_matches_iff id d : zone_matches id d = true <-> zone d = Some id.
Proof.
  unfold zone_matches. destruct (zone d) as [z|].
  - split.
    + intros H. apply pystr_eqb_eq in H. now subst.
    + intros [= ->]. apply pystr_eqb_refl.
  - split; discriminate.
Qed.

Lemma calls_of_app id a b : calls_of id (a ++ b) = calls_of id a ++ calls_of id b.
Proof. unfold calls_of. apply filter_app. Qed.

Lemma calls_of_absent subs zid id : forall D,
  ~ In id (keys D) -> calls_of id (flat_map (notified subs zid) D) = [].
Proof.
  induction D as [|[k d] D IH]; intros Hin; [reflexivity|].
  simpl in Hin. cbn [flat_map]. rewrite calls_of_app, IH by tauto.
  unfold notified; cbn [fst snd].
  destruct (zone_matches zid d); [|reflexivity].
  destruct (dict_get subs k); [|reflexivity].
  unfold calls_of; cbn [filter List.app].
  rewrite (proj2 (pystr_eqb_neq k id)) by tauto. reflexivity.
Qed.

Lemma calls_of_entry subs zid id : forall D d,
  NoDup (keys D) ->
  dict_get D id = Some d ->
  calls_of id (flat_map (notified subs zid) D)
  = if zone_matches zid d
    then match dict_get subs id with
         | Some callback_ => [EvCallback id callback_]
         | None => []
         end
    else [].
Proof.
  induction D as [|[k d0] D IH]; intros d Hnd Hget; [discriminate|].
  simpl in Hget, Hnd. inversion Hnd as [|? ? Hn Hd]; subst.
  cbn [flat_map]. rewrite calls_of_app.
  destruct (pystr_eqb k id) eqn:E.
  - apply pystr_eqb_eq in E; subst k. injection Hget as ->.
    rewrite calls_of_absent by exact Hn. rewrite List.app_nil_r.
    unfold notified; cbn [fst snd].
    destruct (zone_matches zid d); [|reflexivity].
    destruct (dict_get subs id); [|reflexivity].
    unfold calls_of; cbn [filter]. now rewrite pystr_eqb_refl.
  - rewrite (IH d Hd Hget).
    unfold notified at 1; cbn [fst snd].
    destruct (zone_matches zid d0); [|reflexivity].
    destruct (dict_get subs k); [|reflexivity].
    unfold calls_of at 1; cbn [filter List.app]. now rewrite E.
Qed.

(** What a push for the zone [id] makes of one entry of the cache and of
    its subscriber: the entry of a device of the zone is the old one with
    the level in current_state, and its callback is called once; the entry
    of another device is the old one, and its callback is not called. *)
Lemma push_entry (subs : dict callback) (D : dict Device) (id : pystr)
    (level : json) (k : pystr) (d : Device) :
  NoDup (keys D) ->
  dict_get D k = Some d ->
  exists d',
    dict_get (List.map (fun e => (fst e, pushed id level (snd e))) D) k
    = Some d' /\
    (zone d = Some id ->
       current_state d' = level /\
       device_id d' = device_id d /\ name d' = name d /\
       type d' = type d /\ zone d' = zone d /\
       calls_of k (flat_map (notified subs id) D)
       = match dict_get subs k with
         | Some callback_ => [EvCallback k callback_]
         | None => []
         end) /\
    (zone d <> Some id ->
       d' = d /\ calls_of k (flat_map (notified subs id) D) = []).
Proof.
  intros Hnd Hget. exists (pushed id level d).
  rewrite dict_get_map_values, Hget. split; [reflexivity|].
  rewrite (@calls_of_entry subs id k D d Hnd Hget). unfold pushed.
  destruct (zone_matches id d) eqn:E.
  - apply zone_matches_iff in E. split; [|intros H; contradiction].
    intros _. repeat split.
  - split.
    + intros H. apply zone_matches_iff in H. congruence.
    + intros _. split; reflexivity.
Qed.

(** C4. For every message whose CommuniqueType is ReadResponse and whose
    body carries a ZoneStatus with a zone href and a level, handling the
    message returns and leaves the world given below.  For every cached
    device whose zone is the zone id of the href (the text after its last
    slash), the entry after the handling has that level as current_state and
    is otherwise the entry before, and the callback registered for the
    device, if there is one, is called exactly once; every other cached
    device keeps its entry and its callback is not called.  The calls are
    made in the order of the cache. *)
Theorem push_sets_level_and_notifies_once (resp : json) (href : pystr)
    (level : json) (w : World) :
  zone_status resp href level ->
  NoDup (keys (devices (self w))) ->
  let id := last_segment href in
  let b := self w in
  let calls := flat_map (notified (_subscribers b) id) (devices b) in
  _handle_response resp w =
    (Ok tt,
     mkWorld (set_devices
                (List.map (fun e => (fst e, pushed id level (snd e))) (devices b)) b)
             (trace w ++ calls) (network w)) /\
  forall k d,
    dict_get (devices b) k = Some d ->
    exists d',
      dict_get (devices (self (snd (_handle_response resp w)))) k = Some d' /\
      (zone d = Some id ->
         current_state d' = level /\
         device_id d' = device_id d /\ name d' = name d /\
         type d' = type d /\ zone d' = zone d /\
         calls_of k calls
         = match dict_get (_subscribers b) k with
           | Some callback_ => [EvCallback k callback_]
           | None => []
           end) /\
      (zone d <> Some id -> d' = d /\ calls_of k calls = []).
Proof.
  intros Hzs Hnd. cbv zeta.
  assert (Hrun : _handle_response resp w =
    (Ok tt,
     mkWorld (set_devices
                (List.map (fun e => (fst e, pushed (last_segment href) level (snd e)))
                          (devices (self w))) (self w))
             (trace w ++ flat_map (notified (_subscribers (self w))
                                            (last_segment href))
                                  (devices (self w)))
             (network w))).
  { rewrite (@handle_response_zone_status resp href level w Hzs).
    unfold bind at 1, get_self at 1.
    now rewrite (@push_loop_run (last_segment href) level
                   (devices (self w)) [] w eq_refl Hnd). }
  split; [exact Hrun|].
  intros k d Hget. rewrite Hrun. cbn [snd self devices set_devices].
  now apply push_entry.
Qed.

Lemma push_sets_level_and_notifies_once_witness :
  _handle_response push_75 home_world =
    (Ok tt,
     mkWorld (set_devices [(str "5", lamp_75); (str "9", remote)] home)
             [EvCallback (str "5") 1%nat] []) /\
  (exists d',
     dict_get (devices (self (snd (_handle_response push_75 home_world))))
              (str "5") = Some d' /\
     current_state d' = JInt 75 /\
     calls_of (str "5") [EvCallback (str "5") 1%nat]
     = [EvCallback (str "5") 1%nat]) /\
  (exists d',
     dict_get (devices (self (snd (_handle_response push_75 home_world))))
              (str "9") = Some d' /\
     d' = remote /\
     calls_of (str "9") [EvCallback (str "5") 1%nat] = []).
Proof.
  assert (Hzs : zone_status push_75 (str "/zone/3") (JInt 75))
    by (econstructor; reflexivity).
  assert (Hnd : NoDup (keys (devices (self home_world)))).
  { repeat constructor; simpl; intuition discriminate. }
  destruct (@push_sets_level_and_notifies_once push_75 (str "/zone/3") (JInt 75)
              home_world Hzs Hnd) as [Hrun Hall].
  split; [exact Hrun|]. split.
  - destruct (Hall (str "5") lamp eq_refl) as (d' & Hget & Hin & _).
    exists d'. split; [exact Hget|].
    destruct (Hin eq_refl) as (Hlevel & _ & _ & _ & _ & Hcalls).
    split; [exact Hlevel | exact Hcalls].
  - destruct (Hall (str "9") remote eq_refl) as (d' & Hget & _ & Hout).
    exists d'. split; [exact Hget|].
    apply Hout. discriminate.
Defined.

(** ** The codec *)

Lemma all_bits_spec p : forall n prefix c,
  all_bits n prefix p = true ->
  prefix * 2 ^ N.of_nat n <= c < (prefix + 1) * 2 ^ N.of_nat n ->
  p c = true.
Proof.
  induction n as [|n IH]; intros prefix c H Hc.
  - simpl in *. assert (c = prefix) by lia. now subst.
  - simpl in H. apply andb_true_iff in H as [H1 H2].
    rewrite Nat2N.inj_succ, N.pow_succ_r' in Hc.
    set (q := 2 ^ N.of_nat n) in *.
    destruct (N.lt_ge_cases c ((2 * prefix + 1) * q)).
    + apply (IH (2 * prefix)); [exact H1 | lia].
    + apply (IH (2 * prefix + 1)); [exact H2 | lia].
Qed.

Lemma escape_reads_back_all c : c < 65536 -> escape_reads_back c = true.
Proof.
  intros Hc. apply (@all_bits_spec escape_reads_back 16 0).
  - vm_compute. reflexivity.
  - change (2 ^ N.of_nat 16) with 65536. lia.
Qed.

Lemma surrogate_bits_all x : x < 1024 -> surrogate_bits x = true.
Proof.
  intros Hx. apply (@all_bits_spec surrogate_bits 10 0).
  - vm_compute. reflexivity.
  - change (2 ^ N.of_nat 10) with 1024. lia.
Qed.

Import Json.

Lemma u_escape_shape c :
  c < 65536 ->
  exists h1 h2 h3 h4,
    u_escape c = [BACKSLASH; 117; h1; h2; h3; h4] /\
    printable h1 = true /\ printable h2 = true /\
    printable h3 = true /\ printable h4 = true /\
    hex4 h1 h2 h3 h4 = Some c.
Proof.
  intros Hc. pose proof (escape_reads_back_all Hc) as H.
  unfold escape_reads_back, u_escape in H.
  exists (hexdigit (N.shiftr c 12 mod 16)), (hexdigit (N.shiftr c 8 mod 16)),
         (hexdigit (N.shiftr c 4 mod 16)), (hexdigit (c mod 16)).
  repeat (apply andb_true_iff in H as [H ?]).
  destruct (hex4 _ _ _ _) as [c'|]; [|discriminate].
  match goal with E : (c' =? c) = true |- _ => apply N.eqb_eq in E; subst c' end.
  repeat split; assumption.
Qed.

Lemma land_1023_lt a : N.land a 1023 < 1024.
Proof.
  change 1023 with (N.ones 10). rewrite N.land_ones.
  apply N.mod_lt. discriminate.
Qed.

Lemma lor_shiftl_10 x y : y < 1024 -> N.lor (N.shiftl x 10) y = x * 1024 + y.
Proof.
  intros Hy.
  assert (Hland : N.land (N.shiftl x 10) y = 0).
  { rewrite <- (N.mod_small y 1024) by exact Hy.
    change 1024 with (2 ^ 10). rewrite <- N.land_ones.
    rewrite (N.land_comm y), N.land_assoc, N.land_ones, N.shiftl_mul_pow2.
    rewrite N.Div0.mod_mul. apply N.land_0_l. }
  rewrite <- N.lxor_lor by exact Hland.
  rewrite <- N.add_nocarry_lxor by exact Hland.
  now rewrite N.shiftl_mul_pow2.
Qed.

(** The two escapes of a character beyond the basic plane. *)
Lemma surrogates_of c :
  65536 <= c -> valid_char c = true ->
  let n := c - 65536 in
  let s1 := N.lor 55296 (N.land (N.shiftr n 10) 1023) in
  let s2 := N.lor 56320 (N.land n 1023) in
  s1 < 65536 /\ s2 < 65536 /\
  is_high_surrogate s1 = true /\ is_low_surrogate s1 = false /\
  is_low_surrogate s2 = true /\
  join_surrogates s1 s2 = c.
Proof.
  intros Hlo Hv n s1 s2. unfold valid_char in Hv. apply N.ltb_lt in Hv.
  set (x := N.land (N.shiftr n 10) 1023) in *.
  set (y := N.land n 1023) in *.
  assert (Hx : x < 1024) by apply land_1023_lt.
  assert (Hy : y < 1024) by apply land_1023_lt.
  pose proof (surrogate_bits_all Hx) as Bx.
  pose proof (surrogate_bits_all Hy) as By.
  unfold surrogate_bits in Bx, By.
  repeat (apply andb_true_iff in Bx as [Bx ?]).
  repeat (apply andb_true_iff in By as [By ?]).
  repeat match goal with E : (_ =? _) = true |- _ => apply N.eqb_eq in E end.
  assert (E1 : s1 = 55296 + x) by (subst s1; assumption).
  assert (E2 : s2 = 56320 + y) by (subst s2; assumption).
  assert (Hn : n < 1048576) by (subst n; lia).
  assert (Ex : x = n / 1024).
  { subst x. change 1023 with (N.ones 10).
    rewrite N.land_ones, N.shiftr_div_pow2. change (2 ^ 10) with 1024.
    apply N.mod_small. apply N.Div0.div_lt_upper_bound. lia. }
  assert (Ey : y = n mod 1024).
  { subst y. change 1023 with (N.ones 10). now rewrite N.land_ones. }
  unfold is_high_surrogate, is_low_surrogate, join_surrogates.
  rewrite E1, E2.
  repeat split; try lia.
  - apply andb_true_iff; split; apply N.leb_le; lia.
  - apply andb_false_iff; left; apply N.leb_gt; lia.
  - apply andb_true_iff; split; apply N.leb_le; lia.
  - replace (N.land (55296 + x) 1023) with x by (symmetry; assumption).
    replace (N.land (56320 + y) 1023) with y by (symmetry; assumption).
    rewrite lor_shiftl_10 by exact Hy.
    rewrite Ex, Ey. pose proof (N.div_mod n 1024). subst n. lia.
Qed.

(** ** Strings *)

Lemma scan_plain c r :
  (c =? QUOTE) = false -> (c =? BACKSLASH) = false -> (c <=? 31) = false ->
  scanstring (c :: r) = push c (scanstring r).
Proof. intros H1 H2 H3. cbn [scanstring]. now rewrite H1, H2, H3. Qed.

Lemma scan_u_eq h1 h2 h3 h4 r2 :
  scanstring (BACKSLASH :: 117 :: h1 :: h2 :: h3 :: h4 :: r2) =
  match hex4 h1 h2 h3 h4 with
  | None => Raise ValueError
  | Some u =>
      if is_high_surrogate u then
        match r2 with
        | b :: u' :: g1 :: g2 :: g3 :: g4 :: r3 =>
            if (b =? BACKSLASH) && (u' =? 117) then
              match hex4 g1 g2 g3 g4 with
              | None => Raise ValueError
              | Some u2 =>
                  if is_low_surrogate u2
                  then push (join_surrogates u u2) (scanstring r3)
                  else push u (scanstring r2)
              end
            else push u (scanstring r2)
        | _ => push u (scanstring r2)
        end
      else push u (scanstring r2)
  end.
Proof. reflexivity. Qed.

(** An escape that is not the first half of a pair. *)
Lemma scan_u h1 h2 h3 h4 u r2 :
  hex4 h1 h2 h3 h4 = Some u ->
  (is_high_surrogate u = true -> no_low_escape r2) ->
  scanstring (BACKSLASH :: 117 :: h1 :: h2 :: h3 :: h4 :: r2)
  = push u (scanstring r2).
Proof.
  intros Hh Hno. rewrite scan_u_eq, Hh.
  destruct (is_high_surrogate u); [|reflexivity].
  specialize (Hno eq_refl).
  destruct r2 as [|b [|u' [|g1 [|g2 [|g3 [|g4 r3]]]]]]; try reflexivity.
  destruct ((b =? BACKSLASH) && (u' =? 117)) eqn:E; [|reflexivity].
  apply andb_true_iff in E as [Eb Eu].
  apply N.eqb_eq in Eb, Eu. subst b u'.
  destruct (Hno g1 g2 g3 g4 r3 eq_refl) as (u2 & -> & ->). reflexivity.
Qed.

(** The two escapes of a pair. *)
Lemma scan_pair h1 h2 h3 h4 g1 g2 g3 g4 u u2 r3 :
  hex4 h1 h2 h3 h4 = Some u -> is_high_surrogate u = true ->
  hex4 g1 g2 g3 g4 = Some u2 -> is_low_surrogate u2 = true ->
  scanstring (BACKSLASH :: 117 :: h1 :: h2 :: h3 :: h4
              :: BACKSLASH :: 117 :: g1 :: g2 :: g3 :: g4 :: r3)
  = push (join_surrogates u u2) (scanstring r3).
Proof.
  intros Hh Hu Hg Hu2. rewrite scan_u_eq, Hh, Hu.
  change ((BACKSLASH =? BACKSLASH) && (117 =? 117)) with true.
  cbv iota. now rewrite Hg, Hu2.
Qed.

Lemma escape_char_case c : valid_char c = true -> escape_case c (escape_char c).
Proof.
  intros Hv. unfold escape_char.
  destruct (c =? QUOTE) eqn:E1.
  { apply N.eqb_eq in E1; subst. now apply EscNamed. }
  destruct (c =? BACKSLASH) eqn:E2.
  { apply N.eqb_eq in E2; subst. now apply EscNamed. }
  destruct (c =? 10) eqn:E3.
  { apply N.eqb_eq in E3; subst. now apply EscNamed. }
  destruct (c =? 13) eqn:E4.
  { apply N.eqb_eq in E4; subst. now apply EscNamed. }
  destruct (c =? 9) eqn:E5.
  { apply N.eqb_eq in E5; subst. now apply EscNamed. }
  destruct (c =? 12) eqn:E6.
  { apply N.eqb_eq in E6; subst. now apply EscNamed. }
  destruct (c =? 8) eqn:E7.
  { apply N.eqb_eq in E7; subst. now apply EscNamed. }
  destruct ((32 <=? c) && (c <=? 126)) eqn:E8.
  { now apply EscPlain. }
  destruct (c <? 65536) eqn:E9.
  { apply N.ltb_lt in E9.
    destruct (u_escape_shape E9) as (h1 & h2 & h3 & h4 & -> & ? & ? & ? & ? & ?).
    now apply EscU. }
  apply N.ltb_ge in E9.
  destruct (surrogates_of E9 Hv) as (L1 & L2 & A & B & C & D).
  cbv zeta.
  destruct (u_escape_shape L1) as (h1 & h2 & h3 & h4 & -> & ? & ? & ? & ? & ?).
  destruct (u_escape_shape L2) as (g1 & g2 & g3 & g4 & -> & ? & ? & ? & ? & ?).
  eapply EscPair; eauto.
Qed.

Lemma printable_not_control c : printable c = true -> (c <=? 31) = false.
Proof.
  unfold printable. intros H. apply andb_true_iff in H as [H _].
  apply N.leb_le in H. apply N.leb_gt. lia.
Qed.

Lemma scan_escape_case c e r2 :
  escape_case c e ->
  (is_high_surrogate c = true -> no_low_escape r2) ->
  scanstring (e ++ r2) = push c (scanstring r2).
Proof.
  intros [e0 Hne Hun _|H1 H2 Hp|h1 h2 h3 h4 _ _ _ _ _ Hh|
          h1 h2 h3 h4 g1 g2 g3 g4 s1 s2 _ _ _ _ _ _ _ _ Hh Hg A _ C D _] Hno.
  - change ([BACKSLASH; e0] ++ r2) with (BACKSLASH :: e0 :: r2).
    cbn [scanstring].
    change (BACKSLASH =? QUOTE) with false.
    change (BACKSLASH =? BACKSLASH) with true. cbv iota.
    rewrite (proj2 (N.eqb_neq e0 117) Hne). now rewrite Hun.
  - apply scan_plain; auto using printable_not_control.
  - now apply scan_u.
  - cbn [List.app]. rewrite <- D. now apply scan_pair.
Qed.

Lemma escape_case_printable c e : escape_case c e -> forallb printable e = true.
Proof.
  intros []; cbn [forallb];
    repeat match goal with H : _ = true |- _ => rewrite H end; reflexivity.
Qed.

Lemma no_low_escape_quote r : no_low_escape (QUOTE :: r).
Proof. intros g1 g2 g3 g4 r' [=]. Qed.

Lemma no_low_escape_case c e r :
  escape_case c e -> is_low_surrogate c = false -> no_low_escape (e ++ r).
Proof.
  intros [e0 Hne _ _|H1 H2 _|h1 h2 h3 h4 _ _ _ _ _ Hh|
          h1 h2 h3 h4 g1 g2 g3 g4 s1 s2 _ _ _ _ _ _ _ _ Hh _ _ B _ _ _] Hlow
         k1 k2 k3 k4 r'; cbn [List.app]; intros [= ]; subst.
  - congruence.
  - discriminate.
  - eauto.
  - eauto.
Qed.

Lemma scanstring_escaped : forall s rest,
  text_ok s = true ->
  scanstring (flat_map escape_char s ++ QUOTE :: rest) = Ok (s, rest).
Proof.
  unfold text_ok. induction s as [|c s IH]; intros rest Hok.
  - simpl. reflexivity.
  - apply andb_true_iff in Hok as [Hv Hp].
    cbn [forallb] in Hv. apply andb_true_iff in Hv as [Hc Hv].
    cbn [pair_free] in Hp. apply andb_true_iff in Hp as [Hhead Hp].
    cbn [flat_map]. rewrite <- List.app_assoc.
    rewrite (@scan_escape_case c).
    + rewrite IH by (now rewrite Hv, Hp). reflexivity.
    + now apply escape_char_case.
    + intros Hhigh. destruct s as [|c' s'].
      * apply no_low_escape_quote.
      * cbn [flat_map]. rewrite <- List.app_assoc.
        apply no_low_escape_case with (c := c').
        -- apply escape_char_case. cbn [forallb] in Hv.
           now apply andb_true_iff in Hv as [Hv' _].
        -- rewrite Hhigh in Hhead. simpl in Hhead.
           now apply negb_true_iff in Hhead.
Qed.

Lemma encode_basestring_scans s rest :
  text_ok s = true ->
  exists r, encode_basestring_ascii s ++ rest = QUOTE :: r /\
            scanstring r = Ok (s, rest).
Proof.
  intros Hok. unfold encode_basestring_ascii.
  exists (flat_map escape_char s ++ QUOTE :: rest). split.
  - change ((QUOTE :: flat_map escape_char s ++ [QUOTE]) ++ rest)
      with (QUOTE :: ((flat_map escape_char s ++ [QUOTE]) ++ rest)).
    f_equal. rewrite <- List.app_assoc. reflexivity.
  - now apply scanstring_escaped.
Qed.

(** ** Numbers *)

Lemma to_uint_leading_nonzero p : leading_nonzero (Pos.to_uint p).
Proof.
  pose proof (DecimalPos.Unsigned.to_of (Pos.to_uint p)) as H.
  rewrite DecimalPos.Unsigned.of_to in H. cbn [N.to_uint] in H.
  pose proof (DecimalPos.Unsigned.to_uint_nonzero p) as Hnz.
  unfold unorm in H.
  destruct (nzhead (Pos.to_uint p)) eqn:E; rewrite H; simpl; auto.
  now apply nzhead_nonzero in E.
Qed.

Lemma read_digits_uint_chars : forall d rest,
  not_digit_next rest -> read_digits (uint_chars d ++ rest) = (d, rest).
Proof.
  induction d; intros rest Hr; cbn [uint_chars List.app];
    try (cbn [read_digits];
         match goal with
         | |- context [is_digit ?c] => change (is_digit c) with true
         end; cbv iota; rewrite IHd by exact Hr; reflexivity).
  destruct rest as [|c r]; [reflexivity|].
  cbn [not_digit_next] in Hr. cbn [read_digits]. now rewrite Hr.
Qed.

Lemma value_end_cases c r :
  value_end (c :: r) = true -> c = 44 \/ c = 93 \/ c = 125 \/ is_ws c = true.
Proof.
  cbn [value_end]. intros H.
  apply orb_true_iff in H as [H|H]; [|tauto].
  apply orb_true_iff in H as [H|H]; [|apply N.eqb_eq in H; tauto].
  apply orb_true_iff in H as [H|H]; apply N.eqb_eq in H; tauto.
Qed.

Lemma is_ws_cases c : is_ws c = true -> c = 32 \/ c = 9 \/ c = 10 \/ c = 13.
Proof.
  unfold is_ws. intros H.
  apply orb_true_iff in H as [H|H]; [|apply N.eqb_eq in H; tauto].
  apply orb_true_iff in H as [H|H]; [|apply N.eqb_eq in H; tauto].
  apply orb_true_iff in H as [H|H]; apply N.eqb_eq in H; tauto.
Qed.

Lemma value_end_number rest :
  value_end rest = true ->
  not_digit_next rest /\ starts_frac rest = false /\ starts_exp rest = false.
Proof.
  destruct rest as [|c r]; [now repeat split|].
  intros H. apply value_end_cases in H.
  destruct H as [->|[->|[->|H]]];
    [repeat split; destruct r; reflexivity ..|].
  apply is_ws_cases in H. destruct H as [->|[->|[->| ->]]]; repeat split;
    destruct r; reflexivity.
Qed.

Lemma match_digits_uint neg p rest :
  value_end rest = true ->
  exists c r, uint_chars (Pos.to_uint p) ++ rest = c :: r /\
    is_digit c = true /\
    match_digits neg (c :: r)
    = Ok (JInt (if neg then Z.neg p else Z.pos p), rest).
Proof.
  intros Hend. apply value_end_number in Hend as (Hd & Hf & He).
  pose proof (to_uint_leading_nonzero p) as Hlead.
  pose proof (read_digits_uint_chars (Pos.to_uint p) rest Hd) as Hread.
  pose proof (DecimalPos.Unsigned.of_to p) as Hof.
  remember (Pos.to_uint p) as u eqn:E.
  destruct u as [|d|d|d|d|d|d|d|d|d|d];
    try contradiction; cbn [uint_chars List.app] in *;
    eexists _, _; (split; [reflexivity|]); (split; [reflexivity|]);
    unfold match_digits;
    match goal with
    | |- context [(49 <=? ?c) && (?c <=? 57)] =>
        change ((49 <=? c) && (c <=? 57)) with true
    end; cbv iota beta zeta;
    rewrite Hread; cbv iota beta; rewrite Hf, He; cbn [orb];
    unfold N.of_uint; rewrite Hof; destruct neg; reflexivity.
Qed.

Lemma is_digit_range c : is_digit c = true -> 48 <= c <= 57.
Proof.
  unfold is_digit. intros H. apply andb_true_iff in H as [H1 H2].
  apply N.leb_le in H1, H2. lia.
Qed.

Ltac eqb_false c k :=
  let E := fresh "E" in
  assert (E : (c =? k) = false) by (apply N.eqb_neq; lia);
  rewrite E; clear E.

Lemma scan_once_number f c r :
  is_digit c = true \/
  (c = 45 /\ exists d r', r = d :: r' /\ is_digit d = true) ->
  scan_once (S f) (c :: r) = match_number (c :: r).
Proof.
  intros H. cbn [scan_once]. unfold QUOTE.
  destruct H as [H|(-> & d & r' & -> & H)]; apply is_digit_range in H.
  - eqb_false c 34. eqb_false c 123. eqb_false c 91. eqb_false c 110.
    eqb_false c 116. eqb_false c 102. eqb_false c 78. eqb_false c 73.
    eqb_false c 45. reflexivity.
  - change (45 =? 34) with false. change (45 =? 123) with false.
    change (45 =? 91) with false. change (45 =? 110) with false.
    change (45 =? 116) with false. change (45 =? 102) with false.
    change (45 =? 78) with false. change (45 =? 73) with false.
    change (45 =? 45) with true. cbn [andb].
    change (str "Infinity") with (73 :: str "nfinity").
    cbn [starts_with]. eqb_false 73 d. reflexivity.
Qed.

Lemma scan_once_int f z rest :
  value_end rest = true ->
  scan_once (S f) (int_repr z ++ rest) = Ok (JInt z, rest).
Proof.
  intros Hend. destruct z as [|p|p].
  - change (int_repr 0 ++ rest) with (48 :: rest).
    rewrite scan_once_number by now left.
    apply value_end_number in Hend as (_ & Hf & He).
    unfold match_number, match_digits.
    change (48 =? 45) with false. cbv iota beta zeta.
    change ((49 <=? 48) && (48 <=? 57)) with false.
    change (48 =? 48) with true. cbv iota beta.
    now rewrite Hf, He.
  - change (int_repr (Z.pos p)) with (uint_chars (Pos.to_uint p)).
    destruct (@match_digits_uint false p rest Hend) as (c & r & -> & Hc & Hm).
    rewrite scan_once_number by now left.
    unfold match_number. apply is_digit_range in Hc.
    rewrite (proj2 (N.eqb_neq c 45)) by lia. exact Hm.
  - change (int_repr (Z.neg p) ++ rest)
      with (45 :: (uint_chars (Pos.to_uint p) ++ rest)).
    destruct (@match_digits_uint true p rest Hend) as (c & r & -> & Hc & Hm).
    rewrite scan_once_number by (right; eauto). exact Hm.
Qed.

Lemma uint_chars_head d rest :
  d <> Nil -> exists c t, uint_chars d ++ rest = c :: t /\ is_digit c = true.
Proof. destruct d; intros H; try congruence; cbn; eauto. Qed.

Lemma dumps_starts_value v rest : starts_value (dumps v ++ rest).
Proof.
  unfold starts_value.
  destruct v as [|[]|z|s|items|pairs];
    try (cbn; eexists _, _; split; [reflexivity|]; now repeat split).
  destruct z as [|p|p].
  - cbn; eexists _, _; split; [reflexivity|]; now repeat split.
  - change (dumps (JInt (Z.pos p))) with (uint_chars (Pos.to_uint p)).
    destruct (@uint_chars_head (Pos.to_uint p) rest) as (c & t & -> & Hc).
    { apply DecimalPos.Unsigned.to_uint_nonnil. }
    apply is_digit_range in Hc. exists c, t. split; [reflexivity|].
    unfold is_ws. repeat split.
    + eqb_false c 32. eqb_false c 9. eqb_false c 10. eqb_false c 13. reflexivity.
    + apply N.eqb_neq; lia.
    + apply N.eqb_neq; lia.
  - cbn; eexists _, _; split; [reflexivity|]; now repeat split.
Qed.

Lemma skip_ws_starts_value s : starts_value s -> skip_ws s = s.
Proof. intros (c & t & -> & Hws & _). cbn [skip_ws]. now rewrite Hws. Qed.

Lemma json_nested_ind (P : json -> Prop) :
  P JNull -> (forall b, P (JBool b)) -> (forall z, P (JInt z)) ->
  (forall s, P (JStr s)) ->
  (forall items, Forall P items -> P (JArr items)) ->
  (forall pairs, Forall (fun kv => P (snd kv)) pairs -> P (JObj pairs)) ->
  forall v, P v.
Proof.
  intros HN HB HI HS HA HO. fix IH 1. intros [|b|z|s|items|pairs].
  - exact HN.
  - apply HB.
  - apply HI.
  - apply HS.
  - apply HA. induction items as [|x items IHi]; constructor.
    + apply IH.
    + exact IHi.
  - apply HO. induction pairs as [|[k v] pairs IHp]; constructor.
    + apply IH.
    + exact IHp.
Qed.

Lemma join_cons2 sep p q rest :
  join sep (p :: q :: rest) = p ++ sep ++ join sep (q :: rest).
Proof. reflexivity. Qed.

Lemma join_starts_value x xs rest :
  starts_value (join ITEM_SEPARATOR (List.map dumps (x :: xs)) ++ rest).
Proof.
  destruct xs as [|y ys].
  - apply dumps_starts_value.
  - cbn [List.map]. rewrite join_cons2, <- List.app_assoc.
    apply dumps_starts_value.
Qed.

Lemma parse_items_dumps : forall xs x f rest,
  Forall scans_back (x :: xs) ->
  forallb json_ok (x :: xs) = true ->
  (items_weight (x :: xs) <= f)%nat ->
  parse_items f (join ITEM_SEPARATOR (List.map dumps (x :: xs)) ++ 93 :: rest)
  = Ok (x :: xs, rest).
Proof.
  induction xs as [|y ys IH]; intros x f rest Hall Hok Hf;
    inversion Hall as [|? ? Hx Hxs]; subst;
    cbn [forallb] in Hok; apply andb_true_iff in Hok as [Hokx Hokxs];
    cbn [items_weight fold_right] in Hf;
    (destruct f as [|f]; [lia|]); cbn [parse_items].
  - cbn [List.map join].
    rewrite (Hx Hokx f (93 :: rest)) by (reflexivity || lia).
    reflexivity.
  - cbn [List.map]. rewrite join_cons2, <- !List.app_assoc.
    change (ITEM_SEPARATOR ++ ?t) with (44 :: 32 :: t).
    rewrite (Hx Hokx f) by (reflexivity || lia).
    cbn [skip_ws]. change (is_ws 44) with false. cbv iota.
    change (44 =? 93) with false. change (44 =? 44) with true. cbv iota.
    cbn [skip_ws]. change (is_ws 32) with true. cbv iota.
    change (dumps y :: List.map dumps ys) with (List.map dumps (y :: ys)).
    rewrite skip_ws_starts_value by apply (@join_starts_value y ys).
    rewrite (IH y f rest Hxs Hokxs).
    + reflexivity.
    + unfold items_weight. cbn [fold_right]. lia.
Qed.

Lemma pair_text_scans k v rest :
  text_ok k = true ->
  exists r, pair_text (k, v) ++ rest = QUOTE :: r /\
            scanstring r = Ok (k, 58 :: 32 :: dumps v ++ rest).
Proof.
  intros Hk. unfold pair_text. cbn [fst snd]. rewrite <- !List.app_assoc.
  change (KEY_SEPARATOR ++ ?t) with (58 :: 32 :: t).
  now apply encode_basestring_scans.
Qed.

Lemma pairs_start_quote kv kvs rest :
  exists r, join ITEM_SEPARATOR (List.map pair_text (kv :: kvs)) ++ rest
            = QUOTE :: r.
Proof.
  destruct kvs as [|kv' kvs]; cbn [List.map]; [cbn [join]|rewrite join_cons2];
    unfold pair_text, encode_basestring_ascii; cbn [List.app]; eauto.
Qed.

Lemma parse_pairs_dumps : forall kvs kv f rest,
  Forall (fun kv => scans_back (snd kv)) (kv :: kvs) ->
  forallb (fun kv => text_ok (fst kv) && json_ok (snd kv)) (kv :: kvs) = true ->
  (pairs_weight (kv :: kvs) <= f)%nat ->
  parse_pairs f (join ITEM_SEPARATOR (List.map pair_text (kv :: kvs)) ++ 125 :: rest)
  = Ok (kv :: kvs, rest).
Proof.
  induction kvs as [|kv' kvs IH]; intros [k v] f rest Hall Hok Hf;
    inversion Hall as [|? ? Hx Hxs]; subst; cbn [snd] in Hx;
    cbn [forallb fst snd] in Hok; apply andb_true_iff in Hok as [Hokx Hokxs];
    apply andb_true_iff in Hokx as [Hk Hv];
    cbn [pairs_weight fold_right snd] in Hf;
    (destruct f as [|f]; [lia|]).
  - cbn [List.map join].
    destruct (@pair_text_scans k v (125 :: rest) Hk) as (r & -> & Hscan).
    cbn [parse_pairs]. change (QUOTE =? QUOTE) with true. cbv iota.
    rewrite Hscan. cbn [skip_ws]. change (is_ws 58) with false. cbv iota.
    change (58 =? 58) with true. cbv iota.
    cbn [skip_ws]. change (is_ws 32) with true. cbv iota.
    rewrite skip_ws_starts_value by apply dumps_starts_value.
    rewrite (Hx Hv f (125 :: rest)) by (reflexivity || lia).
    reflexivity.
  - cbn [List.map]. rewrite join_cons2, <- !List.app_assoc.
    change (ITEM_SEPARATOR ++ ?t) with (44 :: 32 :: t).
    destruct (@pair_text_scans k v
                (44 :: 32 :: join ITEM_SEPARATOR
                                  (pair_text kv' :: List.map pair_text kvs)
                         ++ 125 :: rest) Hk) as (r & -> & Hscan).
    cbn [parse_pairs]. change (QUOTE =? QUOTE) with true. cbv iota.
    rewrite Hscan. cbn [skip_ws]. change (is_ws 58) with false. cbv iota.
    change (58 =? 58) with true. cbv iota.
    cbn [skip_ws]. change (is_ws 32) with true. cbv iota.
    rewrite skip_ws_starts_value by apply dumps_starts_value.
    rewrite (Hx Hv f) by (reflexivity || lia).
    cbn [skip_ws]. change (is_ws 44) with false. cbv iota.
    change (44 =? 125) with false. change (44 =? 44) with true. cbv iota.
    cbn [skip_ws]. change (is_ws 32) with true. cbv iota.
    change (pair_text kv' :: List.map pair_text kvs)
      with (List.map pair_text (kv' :: kvs)).
    destruct (@pairs_start_quote kv' kvs (125 :: rest)) as (q & Hq).
    assert (Hskip : skip_ws (join ITEM_SEPARATOR (List.map pair_text (kv' :: kvs))
                             ++ 125 :: rest)
                    = join ITEM_SEPARATOR (List.map pair_text (kv' :: kvs))
                      ++ 125 :: rest).
    { rewrite Hq. reflexivity. }
    rewrite Hskip, (IH kv' f rest Hxs Hokxs).
    + reflexivity.
    + unfold pairs_weight. cbn [fold_right]. lia.
Qed.

Lemma existsb_eqb_In k l : existsb (pystr_eqb k) l = true <-> In k l.
Proof.
  rewrite existsb_exists. split.
  - intros (x & Hin & Heq). apply pystr_eqb_eq in Heq. now subst.
  - intros Hin. exists k. split; [exact Hin | apply pystr_eqb_refl].
Qed.

Lemma distinct_NoDup l : distinct l = true <-> NoDup l.
Proof.
  induction l as [|k l IH]; cbn [distinct].
  - split; [constructor | reflexivity].
  - rewrite andb_true_iff, negb_true_iff, IH. split.
    + intros [Hn Hd]. constructor; [|exact Hd].
      intros Hin. apply existsb_eqb_In in Hin. congruence.
    + intros H. inversion H as [|? ? Hn Hd]; subst. split; [|exact Hd].
      destruct (existsb (pystr_eqb k) l) eqn:E; [|reflexivity].
      apply existsb_eqb_In in E. contradiction.
Qed.

Lemma dict_set_fresh {V} (d : dict V) k v :
  ~ In k (keys d) -> dict_set d k v = d ++ [(k, v)].
Proof.
  induction d as [|[k0 v0] d IH]; cbn [dict_set keys List.map fst List.app]; intros H.
  - reflexivity.
  - rewrite (proj2 (pystr_eqb_neq k0 k)) by (simpl in H; tauto).
    f_equal. apply IH. simpl in H. tauto.
Qed.

Lemma dict_of_pairs_distinct pairs :
  distinct (List.map fst pairs) = true -> dict_of_pairs pairs = pairs.
Proof.
  intros H. apply distinct_NoDup in H. unfold dict_of_pairs.
  enough (G : forall l acc, NoDup (List.map fst (acc ++ l)) ->
    fold_left (fun d kv => dict_set d (fst kv) (snd kv)) l acc = acc ++ l)
    by (apply (G pairs []); exact H).
  induction l as [|[k v] l IH]; intros acc Hnd; cbn [fold_left fst snd].
  - now rewrite List.app_nil_r.
  - rewrite dict_set_fresh.
    + rewrite IH; rewrite <- List.app_assoc; [reflexivity | exact Hnd].
    + rewrite map_app in Hnd. cbn [List.map fst] in Hnd.
      apply NoDup_remove_2 in Hnd. intros Hin. apply Hnd.
      apply in_or_app. now left.
Qed.

(** The scanner reads back the text of an object, with fuel for its
    nesting. *)
Lemma scan_once_dumps : forall v, scans_back v.
Proof.
  apply json_nested_ind; unfold scans_back.
  - intros _ [|f] rest Hf Hend; [simpl in Hf; lia|]. reflexivity.
  - intros [] _ [|f] rest Hf Hend; try (simpl in Hf; lia); reflexivity.
  - intros z _ [|f] rest Hf Hend; [simpl in Hf; lia|].
    now apply scan_once_int.
  - intros s Hok [|f] rest Hf Hend; [simpl in Hf; lia|].
    cbn [json_ok] in Hok. cbn [dumps].
    destruct (@encode_basestring_scans s rest Hok) as (r & -> & Hscan).
    cbn [scan_once]. change (QUOTE =? QUOTE) with true. cbv iota.
    now rewrite Hscan.
  - intros items Hall Hok [|f] rest Hf Hend; [simpl in Hf; lia|].
    cbn [json_ok] in Hok. cbn [weight] in Hf.
    destruct items as [|x xs].
    + reflexivity.
    + cbn [dumps]. rewrite <- !List.app_assoc.
      change (str "[" ++ ?t) with (91 :: t). change (str "]" ++ ?t) with (93 :: t).
      cbn [scan_once]. change (91 =? QUOTE) with false.
      change (91 =? 123) with false. change (91 =? 91) with true. cbv iota.
      destruct (@join_starts_value x xs (93 :: rest)) as (c & t & Ht & Hws & H93 & _).
      rewrite Ht. cbn [skip_ws]. rewrite Hws, H93, <- Ht.
      rewrite parse_items_dumps; auto.
      unfold items_weight. lia.
  - intros pairs Hall Hok [|f] rest Hf Hend; [simpl in Hf; lia|].
    cbn [json_ok] in Hok. apply andb_true_iff in Hok as [Hok Hdist].
    cbn [weight] in Hf.
    destruct pairs as [|kv kvs].
    + reflexivity.
    + cbn [dumps]. rewrite <- !List.app_assoc.
      change (str "{" ++ ?t) with (123 :: t). change (str "}" ++ ?t) with (125 :: t).
      cbn [scan_once]. change (123 =? QUOTE) with false.
      change (123 =? 123) with true. cbv iota.
      change (List.map (fun kv0 => encode_basestring_ascii (fst kv0)
                                   ++ KEY_SEPARATOR ++ dumps (snd kv0)) (kv :: kvs))
        with (List.map pair_text (kv :: kvs)).
      destruct (@pairs_start_quote kv kvs (125 :: rest)) as (q & Hq).
      rewrite Hq. cbn [skip_ws]. change (is_ws QUOTE) with false.
      change (QUOTE =? 125) with false. cbv iota. rewrite <- Hq.
      rewrite parse_pairs_dumps; auto.
      * now rewrite dict_of_pairs_distinct.
      * unfold pairs_weight. lia.
Qed.

(** ** Text, octets and fuel *)

Lemma forallb_flat_map {A B} (p : B -> bool) (f : A -> list B) l :
  (forall x, forallb p (f x) = true) -> forallb p (flat_map f l) = true.
Proof.
  intros H. induction l as [|x l IH]; [reflexivity|].
  cbn [flat_map]. now rewrite forallb_app, H, IH.
Qed.

(** The escape of any character, valid or not, is printable. *)
Lemma escape_char_printable c : forallb printable (escape_char c) = true.
Proof.
  unfold escape_char.
  do 7 (match goal with
        | |- context [if ?b then _ else _] => destruct b; [reflexivity|]
        end).
  destruct ((32 <=? c) && (c <=? 126)) eqn:E8.
  { cbn [forallb]. unfold printable. now rewrite E8. }
  destruct (c <? 65536) eqn:E9.
  - apply N.ltb_lt in E9.
    destruct (u_escape_shape E9) as (h1 & h2 & h3 & h4 & -> & H1 & H2 & H3 & H4 & _).
    cbn [forallb]. now rewrite H1, H2, H3, H4.
  - cbv zeta.
    set (x := N.land (N.shiftr (c - 65536) 10) 1023).
    set (y := N.land (c - 65536) 1023).
    assert (Hx : x < 1024) by apply land_1023_lt.
    assert (Hy : y < 1024) by apply land_1023_lt.
    pose proof (surrogate_bits_all Hx) as Bx.
    pose proof (surrogate_bits_all Hy) as By.
    unfold surrogate_bits in Bx, By.
    repeat (apply andb_true_iff in Bx as [Bx ?]).
    repeat (apply andb_true_iff in By as [By ?]).
    repeat match goal with E : (_ =? _) = true |- _ => apply N.eqb_eq in E end.
    assert (L1 : N.lor 55296 x < 65536) by lia.
    assert (L2 : N.lor 56320 y < 65536) by lia.
    destruct (u_escape_shape L1) as (h1 & h2 & h3 & h4 & -> & P1 & P2 & P3 & P4 & _).
    destruct (u_escape_shape L2) as (g1 & g2 & g3 & g4 & -> & G1 & G2 & G3 & G4 & _).
    cbn [forallb List.app]. now rewrite P1, P2, P3, P4, G1, G2, G3, G4.
Qed.

Lemma encode_basestring_printable s :
  forallb printable (encode_basestring_ascii s) = true.
Proof.
  unfold encode_basestring_ascii. cbn [forallb].
  rewrite forallb_app, forallb_flat_map by apply escape_char_printable.
  reflexivity.
Qed.

Lemma uint_chars_printable d : forallb printable (uint_chars d) = true.
Proof. induction d; cbn [uint_chars forallb]; auto. Qed.

Lemma join_printable sep parts :
  forallb printable sep = true ->
  Forall (fun p => forallb printable p = true) parts ->
  forallb printable (join sep parts) = true.
Proof.
  intros Hsep Hall. induction Hall as [|p parts Hp Hall IH]; [reflexivity|].
  destruct parts as [|q parts]; [exact Hp|].
  rewrite join_cons2. rewrite forallb_app, Hp. rewrite forallb_app, Hsep.
  exact IH.
Qed.

Lemma dumps_printable : forall v, forallb printable (dumps v) = true.
Proof.
  apply json_nested_ind.
  - reflexivity.
  - intros []; reflexivity.
  - intros z. cbn [dumps]. unfold int_repr.
    destruct (z <? 0)%Z; cbn [forallb]; now rewrite uint_chars_printable.
  - intros s. apply encode_basestring_printable.
  - intros items Hall. cbn [dumps]. rewrite !forallb_app.
    rewrite join_printable; [reflexivity..|].
    now apply Forall_map.
  - intros pairs Hall. cbn [dumps]. rewrite !forallb_app.
    rewrite join_printable; [reflexivity..|].
    apply Forall_map. eapply Forall_impl; [|exact Hall].
    intros [k v] H. cbn [fst snd] in *.
    now rewrite !forallb_app, encode_basestring_printable, H.
Qed.

Lemma printable_is_ascii c : printable c = true -> is_ascii c = true.
Proof.
  unfold printable, is_ascii. intros H.
  apply andb_true_iff in H as [H1 H2]. apply N.leb_le in H1, H2.
  apply andb_true_iff; split; apply N.leb_le; lia.
Qed.

Lemma is_ascii_range c : is_ascii c = true -> 1 <= c <= 127.
Proof.
  unfold is_ascii. intros H.
  apply andb_true_iff in H as [H1 H2]. apply N.leb_le in H1, H2. lia.
Qed.

Lemma utf8_encode_ascii : forall s,
  forallb is_ascii s = true -> utf8_encode s = Ok s.
Proof.
  induction s as [|c s IH]; [reflexivity|].
  cbn [forallb]. intros H. apply andb_true_iff in H as [Hc Hs].
  apply is_ascii_range in Hc. cbn [utf8_encode].
  rewrite (proj2 (N.ltb_lt c 128)) by lia. now rewrite IH.
Qed.

Lemma utf8_decode_ascii : forall b,
  forallb is_ascii b = true -> utf8_decode b = Ok b.
Proof.
  induction b as [|c b IH]; [reflexivity|].
  cbn [forallb]. intros H. apply andb_true_iff in H as [Hc Hs].
  apply is_ascii_range in Hc. cbn [utf8_decode].
  rewrite (proj2 (N.ltb_lt c 128)) by lia. now rewrite IH.
Qed.

Lemma detect_encoding_ascii b :
  forallb is_ascii b = true -> detect_encoding b = UTF_8.
Proof.
  intros H. unfold detect_encoding.
  destruct b as [|b0 b]; [reflexivity|].
  cbn [forallb] in H. apply andb_true_iff in H as [H0 H].
  apply is_ascii_range in H0. cbn [starts_with].
  eqb_false 0 b0. eqb_false 255 b0. eqb_false 254 b0. eqb_false 239 b0.
  cbn [andb orb]. eqb_false b0 0.
  destruct b as [|b1 b]; [reflexivity|].
  cbn [forallb] in H. apply andb_true_iff in H as [H1 H].
  apply is_ascii_range in H1. eqb_false b1 0.
  destruct b as [|b2 [|b3 b]]; reflexivity.
Qed.

Lemma join_length_weight {A} (text : A -> pystr) (w : A -> nat) : forall l,
  Forall (fun x => (w x <= List.length (text x))%nat) l ->
  (fold_right (fun x n => S (w x + n)) O l
   <= S (List.length (join ITEM_SEPARATOR (List.map text l))))%nat.
Proof.
  induction l as [|x l IH]; intros Hall; [simpl; lia|].
  inversion Hall as [|? ? Hx Hl]; subst. specialize (IH Hl).
  cbn [fold_right List.map]. destruct l as [|y l].
  - cbn [join fold_right List.map]. lia.
  - cbn [List.map] in *. rewrite join_cons2, !List.length_app.
    change (List.length ITEM_SEPARATOR) with 2%nat.
    cbn [fold_right] in *. lia.
Qed.

Lemma weight_le_length : forall v, (weight v <= List.length (dumps v))%nat.
Proof.
  apply json_nested_ind.
  - simpl; lia.
  - intros []; simpl; lia.
  - intros z. destruct (dumps_starts_value (JInt z) []) as (c & t & H & _).
    rewrite List.app_nil_r in H. rewrite H. simpl. lia.
  - intros s. simpl. lia.
  - intros items Hall. cbn [weight dumps]. rewrite !List.length_app.
    pose proof (@join_length_weight json dumps weight items Hall).
    change (List.length (str "[")) with 1%nat.
    change (List.length (str "]")) with 1%nat. lia.
  - intros pairs Hall. cbn [weight dumps]. rewrite !List.length_app.
    assert (Hall' : Forall (fun kv => (weight (snd kv)
                     <= List.length (pair_text kv))%nat) pairs).
    { eapply Forall_impl; [|exact Hall]. intros [k v] H. unfold pair_text.
      cbn [fst snd] in *. rewrite !List.length_app. lia. }
    pose proof (@join_length_weight _ pair_text (fun kv => weight (snd kv))
                  pairs Hall').
    change (List.length (str "{")) with 1%nat.
    change (List.length (str "}")) with 1%nat.
    change (List.map (fun kv => encode_basestring_ascii (fst kv)
                                ++ KEY_SEPARATOR ++ dumps (snd kv)) pairs)
      with (List.map pair_text pairs).
    lia.
Qed.

(** [dumps] is total on the objects of the model and its text is ASCII, so
    the octets written are the text and the line end. *)
Lemma wire_form_dumps v : wire_form v = Ok (dumps v ++ CRLF).
Proof.
  unfold wire_form. rewrite utf8_encode_ascii; [reflexivity|].
  pose proof (dumps_printable v) as H. rewrite forallb_forall in *.
  intros c Hc. apply printable_is_ascii. auto.
Qed.

Lemma decode_dumps_line v :
  json_ok v = true -> decode (dumps v ++ CRLF) = Ok v.
Proof.
  intros Hok. unfold decode.
  rewrite skip_ws_starts_value by apply dumps_starts_value.
  rewrite (scan_once_dumps v Hok).
  - reflexivity.
  - unfold fuel_for. rewrite List.length_app.
    pose proof (weight_le_length v). lia.
  - reflexivity.
Qed.

(** The line written for an object is parsed as that object. *)
Lemma parse_line_dumps v :
  json_ok v = true -> parse_line (dumps v ++ CRLF) = Ok v.
Proof.
  intros Hok.
  assert (Hascii : forallb is_ascii (dumps v ++ CRLF) = true).
  { rewrite forallb_app. apply andb_true_iff. split; [|reflexivity].
    pose proof (dumps_printable v) as H. rewrite forallb_forall in *.
    intros c Hc. apply printable_is_ascii. auto. }
  assert (Hline : parse_line (dumps v ++ CRLF) = loads (dumps v ++ CRLF)).
  { destruct (dumps_starts_value v CRLF) as (c & t & -> & _). reflexivity. }
  rewrite Hline. unfold loads. rewrite detect_encoding_ascii by exact Hascii.
  rewrite utf8_decode_ascii by exact Hascii.
  now apply decode_dumps_line.
Qed.

(** ** The fuel of the scanner *)

Lemma push_Ok_inv {A B} (c : A) (r : result (list A * B)) t rest :
  push c r = Ok (t, rest) -> exists t', r = Ok (t', rest) /\ t = c :: t'.
Proof.
  destruct r as [[t' rest']|e]; cbn [push]; [|discriminate].
  intros [= <- <-]. eauto.
Qed.

Lemma skip_ws_length : forall s, (List.length (skip_ws s) <= List.length s)%nat.
Proof.
  induction s as [|c s IH]; cbn [skip_ws]; [lia|].
  destruct (is_ws c); cbn [List.length]; lia.
Qed.

(** [scanstring] consumes the closing quote at least. *)
Lemma scanstring_shorter : forall n s t r,
  (List.length s <= n)%nat ->
  scanstring s = Ok (t, r) -> (List.length r < List.length s)%nat.
Proof.
  induction n as [|n IH]; intros s t r Hn.
  - destruct s; [discriminate | cbn [List.length] in Hn; lia].
  - assert (K : forall c s' t' r',
               (List.length s' <= n)%nat ->
               push c (scanstring s') = Ok (t', r') ->
               (List.length r' < List.length s')%nat).
    { intros c s' t' r' Hs' H. apply push_Ok_inv in H as (t'' & H & _).
      eapply IH; eauto. }
    destruct s as [|c s]; [discriminate|]. cbn [List.length] in Hn.
    destruct s as [|e r1].
    { cbn [scanstring].
      destruct (c =? QUOTE); [intros [= <- <-]; cbn; lia|].
      destruct (c =? BACKSLASH); [discriminate|].
      destruct (c <=? 31); discriminate. }
    cbn [List.length] in Hn.
    assert (Hplain : push c (scanstring (e :: r1)) = Ok (t, r) ->
                     (List.length r < List.length (c :: e :: r1))%nat).
    { intros H. apply K in H; cbn [List.length] in *; lia. }
    destruct (c =? QUOTE) eqn:Eq.
    { cbn [scanstring]. rewrite Eq. intros [= <- <-]. cbn; lia. }
    destruct (c =? BACKSLASH) eqn:Eb.
    2:{ cbn [scanstring]. rewrite Eq, Eb.
        destruct (c <=? 31); [discriminate|].
        change (if e =? QUOTE then _ else _) with (scanstring (e :: r1)).
        exact Hplain. }
    apply N.eqb_eq in Eb. subst c.
    destruct (e =? 117) eqn:Eu.
    2:{ cbn [scanstring]. change (BACKSLASH =? QUOTE) with false.
        change (BACKSLASH =? BACKSLASH) with true. cbv iota. rewrite Eu.
        destruct (unescape e); [|discriminate].
        intros H. apply K in H; cbn [List.length] in *; lia. }
    apply N.eqb_eq in Eu. subst e.
    destruct r1 as [|h1 [|h2 [|h3 [|h4 r2]]]]; try discriminate.
    rewrite scan_u_eq.
    destruct (hex4 h1 h2 h3 h4) as [u|]; [|discriminate].
    cbn [List.length] in *.
    assert (Hu : push u (scanstring r2) = Ok (t, r) ->
                 (List.length r < S (S (S (S (S (S (List.length r2)))))))%nat).
    { intros H. apply K in H; lia. }
    destruct (is_high_surrogate u); [|exact Hu].
    destruct r2 as [|b [|u' [|g1 [|g2 [|g3 [|g4 r3]]]]]]; try exact Hu.
    destruct ((b =? BACKSLASH) && (u' =? 117)); [|exact Hu].
    destruct (hex4 g1 g2 g3 g4) as [u2|]; [|discriminate].
    destruct (is_low_surrogate u2); [|exact Hu].
    intros H. apply K in H; cbn [List.length] in *; lia.
Qed.

Lemma read_digits_length : forall s d r,
  read_digits s = (d, r) -> (List.length r <= List.length s)%nat.
Proof.
  induction s as [|c s IH]; intros d r; cbn [read_digits].
  - intros [= <- <-]. lia.
  - destruct (is_digit c).
    + destruct (read_digits s) as [d' r'] eqn:E. intros [= <- <-].
      specialize (IH _ _ eq_refl). cbn [List.length]. lia.
    + intros [= <- <-]. lia.
Qed.

Lemma match_digits_shorter neg s v r :
  match_digits neg s = Ok (v, r) -> (List.length r < List.length s)%nat.
Proof.
  unfold match_digits. destruct s as [|c r0]; [discriminate|].
  destruct ((49 <=? c) && (c <=? 57)) eqn:E1.
  - destruct (read_digits (c :: r0)) as [d r'] eqn:Hrd.
    assert (Hlen : (List.length r' < List.length (c :: r0))%nat).
    { cbn [read_digits] in Hrd.
      assert (Hd : is_digit c = true).
      { unfold is_digit. apply andb_true_iff in E1 as [A B].
        apply N.leb_le in A, B. apply andb_true_iff; split; apply N.leb_le; lia. }
      rewrite Hd in Hrd. destruct (read_digits r0) as [d0 r0'] eqn:E0.
      injection Hrd as <- <-. apply read_digits_length in E0.
      cbn [List.length]. lia. }
    cbv zeta. destruct (starts_frac r' || starts_exp r'); [discriminate|].
    now intros [= <- <-].
  - destruct (c =? 48); cbv zeta; [|discriminate].
    destruct (starts_frac r0 || starts_exp r0); [discriminate|].
    intros [= <- <-]. cbn [List.length]. lia.
Qed.

Lemma match_number_shorter s v r :
  match_number s = Ok (v, r) -> (List.length r < List.length s)%nat.
Proof.
  unfold match_number. destruct s as [|c r0]; [discriminate|].
  destruct (c =? 45); intros H; apply match_digits_shorter in H;
    cbn [List.length] in *; lia.
Qed.

(** A value, the items of an array and the pairs of an object all consume
    input. *)
Lemma scan_shorter : forall f,
  (forall s v r, scan_once f s = Ok (v, r) ->
                 (List.length r < List.length s)%nat) /\
  (forall s l r, parse_items f s = Ok (l, r) ->
                 (List.length r < List.length s)%nat) /\
  (forall s l r, parse_pairs f s = Ok (l, r) ->
                 (List.length r < List.length s)%nat).
Proof.
  induction f as [|f (IHv & IHi & IHp)].
  - repeat split; intros; discriminate.
  - repeat split.
    + intros s v r. cbn [scan_once]. destruct s as [|c r0]; [discriminate|].
      cbn [List.length].
      destruct (c =? QUOTE).
      { destruct (scanstring r0) as [[t rest]|e] eqn:E; [|discriminate].
        intros [= <- <-]. apply (@scanstring_shorter (List.length r0)) in E; lia. }
      destruct (c =? 123).
      { pose proof (skip_ws_length r0) as Hws.
        destruct (skip_ws r0) as [|c' r']; [discriminate|].
        cbn [List.length] in Hws.
        destruct (c' =? 125); [intros [= <- <-]; lia|].
        destruct (parse_pairs f (c' :: r')) as [[pairs rest]|e] eqn:E;
          [|discriminate].
        intros [= <- <-]. apply IHp in E. cbn [List.length] in E. lia. }
      destruct (c =? 91).
      { pose proof (skip_ws_length r0) as Hws.
        destruct (skip_ws r0) as [|c' r']; [discriminate|].
        cbn [List.length] in Hws.
        destruct (c' =? 93); [intros [= <- <-]; lia|].
        destruct (parse_items f (c' :: r')) as [[items rest]|e] eqn:E;
          [|discriminate].
        intros [= <- <-]. apply IHi in E. cbn [List.length] in E. lia. }
      destruct ((c =? 110) && starts_with (str "ull") r0).
      { intros [= <- <-].
        do 4 (destruct r0 as [|? r0]; cbn [List.length]; try lia). }
      destruct ((c =? 116) && starts_with (str "rue") r0).
      { intros [= <- <-].
        do 5 (destruct r0 as [|? r0]; cbn [List.length]; try lia). }
      destruct ((c =? 102) && starts_with (str "alse") r0).
      { intros [= <- <-].
        do 5 (destruct r0 as [|? r0]; cbn [List.length]; try lia). }
      destruct ((c =? 78) && starts_with (str "aN") r0); [discriminate|].
      destruct ((c =? 73) && starts_with (str "nfinity") r0); [discriminate|].
      destruct ((c =? 45) && starts_with (str "Infinity") r0); [discriminate|].
      intros H. apply match_number_shorter in H. exact H.
    + intros s l r. cbn [parse_items].
      destruct (scan_once f s) as [[v r1]|e] eqn:E; [|discriminate].
      apply IHv in E. pose proof (skip_ws_length r1) as Hws.
      destruct (skip_ws r1) as [|c r2]; [discriminate|].
      cbn [List.length] in Hws.
      destruct (c =? 93); [intros [= <- <-]; lia|].
      destruct (c =? 44); [|discriminate].
      intros H. apply push_Ok_inv in H as (t' & H & _). apply IHi in H.
      pose proof (skip_ws_length r2). lia.
    + intros s l r. cbn [parse_pairs]. destruct s as [|c r0]; [discriminate|].
      destruct (c =? QUOTE); [|discriminate].
      destruct (scanstring r0) as [[key r1]|e] eqn:Ek; [|discriminate].
      apply (@scanstring_shorter (List.length r0)) in Ek; [|lia].
      pose proof (skip_ws_length r1) as Hws1.
      destruct (skip_ws r1) as [|c2 r2]; [discriminate|].
      cbn [List.length] in Hws1.
      destruct (c2 =? 58); [|discriminate].
      pose proof (skip_ws_length r2) as Hws2.
      destruct (scan_once f (skip_ws r2)) as [[v r3]|e] eqn:Ev; [|discriminate].
      apply IHv in Ev. pose proof (skip_ws_length r3) as Hws3.
      destruct (skip_ws r3) as [|c3 r4]; [discriminate|].
      cbn [List.length] in *.
      destruct (c3 =? 125); [intros [= <- <-]; lia|].
      destruct (c3 =? 44); [|discriminate].
      intros H. apply push_Ok_inv in H as (t' & H & _). apply IHp in H.
      pose proof (skip_ws_length r4). lia.
Qed.

(** With fuel for twice the length of the text the scanner does not run
    out: more fuel gives the same answer. *)
Lemma scan_fuel : forall f1 f2,
  (forall s, (2 * List.length s + 1 <= f1)%nat ->
             (2 * List.length s + 1 <= f2)%nat ->
             scan_once f1 s = scan_once f2 s) /\
  (forall s, (2 * List.length s + 2 <= f1)%nat ->
             (2 * List.length s + 2 <= f2)%nat ->
             parse_items f1 s = parse_items f2 s) /\
  (forall s, (2 * List.length s + 2 <= f1)%nat ->
             (2 * List.length s + 2 <= f2)%nat ->
             parse_pairs f1 s = parse_pairs f2 s).
Proof.
  induction f1 as [|f1 IH]; intros f2.
  - repeat split; intros; lia.
  - destruct f2 as [|f2]; [repeat split; intros; lia|].
    destruct (IH f2) as (IHv & IHi & IHp). clear IH.
    destruct (scan_shorter f2) as (Sv & Si & Sp).
    repeat split.
    + intros s H1 H2. cbn [scan_once]. destruct s as [|c r0]; [reflexivity|].
      cbn [List.length] in H1, H2.
      destruct (c =? QUOTE); [reflexivity|].
      pose proof (skip_ws_length r0) as Hws.
      destruct (c =? 123).
      { destruct (skip_ws r0) as [|c' r']; [reflexivity|].
        destruct (c' =? 125); [reflexivity|].
        rewrite (IHp (c' :: r')) by lia. reflexivity. }
      destruct (c =? 91).
      { destruct (skip_ws r0) as [|c' r']; [reflexivity|].
        destruct (c' =? 93); [reflexivity|].
        rewrite (IHi (c' :: r')) by lia. reflexivity. }
      reflexivity.
    + intros s H1 H2. cbn [parse_items]. rewrite (IHv s) by lia.
      destruct (scan_once f2 s) as [[v r1]|e] eqn:E; [|reflexivity].
      apply Sv in E. pose proof (skip_ws_length r1) as Hws.
      destruct (skip_ws r1) as [|c r2]; [reflexivity|].
      cbn [List.length] in Hws.
      destruct (c =? 93); [reflexivity|].
      destruct (c =? 44); [|reflexivity].
      pose proof (skip_ws_length r2).
      rewrite (IHi (skip_ws r2)) by lia. reflexivity.
    + intros s H1 H2. cbn [parse_pairs]. destruct s as [|c r0]; [reflexivity|].
      cbn [List.length] in H1, H2.
      destruct (c =? QUOTE); [|reflexivity].
      destruct (scanstring r0) as [[key r1]|e] eqn:Ek; [|reflexivity].
      apply (@scanstring_shorter (List.length r0)) in Ek; [|lia].
      pose proof (skip_ws_length r1) as Hws1.
      destruct (skip_ws r1) as [|c2 r2]; [reflexivity|].
      cbn [List.length] in Hws1.
      destruct (c2 =? 58); [|reflexivity].
      pose proof (skip_ws_length r2) as Hws2.
      rewrite (IHv (skip_ws r2)) by lia.
      destruct (scan_once f2 (skip_ws r2)) as [[v r3]|e] eqn:Ev; [|reflexivity].
      apply Sv in Ev. pose proof (skip_ws_length r3) as Hws3.
      destruct (skip_ws r3) as [|c3 r4]; [reflexivity|].
      cbn [List.length] in Hws3.
      destruct (c3 =? 125); [reflexivity|].
      destruct (c3 =? 44); [|reflexivity].
      pose proof (skip_ws_length r4).
      rewrite (IHp (skip_ws r4)) by lia. reflexivity.
Qed.

(** [decode] gives the scanner enough fuel. *)
Lemma decode_fuel_enough s f :
  (fuel_for s <= f)%nat ->
  scan_once f (skip_ws s) = scan_once (fuel_for s) (skip_ws s).
Proof.
  intros Hf. pose proof (skip_ws_length s). unfold fuel_for in *.
  apply (proj1 (scan_fuel f (2 * List.length s + 2))); lia.
Qed.

(** ** Request messages *)

Lemma request_json_ok (r : request) :
  request_ok r = true -> json_ok (request_json r) = true.
Proof.
  unfold request_ok, request_json. intros H.
  apply andb_true_iff in H as [H Hb]. apply andb_true_iff in H as [Hc Hu].
  destruct (Body r) as [body|]; cbn [json_ok forallb fst snd List.map];
    rewrite Hc, Hu, ?Hb; reflexivity.
Qed.

(** The commands of the source are such messages. *)
Lemma read_request_is_request url :
  read_request url = request_json (mkRequest (str "ReadRequest") url None).
Proof. reflexivity. Qed.

(** [s.rfind('/') + 1] and the slice: the text after the last slash. *)
Lemma rfind_from_absent c : forall s i found,
  ~ In c s -> rfind_from s c i found = found.
Proof.
  induction s as [|x s IH]; intros i found Hin; [reflexivity|].
  cbn [rfind_from]. simpl in Hin.
  rewrite (proj2 (N.eqb_neq x c)) by tauto. apply IH. tauto.
Qed.

Lemma rfind_from_last c seg : forall pre i found,
  ~ In c seg ->
  rfind_from (pre ++ c :: seg) c i found = (i + Z.of_nat (List.length pre))%Z.
Proof.
  induction pre as [|x pre IH]; intros i found Hin.
  - cbn [List.app rfind_from List.length]. rewrite N.eqb_refl.
    rewrite rfind_from_absent by exact Hin. lia.
  - cbn [List.app rfind_from]. rewrite IH by exact Hin.
    cbn [List.length]. lia.
Qed.

Lemma last_segment_after_slash pre seg :
  ~ In SLASH seg -> last_segment (pre ++ SLASH :: seg) = seg.
Proof.
  intros Hin. unfold last_segment, rfind, slice_from.
  rewrite rfind_from_last by exact Hin.
  replace (Z.to_nat (0 + Z.of_nat (List.length pre) + 1)) with (S (List.length pre)) by lia.
  change (S (List.length pre)) with (List.length pre + 1)%nat at 1 || idtac.
  replace (pre ++ SLASH :: seg) with ((pre ++ [SLASH]) ++ seg)
    by (now rewrite <- List.app_assoc).
  replace (S (List.length pre)) with (List.length (pre ++ [SLASH]))
    by (rewrite List.length_app; simpl; lia).
  now rewrite skipn_app, skipn_all, Nat.sub_diag.
Qed.

Lemma last_segment_no_slash s : ~ In SLASH s -> last_segment s = s.
Proof.
  intros Hin. unfold last_segment, rfind, slice_from.
  now rewrite rfind_from_absent.
Qed.

(** ** A line written is the line read *)

Lemma find_lf_line : forall text rest,
  forallb printable text = true ->
  find_lf (text ++ CRLF ++ rest) = Some (S (List.length text)).
Proof.
  induction text as [|c text IH]; intros rest H.
  - reflexivity.
  - cbn [forallb] in H. apply andb_true_iff in H as [Hc H].
    cbn [List.app find_lf List.length]. rewrite (IH rest H).
    unfold printable in Hc. apply andb_true_iff in Hc as [A _].
    apply N.leb_le in A. now rewrite (proj2 (N.eqb_neq c 10)) by lia.
Qed.

(** What [_write_object] has written comes back from [_read_object] on the
    other end of the stream, when the line is within the limit of the
    reader. *)
Lemma read_object_of_written (v : json) (w : World) (r : StreamReader)
    (rest : bytes) :
  json_ok v = true ->
  (N.of_nat (List.length (dumps v)) < LIMIT)%N ->
  _reader (self w) = Some r ->
  exception r = None ->
  buffer r = dumps v ++ CRLF ++ rest ->
  _read_object w =
  (Ok v, mkWorld (set_streams (Some (mkReader rest (eof r) None))
                              (_writer (self w)) (self w))
                 (trace w) (network w)).
Proof.
  intros Hok Hlen Hr He Hbuf.
  unfold _read_object, bind at 1, get_self at 1. rewrite Hr.
  unfold readline. rewrite He, Hbuf, find_lf_line by apply dumps_printable.
  assert (Hlim : (LIMIT <? N.of_nat (S (List.length (dumps v)))) = false).
  { apply N.ltb_ge. unfold LIMIT in *. lia. }
  rewrite Hlim.
  assert (Hfirst : firstn (S (S (List.length (dumps v)))) (dumps v ++ CRLF ++ rest)
                   = dumps v ++ CRLF).
  { rewrite List.app_assoc.
    replace (S (S (List.length (dumps v)))) with (List.length (dumps v ++ CRLF))
      by (rewrite List.length_app; cbn; lia).
    now rewrite firstn_app, firstn_all, Nat.sub_diag, firstn_O, List.app_nil_r. }
  assert (Hskip : skipn (S (S (List.length (dumps v)))) (dumps v ++ CRLF ++ rest)
                  = rest).
  { rewrite List.app_assoc.
    replace (S (S (List.length (dumps v)))) with (List.length (dumps v ++ CRLF))
      by (rewrite List.length_app; cbn; lia).
    now rewrite skipn_app, skipn_all, Nat.sub_diag. }
  rewrite Hfirst, Hskip.
  unfold bind, update, lift. cbv beta iota zeta.
  now rewrite (parse_line_dumps v Hok).
Qed.

(** ** C9 *)

Lemma utf8_encode_dumps v : utf8_encode (dumps v) = Ok (dumps v).
Proof.
  apply utf8_encode_ascii.
  pose proof (dumps_printable v) as H. rewrite forallb_forall in *.
  intros c Hc. apply printable_is_ascii. auto.
Qed.

(** [readline] on the line written for an object. *)
Lemma readline_written (v : json) (rest : bytes) (at_end : bool) :
  (N.of_nat (List.length (dumps v)) < LIMIT)%N ->
  readline (mkReader (dumps v ++ CRLF ++ rest) at_end None)
  = (Ok (dumps v ++ CRLF), mkReader rest at_end None).
Proof.
  intros Hlen. unfold readline. cbn [exception buffer eof].
  rewrite find_lf_line by apply dumps_printable.
  assert (Hlim : (LIMIT <? N.of_nat (S (List.length (dumps v)))) = false).
  { apply N.ltb_ge. unfold LIMIT in *. lia. }
  rewrite Hlim. rewrite List.app_assoc.
  replace (S (S (List.length (dumps v)))) with (List.length (dumps v ++ CRLF))
    by (rewrite List.length_app; cbn; lia).
  rewrite firstn_app, firstn_all, Nat.sub_diag, firstn_O, List.app_nil_r.
  now rewrite skipn_app, skipn_all, Nat.sub_diag.
Qed.

(** The round trip of an object of Python that no limit stops. *)
Lemma round_trip_json (room : nat) (v : json) :
  json_ok v = true ->
  (depth v <= room)%nat ->
  (N.of_nat (List.length (dumps v)) < LIMIT)%N ->
  round_trip room v = Ok v.
Proof.
  intros Hok Hdepth Hlen. unfold round_trip, dumps_within, parse_line_within.
  rewrite (proj2 (Nat.leb_le _ _) Hdepth). cbn [and_then].
  rewrite utf8_encode_dumps. cbn [and_then].
  pose proof (@readline_written v [] false Hlen) as Hread.
  rewrite List.app_nil_r in Hread. rewrite Hread. cbn [and_then].
  rewrite (parse_line_dumps v Hok). cbn [and_then].
  now rewrite (proj2 (Nat.leb_le _ _) Hdepth).
Qed.

(** An object that nests deeper than the interpreter allows is not
    written: [json.dumps] raises RecursionError. *)
Lemma round_trip_too_deep (room : nat) (v : json) :
  (room < depth v)%nat -> round_trip room v = Raise RecursionError.
Proof.
  intros H. unfold round_trip, dumps_within.
  now rewrite (proj2 (Nat.leb_gt _ _) H).
Qed.

(** A line that does not fit the limit of the stream is not read:
    [readline] raises ValueError. *)
Lemma round_trip_too_long (room : nat) (v : json) :
  (depth v <= room)%nat ->
  (LIMIT < N.of_nat (S (List.length (dumps v))))%N ->
  round_trip room v = Raise ValueError.
Proof.
  intros Hdepth Hlen. unfold round_trip, dumps_within.
  rewrite (proj2 (Nat.leb_le _ _) Hdepth). cbn [and_then].
  rewrite utf8_encode_dumps. cbn [and_then].
  unfold readline. cbn [exception buffer eof].
  pose proof (@find_lf_line (dumps v) [] (dumps_printable v)) as Hlf.
  rewrite List.app_nil_r in Hlf. rewrite Hlf.
  now rewrite (proj2 (N.ltb_lt _ _) Hlen).
Qed.

(** C9, as amended. For every request message (CommuniqueType, Header.Url,
    optional Body) in whose strings no high surrogate is followed at once by
    a low surrogate, that nests no deeper than the recursion limit of the
    interpreter allows, and whose JSON text is shorter than the limit of the
    stream, 2 ** 16: encoding the message to its wire form (the JSON text and
    CR LF) and reading and decoding that line gives back the same
    message. *)
Theorem request_round_trip (room : nat) (r : request) :
  request_ok r = true ->
  (depth (request_json r) <= room)%nat ->
  (N.of_nat (List.length (dumps (request_json r))) < LIMIT)%N ->
  round_trip room (request_json r) = Ok (request_json r).
Proof.
  intros H Hdepth Hlen. apply round_trip_json; [|exact Hdepth|exact Hlen].
  now apply request_json_ok.
Qed.

Lemma request_round_trip_witness :
  round_trip 1000 (request_json level_request) = Ok (request_json level_request).
Proof.
  apply (@request_round_trip 1000%nat level_request).
  - vm_compute. reflexivity.
  - vm_compute. lia.
  - vm_compute. reflexivity.
Defined.

(** C9 as stated fails: two surrogates in a row are written as two escapes,
    which the decoder reads as one character. *)
Lemma request_round_trip_counterexample :
  round_trip 1000 (request_json paired_request)
  = Ok (request_json (mkRequest (str "ReadRequest") [128512] None)) /\
  round_trip 1000 (request_json paired_request)
  <> Ok (request_json paired_request).
Proof.
  assert (H : round_trip 1000 (request_json paired_request)
              = Ok (request_json (mkRequest (str "ReadRequest") [128512] None)))
    by (vm_compute; reflexivity).
  split; [exact H|]. rewrite H. intros E. vm_compute in E. discriminate E.
Qed.

(** Nor does it hold beyond the limits: a request that nests 1000 deep is
    not written when the interpreter has room for 990 nested calls, and a
    request with a Url of 2 ** 16 characters is written and not read. *)
Lemma request_round_trip_limits :
  request_ok deep_request = true /\
  round_trip 990 (request_json deep_request) = Raise RecursionError /\
  request_ok long_request = true /\
  round_trip 1000 (request_json long_request) = Raise ValueError.
Proof.
  split; [vm_compute; reflexivity|].
  split; [apply round_trip_too_deep; vm_compute; lia|].
  split; [vm_compute; reflexivity|].
  apply round_trip_too_long; [vm_compute; lia|].
  vm_compute. reflexivity.
Qed.

(** ** The keys of the caches stay distinct *)

Lemma store_devices_keys_NoDup ds : forall b,
  NoDup (keys (devices b)) ->
  NoDup (keys (devices (fold_left (fun b e => store_device e b) ds b))).
Proof.
  induction ds as [|d ds IH]; intros b H; cbn [fold_left]; [exact H|].
  apply IH. cbn [store_device set_devices devices].
  now apply dict_set_keys_NoDup.
Qed.

Lemma pushed_keys id level (D : dict Device) :
  keys (List.map (fun e => (fst e, pushed id level (snd e))) D) = keys D.
Proof.
  unfold keys. rewrite map_map. reflexivity.
Qed.

(** ** C3 *)

(** The world after [_write_object]: one more event, whatever [drain]
    answers. *)
Lemma write_object_world obj w wr :
  _writer (self w) = Some wr ->
  snd (_write_object obj w) = with_events w [EvWrite (dumps obj ++ CRLF)] /\
  (fst (_write_object obj w) = Ok tt \/
   exists r e, _reader (self w) = Some r /\ exception r = Some e /\
               fst (_write_object obj w) = Raise e).
Proof.
  intros Hw.
  unfold _write_object, drain, bind, lift, get_self, emit, raise, ret.
  rewrite wire_form_dumps. cbv beta iota zeta. rewrite Hw.
  cbv beta iota zeta. cbn [self].
  destruct (_reader (self w)) as [r|] eqn:Hr.
  - destruct (exception r) as [e|] eqn:He.
    + split; [reflexivity|]. right. exists r, e. auto.
    + split; [reflexivity|]. now left.
  - split; [reflexivity|]. now left.
Qed.

Lemma with_events_nil w : with_events w [] = w.
Proof. destruct w. unfold with_events. cbn. now rewrite List.app_nil_r. Qed.

(** C3, as amended. [get_value] of a cached device, on a bridge that holds
    a connection, looks up the zone of the device in the cache; when the
    zone is a string that is not empty it writes one message to the hub, the
    ReadRequest for /zone/<zone>/status, and when the device has no zone (or
    an empty one) it writes nothing.  Nothing else changes: the bridge
    object and the caches are as before. *)
Theorem get_value_requests_zone_status (w : World) (id : pystr) (d : Device)
    (wr : StreamWriter) :
  dict_get (devices (self w)) id = Some d ->
  _writer (self w) = Some wr ->
  snd (get_value id w) =
  with_events w
    match zone d with
    | Some (c :: z) =>
        [EvWrite (dumps (read_request (str "/zone/" ++ (c :: z) ++ str "/status"))
                  ++ CRLF)]
    | _ => []
    end.
Proof.
  intros Hd Hw. unfold get_value.
  unfold bind at 1, get_self at 1.
  unfold bind at 1, lift at 1, _get_zone_id. rewrite Hd.
  destruct (zone d) as [[|c z]|].
  - cbn. now rewrite with_events_nil.
  - unfold _send_command, _send_command_from_loop, bind at 1.
    destruct (@write_object_world
                (read_request (str "/zone/" ++ (c :: z) ++ str "/status")) w wr Hw)
      as [Hsnd _].
    destruct (_write_object _ w) as [[[]|e] w1]; cbn [snd] in *; exact Hsnd.
  - cbn. now rewrite with_events_nil.
Qed.

Lemma get_value_requests_zone_status_witness :
  snd (get_value (str "5") home_world) =
  with_events home_world
    [EvWrite (dumps (read_request (str "/zone/3/status")) ++ CRLF)].
Proof.
  exact (@get_value_requests_zone_status home_world (str "5") lamp hub_writer
           eq_refl eq_refl).
Defined.

(** C3 as stated fails: the lamp is at level 42 in the cache, and
    [get_value] writes a request to the hub instead of answering 42 from the
    cache. *)
Lemma get_value_counterexample :
  dict_get (devices (self home_world)) (str "5") = Some lamp /\
  current_state lamp = JInt 42 /\
  trace (snd (get_value (str "5") home_world))
  = [EvWrite (dumps (read_request (str "/zone/3/status")) ++ CRLF)] /\
  get_value (str "5") home_world <> (Ok (JInt 42), home_world).
Proof.
  repeat split.
  intros E. apply (f_equal (fun x => trace (snd x))) in E.
  vm_compute in E. discriminate E.
Qed.

(** ** The other commands *)

(** [set_value] of a cached device with a zone writes one CreateRequest, the
    GoToLevel command for the zone. *)
Lemma set_value_writes_level_request (w : World) (id : pystr) (d : Device)
    (wr : StreamWriter) (value : Z) :
  dict_get (devices (self w)) id = Some d ->
  _writer (self w) = Some wr ->
  snd (set_value id value w) =
  with_events w
    match zone d with
    | Some (c :: z) =>
        [EvWrite (dumps (request_json
                           (mkRequest (str "CreateRequest")
                              (str "/zone/" ++ (c :: z) ++ str "/commandprocessor")
                              (Some (go_to_level value))))
                  ++ CRLF)]
    | _ => []
    end.
Proof.
  intros Hd Hw. unfold set_value.
  unfold bind at 1, get_self at 1.
  unfold bind at 1, lift at 1, _get_zone_id. rewrite Hd.
  destruct (zone d) as [[|c z]|].
  - cbn. now rewrite with_events_nil.
  - unfold _send_command, _send_command_from_loop, bind at 1.
    match goal with
    | |- context [_write_object ?cmd w] =>
        destruct (@write_object_world cmd w wr Hw) as [Hsnd _];
        destruct (_write_object cmd w) as [[[]|e] w1]; cbn [snd] in *; exact Hsnd
    end.
  - cbn. now rewrite with_events_nil.
Qed.

(** [activate_scene] of a cached scene writes one CreateRequest, the
    PressAndRelease command for the virtual button. *)
Lemma activate_scene_writes_press_request (w : World) (id : pystr)
    (wr : StreamWriter) :
  dict_in id (scenes (self w)) = true ->
  _writer (self w) = Some wr ->
  snd (activate_scene id w) =
  with_events w
    [EvWrite (dumps (request_json
                       (mkRequest (str "CreateRequest")
                          (str "/virtualbutton/" ++ id ++ str "/commandprocessor")
                          (Some press_and_release)))
              ++ CRLF)].
Proof.
  intros Hin Hw. unfold activate_scene.
  unfold bind at 1, get_self at 1. rewrite Hin.
  unfold _send_command, _send_command_from_loop, bind at 1.
  match goal with
  | |- context [_write_object ?cmd w] =>
      destruct (@write_object_world cmd w wr Hw) as [Hsnd _];
      destruct (_write_object cmd w) as [[[]|e] w1]; cbn [snd] in *; exact Hsnd
  end.
Qed.

(** ** C2 *)

Lemma follows_refl w : follows w w.
Proof. repeat split. exists []. now rewrite List.app_nil_r. Qed.

Lemma follows_trans w1 w2 w3 : follows w1 w2 -> follows w2 w3 -> follows w1 w3.
Proof.
  intros (N1 & H1 & P1 & e1 & T1) (N2 & H2 & P2 & e2 & T2).
  repeat split; try congruence.
  exists (e1 ++ e2). now rewrite T2, T1, List.app_assoc.
Qed.

Lemma orderly_ret {A} (a : A) : orderly (ret a).
Proof. intros w r w' [= <- <-]. apply follows_refl. Qed.

Lemma orderly_raise {A} e : orderly (@raise A e).
Proof. intros w r w' [= <- <-]. apply follows_refl. Qed.

Lemma orderly_lift {A} (x : result A) : orderly (lift x).
Proof. intros w r w' [= <- <-]. apply follows_refl. Qed.

Lemma orderly_get_self : orderly get_self.
Proof. intros w r w' [= <- <-]. apply follows_refl. Qed.

Lemma orderly_emit e : orderly (emit e).
Proof. intros w r w' [= <- <-]. repeat split. now exists [e]. Qed.

Lemma orderly_update f : keeps_config f -> orderly (update f).
Proof.
  intros Hf w r w' [= <- <-]. destruct (Hf (self w)) as [Hh Hp].
  repeat split; auto. exists []. cbn. now rewrite List.app_nil_r.
Qed.

Lemma orderly_bind {A B} (c : M A) (k : A -> M B) :
  orderly c -> (forall a, orderly (k a)) -> orderly (bind c k).
Proof.
  intros Hc Hk w r w'. unfold bind.
  destruct (c w) as [[a|e] w1] eqn:E.
  - intros H. eapply follows_trans; [eapply Hc | eapply Hk]; eauto.
  - intros [= <- <-]. eapply Hc; eauto.
Qed.

Lemma orderly_for_each {A} (body : A -> M unit) l :
  (forall x, orderly (body x)) -> orderly (for_each l body).
Proof.
  intros Hb. induction l as [|x l IH]; cbn [for_each].
  - apply orderly_ret.
  - apply orderly_bind; auto.
Qed.

Lemma orderly_if {A} (b : bool) (c1 c2 : M A) :
  orderly c1 -> orderly c2 -> orderly (if b then c1 else c2).
Proof. now destruct b. Qed.

Create HintDb orderly.
#[local] Hint Resolve orderly_ret orderly_raise orderly_lift orderly_get_self
  orderly_emit orderly_for_each orderly_if : orderly.

Ltac orderly_step :=
  repeat (first
    [ apply orderly_bind; [|intro]
    | apply orderly_for_each; intro
    | solve [apply orderly_update; intro; split; reflexivity]
    | solve [auto with orderly] ]).

Lemma orderly_drain : orderly drain.
Proof.
  unfold drain. orderly_step.
  destruct (_reader a) as [r|]; [destruct (exception r)|]; auto with orderly.
Qed.

Lemma orderly_write_object obj : orderly (_write_object obj).
Proof.
  unfold _write_object. orderly_step.
  destruct (_writer a0); [|auto with orderly].
  apply orderly_bind; [auto with orderly | intro; apply orderly_drain].
Qed.

Lemma orderly_read_object : orderly _read_object.
Proof.
  unfold _read_object. orderly_step.
  destruct (_reader a) as [r|]; [|auto with orderly].
  destruct (readline r) as [received r']. orderly_step.
Qed.

Lemma orderly_load_devices : orderly _load_devices.
Proof.
  unfold _load_devices.
  apply orderly_bind; [apply orderly_write_object | intro].
  apply orderly_bind; [apply orderly_read_object | intro].
  orderly_step.
Qed.

Lemma orderly_load_scenes : orderly _load_scenes.
Proof.
  unfold _load_scenes.
  apply orderly_bind; [apply orderly_write_object | intro].
  apply orderly_bind; [apply orderly_read_object | intro].
  orderly_step.
  apply orderly_update. intros b. destruct a4; split; reflexivity.
Qed.

Lemma orderly_load_state socket : orderly (load_state socket).
Proof.
  unfold load_state.
  apply orderly_bind; [apply orderly_update; intro; split; reflexivity | intro].
  apply orderly_bind; [apply orderly_load_devices | intro].
  apply orderly_bind; [apply orderly_load_scenes | intro].
  apply orderly_bind; [apply orderly_get_self | intro].
  apply orderly_bind.
  - apply orderly_for_each. intros d.
    destruct (zone d); [apply orderly_write_object | apply orderly_ret].
  - intro. apply orderly_update; intro; split; reflexivity.
Qed.

Lemma connect_and_load_eq w :
  connect_and_load w =
  match lookup_endpoint (network w) (_hostname (self w)) LEAP_PORT with
  | Some r => load_state (r, mkWriter (_hostname (self w)) LEAP_PORT) (connecting w)
  | None => (Raise OSError, connecting w)
  end.
Proof.
  unfold connect_and_load, bind, update, get_self, open_connection.
  cbn [self set_logged_in _hostname network trace].
  destruct (lookup_endpoint (network w) (_hostname (self w)) LEAP_PORT);
    reflexivity.
Qed.

(** The first thing [connect_and_load] does to the world is to open a
    connection to the host name of the bridge and to [LEAP_PORT]. *)
Lemma connect_and_load_target w :
  _port (self (snd (connect_and_load w))) = _port (self w) /\
  exists evs,
    trace (snd (connect_and_load w))
    = trace w ++ EvConnect (_hostname (self w)) LEAP_PORT :: evs.
Proof.
  rewrite connect_and_load_eq.
  destruct (lookup_endpoint (network w) (_hostname (self w)) LEAP_PORT)
    as [r|].
  - destruct (load_state (r, mkWriter (_hostname (self w)) LEAP_PORT)
                         (connecting w)) as [res w'] eqn:E.
    apply orderly_load_state in E as (_ & _ & Hp & evs & Ht).
    cbn [snd]. cbn [connecting self trace _port set_logged_in] in Hp, Ht.
    split; [exact Hp|]. exists evs. rewrite Ht. now rewrite <- List.app_assoc.
  - cbn [snd connecting self trace _port set_logged_in].
    split; [reflexivity|]. now exists [].
Qed.

(** C2 (the code misses it). Whatever port the bridge is built for, the
    first login opens its connection to the host name given and to the
    constant [LEAP_PORT], 8081; the port given is kept in [_port] and is not
    used. *)
Theorem init_connects_to_LEAP_PORT (hostname : pystr) (port : Z)
    (net : list (pystr * Z * StreamReader)) :
  _port (self (snd (__init__ hostname (Some port) net))) = port /\
  exists evs,
    trace (snd (__init__ hostname (Some port) net))
    = EvConnect hostname LEAP_PORT :: evs.
Proof.
  unfold __init__, _login. unfold bind at 1, get_self at 1. cbn [self _reader].
  apply (connect_and_load_target
           (mkWorld (mkBridge [] [] false [] hostname port None None) [] net)).
Qed.

(** A bridge built for port 8083 calls port 8081, where nothing listens. *)
Lemma init_port_8083 :
  __init__ (str "hub") (Some 8083%Z) hub_8083
  = (Raise OSError,
     mkWorld (mkBridge [] [] false [] (str "hub") 8083%Z None None)
             [EvConnect (str "hub") 8081%Z] hub_8083).
Proof. vm_compute. reflexivity. Qed.

(** ** C1 *)

Lemma write_object_self obj w :
  self (snd (_write_object obj w)) = self w /\
  network (snd (_write_object obj w)) = network w.
Proof.
  unfold _write_object, drain, bind, lift, get_self, emit, raise, ret.
  rewrite wire_form_dumps. cbv beta iota zeta.
  destruct (_writer (self w)); [|now split].
  cbv beta iota zeta. cbn [self].
  destruct (_reader (self w)) as [r|]; [destruct (exception r)|]; now split.
Qed.

Lemma read_object_Ok w obj w1 :
  _read_object w = (Ok obj, w1) ->
  exists r line r',
    _reader (self w) = Some r /\
    readline r = (Ok line, r') /\
    parse_line line = Ok obj /\
    w1 = mkWorld (set_streams (Some r') (_writer (self w)) (self w))
                 (trace w) (network w).
Proof.
  unfold _read_object, bind, get_self.
  destruct (_reader (self w)) as [r|]; [|discriminate].
  destruct (readline r) as [[line|e] r'] eqn:Hread;
    unfold update, lift; cbv beta iota zeta; [|discriminate].
  destruct (parse_line line) as [obj'|e] eqn:Hparse; [|discriminate].
  intros [= <- <-]. exists r, line, r'. auto.
Qed.

(** A loop that stores one entry for each element. *)
Lemma for_each_store {A E} (f : A -> result E)
    (g : E -> Smartbridge -> Smartbridge) : forall l w w',
  for_each l (fun x => entry <- lift (f x) ;; update (g entry)) w = (Ok tt, w') ->
  exists entries,
    map_result f l = Ok entries /\
    w' = mkWorld (fold_left (fun b e => g e b) entries (self w))
                 (trace w) (network w).
Proof.
  induction l as [|x l IH]; intros w w'; cbn [for_each map_result].
  - unfold ret. intros [= <-]. exists []. split; [reflexivity|].
    now destruct w.
  - unfold bind at 1. unfold bind at 1, lift at 1.
    destruct (f x) as [e|err]; [|discriminate].
    unfold update at 1. cbv beta iota zeta. intros H.
    apply IH in H as (entries & Hm & ->).
    exists (e :: entries). cbn [and_then]. rewrite Hm. split; reflexivity.
Qed.

Lemma load_devices_Ok w w' :
  _load_devices w = (Ok tt, w') ->
  exists r line r' device_json ds,
    _reader (self w) = Some r /\
    readline r = (Ok line, r') /\
    parse_line line = Ok device_json /\
    listed_devices device_json = Ok ds /\
    self w' = fold_left (fun b e => store_device e b) ds
                (set_streams (Some r') (_writer (self w)) (self w)) /\
    network w' = network w.
Proof.
  unfold _load_devices. intros H.
  apply bind_Ok_inv in H as ([] & w1 & Hw & H).
  pose proof (write_object_self (read_request (str "/device")) w) as [Hs Hn].
  rewrite Hw in Hs, Hn. cbn [snd] in Hs, Hn.
  apply bind_Ok_inv in H as (device_json & w2 & Hr & H).
  apply read_object_Ok in Hr as (r & line & r' & Hrd & Hline & Hparse & ->).
  apply bind_Ok_inv in H as (body & w3 & Hb & H).
  apply lift_Ok_inv in Hb as [Hb ->].
  apply bind_Ok_inv in H as (listed & w3 & Hl & H).
  apply lift_Ok_inv in Hl as [Hl ->].
  apply bind_Ok_inv in H as (elements & w3 & He & H).
  apply lift_Ok_inv in He as [He ->].
  apply for_each_store in H as (ds & Hm & ->).
  exists r, line, r', device_json, ds.
  rewrite Hs in *. rewrite Hn.
  repeat split; auto.
  unfold listed_devices. rewrite Hb. cbn [and_then]. rewrite Hl. cbn [and_then].
  now rewrite He.
Qed.

Lemma load_scenes_Ok w w' :
  _load_scenes w = (Ok tt, w') ->
  exists r line r' scene_json ss,
    _reader (self w) = Some r /\
    readline r = (Ok line, r') /\
    parse_line line = Ok scene_json /\
    listed_scenes scene_json = Ok ss /\
    self w' = fold_left (fun b e => store_scene e b) ss
                (set_streams (Some r') (_writer (self w)) (self w)) /\
    network w' = network w.
Proof.
  unfold _load_scenes. intros H.
  apply bind_Ok_inv in H as ([] & w1 & Hw & H).
  pose proof (write_object_self (read_request (str "/virtualbutton")) w) as [Hs Hn].
  rewrite Hw in Hs, Hn. cbn [snd] in Hs, Hn.
  apply bind_Ok_inv in H as (scene_json & w2 & Hr & H).
  apply read_object_Ok in Hr as (r & line & r' & Hrd & Hline & Hparse & ->).
  apply bind_Ok_inv in H as (body & w3 & Hb & H).
  apply lift_Ok_inv in Hb as [Hb ->].
  apply bind_Ok_inv in H as (listed & w3 & Hl & H).
  apply lift_Ok_inv in Hl as [Hl ->].
  apply bind_Ok_inv in H as (elements & w3 & He & H).
  apply lift_Ok_inv in He as [He ->].
  apply for_each_store in H as (ss & Hm & ->).
  exists r, line, r', scene_json, ss.
  rewrite Hs in *. rewrite Hn.
  repeat split; auto.
  unfold listed_scenes. rewrite Hb. cbn [and_then]. rewrite Hl. cbn [and_then].
  now rewrite He.
Qed.

Lemma store_device_frame ds : forall b,
  let b' := fold_left (fun b e => store_device e b) ds b in
  scenes b' = scenes b /\ _reader b' = _reader b /\ _writer b' = _writer b /\
  forall id, dict_get (devices b') id =
             match last_device id ds with
             | Some d => Some d
             | None => dict_get (devices b) id
             end.
Proof.
  induction ds as [|d ds IH]; intros b; cbn [fold_left last_device].
  - repeat split.
  - destruct (IH (store_device d b)) as (Hs & Hr & Hw & Hd).
    cbv zeta. rewrite Hs, Hr, Hw. repeat split. intros id. rewrite Hd.
    destruct (last_device id ds); [reflexivity|].
    cbn [store_device set_devices devices].
    destruct (pystr_eqb (device_id d) id) eqn:E.
    + apply pystr_eqb_eq in E. subst id. apply dict_get_set_same.
    + apply pystr_eqb_neq in E. now apply dict_get_set_other.
Qed.

Lemma store_scene_frame ss : forall b,
  let b' := fold_left (fun b e => store_scene e b) ss b in
  devices b' = devices b /\ _reader b' = _reader b /\ _writer b' = _writer b /\
  forall id, dict_get (scenes b') id =
             match last_scene id ss with
             | Some s => Some s
             | None => dict_get (scenes b) id
             end.
Proof.
  induction ss as [|e ss IH]; intros b; cbn [fold_left last_scene].
  - repeat split.
  - destruct (IH (store_scene e b)) as (Hs & Hr & Hw & Hd).
    cbv zeta. rewrite Hs, Hr, Hw.
    split; [destruct e; reflexivity|].
    split; [destruct e; reflexivity|].
    split; [destruct e; reflexivity|].
    intros id. rewrite Hd.
    destruct (last_scene id ss); [reflexivity|].
    destruct e as [s|]; [|reflexivity].
    cbn [store_scene set_scenes scenes].
    destruct (pystr_eqb (scene_id s) id) eqn:E.
    + apply pystr_eqb_eq in E. subst id. apply dict_get_set_same.
    + apply pystr_eqb_neq in E. now apply dict_get_set_other.
Qed.

Lemma for_each_keeps_self {A} (body : A -> M unit) :
  (forall x w, self (snd (body x w)) = self w) ->
  forall l w, self (snd (for_each l body w)) = self w.
Proof.
  intros Hb. induction l as [|x l IH]; intros w; cbn [for_each].
  - reflexivity.
  - unfold bind. pose proof (Hb x w) as Hx.
    destruct (body x w) as [[[]|e] w1]; cbn [snd] in *.
    + now rewrite IH.
    + exact Hx.
Qed.

(** The caches after the part of [_login] that loads them. *)
Lemma load_state_Ok stream writer w w' :
  load_state (stream, writer) w = (Ok tt, w') ->
  exists after_devices after_scenes line1 line2 device_json scene_json ds ss,
    readline stream = (Ok line1, after_devices) /\
    parse_line line1 = Ok device_json /\
    readline after_devices = (Ok line2, after_scenes) /\
    parse_line line2 = Ok scene_json /\
    listed_devices device_json = Ok ds /\
    listed_scenes scene_json = Ok ss /\
    (forall id, dict_get (devices (self w')) id =
                match last_device id ds with
                | Some d => Some d
                | None => dict_get (devices (self w)) id
                end) /\
    (forall id, dict_get (scenes (self w')) id =
                match last_scene id ss with
                | Some s => Some s
                | None => dict_get (scenes (self w)) id
                end).
Proof.
  unfold load_state. intros H.
  apply bind_Ok_inv in H as ([] & w1 & Hu & H).
  unfold update in Hu. injection Hu as <-. cbn [fst snd] in H.
  apply bind_Ok_inv in H as ([] & w2 & Hd & H).
  apply load_devices_Ok in Hd
    as (r & line1 & r1 & device_json & ds & Hr & Hline1 & Hp1 & Hl1 & Hs2 & Hn2).
  cbn [self set_streams _reader _writer] in Hr, Hs2. injection Hr as <-.
  apply bind_Ok_inv in H as ([] & w3 & Hsc & H).
  apply load_scenes_Ok in Hsc
    as (r & line2 & r2 & scene_json & ss & Hr & Hline2 & Hp2 & Hl2 & Hs3 & Hn3).
  match type of Hs2 with
  | _ = fold_left _ ds ?b0 =>
      destruct (store_device_frame ds b0) as (Fs & Fr & Fw & Fd)
  end.
  cbv zeta in Fs, Fr, Fw, Fd. rewrite <- Hs2 in Fs, Fr, Fw, Fd.
  cbn [set_streams scenes _reader _writer devices] in Fs, Fr, Fw, Fd.
  rewrite Fr in Hr. injection Hr as <-.
  match type of Hs3 with
  | _ = fold_left _ ss ?b0 =>
      destruct (store_scene_frame ss b0) as (Gd & Gr & Gw & Gs)
  end.
  cbv zeta in Gd, Gr, Gw, Gs. rewrite <- Hs3 in Gd, Gr, Gw, Gs.
  cbn [set_streams scenes _reader _writer devices] in Gd, Gr, Gw, Gs.
  apply bind_Ok_inv in H as (b' & w4 & Hg & H).
  unfold get_self in Hg. injection Hg as <- <-.
  apply bind_Ok_inv in H as ([] & w5 & Hloop & H).
  unfold update in H. injection H as <-.
  assert (Hself : self w5 = self w3).
  { pose proof (@for_each_keeps_self Device
      (fun device => match zone device with
                     | Some z => _write_object
                                   (read_request (str "/zone/" ++ z ++ str "/status"))
                     | None => ret tt
                     end)) as K.
    specialize (K (fun x w0 =>
      match zone x as o return
        self (snd (match o with
                   | Some z => _write_object
                                 (read_request (str "/zone/" ++ z ++ str "/status"))
                   | None => ret tt
                   end w0)) = self w0
      with
      | Some z => proj1 (write_object_self _ w0)
      | None => eq_refl
      end) (values (devices (self w3))) w3).
    rewrite Hloop in K. exact K. }
  exists r1, r2, line1, line2, device_json, scene_json, ds, ss.
  cbn [self set_logged_in devices scenes]. rewrite Hself.
  repeat split; auto.
  - intros id. rewrite Gd. apply Fd.
  - intros id. rewrite Gs, Fs. reflexivity.
Qed.

(** C1, as amended. A login that connects and succeeds reads two lines
    from the new connection, the answers of the hub to the two bulk loads,
    and merges them into the caches: after it, the cache gives for the id of
    a listed device the entry made of its (last) listing, and for every
    other id what it gave before the login; entries that the hub no longer
    lists are kept.  Likewise for the scene cache and the programmed virtual
    buttons. *)
Theorem login_merges_into_caches (w w' : World) :
  must_connect (self w) ->
  _login w = (Ok tt, w') ->
  exists stream after_devices after_scenes line1 line2 device_json scene_json
         ds ss,
    lookup_endpoint (network w) (_hostname (self w)) LEAP_PORT = Some stream /\
    readline stream = (Ok line1, after_devices) /\
    parse_line line1 = Ok device_json /\
    readline after_devices = (Ok line2, after_scenes) /\
    parse_line line2 = Ok scene_json /\
    listed_devices device_json = Ok ds /\
    listed_scenes scene_json = Ok ss /\
    (forall id, dict_get (devices (self w')) id =
                match last_device id ds with
                | Some d => Some d
                | None => dict_get (devices (self w)) id
                end) /\
    (forall id, dict_get (scenes (self w')) id =
                match last_scene id ss with
                | Some s => Some s
                | None => dict_get (scenes (self w)) id
                end).
Proof.
  intros Hmust Hlogin.
  assert (Hconn : exists w0,
            connect_and_load w0 = (Ok tt, w') /\
            devices (self w0) = devices (self w) /\
            scenes (self w0) = scenes (self w) /\
            _hostname (self w0) = _hostname (self w) /\
            network w0 = network w).
  { unfold _login, bind at 1, get_self at 1 in Hlogin.
    unfold must_connect in Hmust.
    destruct (_reader (self w)) as [r|].
    - destruct Hmust as [Hdead Hwr].
      assert (Hif : (match exception r with None => true | Some _ => false end)
                    && negb (at_eof r) = false).
      { destruct Hdead as [He|He].
        - destruct (exception r); [reflexivity | congruence].
        - rewrite He. apply andb_false_r. }
      rewrite Hif in Hlogin.
      destruct (_writer (self w)) as [wr|]; [|congruence].
      unfold bind at 1, emit at 1 in Hlogin.
      unfold bind at 1, update at 1 in Hlogin.
      eexists. split; [exact Hlogin|]. repeat split.
    - exists w. repeat split. exact Hlogin. }
  destruct Hconn as (w0 & Hrun & Hd & Hs & Hh & Hn).
  rewrite connect_and_load_eq, Hn, Hh in Hrun.
  destruct (lookup_endpoint (network w) (_hostname (self w)) LEAP_PORT)
    as [stream|]; [|discriminate].
  apply load_state_Ok in Hrun
    as (r1 & r2 & l1 & l2 & dj & sj & ds & ss & A & B & C & D & E & F & G & H).
  cbn [connecting self set_logged_in devices scenes] in G, H.
  rewrite Hd in G. rewrite Hs in H.
  exists stream, r1, r2, l1, l2, dj, sj, ds, ss. repeat split; auto.
Qed.

Lemma login_merges_into_caches_witness :
  exists stream after_devices after_scenes line1 line2 device_json scene_json
         ds ss,
    lookup_endpoint (network stale_world) (_hostname (self stale_world)) LEAP_PORT
    = Some stream /\
    readline stream = (Ok line1, after_devices) /\
    parse_line line1 = Ok device_json /\
    readline after_devices = (Ok line2, after_scenes) /\
    parse_line line2 = Ok scene_json /\
    listed_devices device_json = Ok ds /\
    listed_scenes scene_json = Ok ss /\
    (forall id, dict_get (devices (self (snd (_login stale_world)))) id =
                match last_device id ds with
                | Some d => Some d
                | None => dict_get (devices (self stale_world)) id
                end) /\
    (forall id, dict_get (scenes (self (snd (_login stale_world)))) id =
                match last_scene id ss with
                | Some s => Some s
                | None => dict_get (scenes (self stale_world)) id
                end).
Proof.
  apply (@login_merges_into_caches stale_world (snd (_login stale_world))).
  - split; [right; reflexivity | discriminate].
  - vm_compute. reflexivity.
Defined.

(** C1 as stated fails: the hub lists the lamp only, and after the login
    the cache still holds the remote, and the scene cache the old scene. *)
Lemma login_replaces_caches_counterexample :
  (let? line := fst (readline hub_stream) in
   let? device_json := parse_line line in
   listed_devices device_json) = Ok [fresh_lamp] /\
  fst (_login stale_world) = Ok tt /\
  devices (self (snd (_login stale_world)))
  = [(str "5", fresh_lamp); (str "9", remote)] /\
  dict_get (devices (self (snd (_login stale_world)))) (str "9") = Some remote /\
  dict_get (scenes (self (snd (_login stale_world)))) (str "7") = Some movie.
Proof. vm_compute. repeat split. Qed.
(* ===================================================================== *)
(** * More of the bridge: queries, pushes, the monitor, the login *)
(* ===================================================================== *)

Unset Implicit Arguments.

(* ===================================================================== *)
(** * Further properties *)
(* ===================================================================== *)

(** ** The queries by type and by domain *)

(** The loop over the keys of the cache visits the entries in order. *)
Lemma collect_devices_run b test : forall rest pre devs,
  devices b = pre ++ rest ->
  NoDup (keys (pre ++ rest)) ->
  collect_devices b test (keys rest) devs
  = Ok (devs ++ filter (fun d => test (type d)) (values rest)).
Proof.
  induction rest as [|[k d] rest IH]; intros pre devs Hdev Hnd.
  - cbn. now rewrite List.app_nil_r.
  - assert (Hk : ~ In k (keys pre)).
    { unfold keys in *. rewrite map_app in Hnd. cbn [List.map fst] in Hnd.
      apply NoDup_remove_2 in Hnd. intros Hin. apply Hnd.
      apply in_or_app. now left. }
    cbn [keys List.map fst collect_devices].
    rewrite Hdev, dict_get_app_skip by exact Hk.
    cbn [dict_get]. rewrite pystr_eqb_refl.
    change (List.map fst rest) with (keys rest).
    rewrite (IH (pre ++ [(k, d)])).
    + cbn [values List.map snd filter].
      destruct (test (type d)); [now rewrite <- List.app_assoc | reflexivity].
    + rewrite Hdev. now rewrite <- List.app_assoc.
    + now rewrite <- List.app_assoc.
Qed.

Lemma collect_devices_all b test :
  NoDup (keys (devices b)) ->
  collect_devices b test (keys (devices b)) []
  = Ok (filter (fun d => test (type d)) (values (devices b))).
Proof.
  intros Hnd. now rewrite (@collect_devices_run b test (devices b) [] []).
Qed.

Lemma eq_str_iff (v : json) (s : pystr) : eq_str v s = true <-> v = JStr s.
Proof.
  split; [apply eq_str_true|]. intros ->. apply pystr_eqb_refl.
Qed.

Lemma in_types_iff types v :
  in_types types v = true <-> exists t, In t types /\ v = JStr t.
Proof.
  unfold in_types. rewrite existsb_exists. split.
  - intros (t & Hin & Heq). apply eq_str_iff in Heq. eauto.
  - intros (t & Hin & ->). exists t. split; [exact Hin | apply pystr_eqb_refl].
Qed.

Lemma In_values_dict_get {V} (D : dict V) v :
  NoDup (keys D) ->
  In v (values D) <-> exists k, dict_get D k = Some v.
Proof.
  intros Hnd. split.
  - induction D as [|[k0 v0] D IH]; [intros []|].
    cbn [values List.map snd]. inversion Hnd as [|? ? Hn Hd]; subst.
    intros [->|Hin].
    + exists k0. cbn. now rewrite pystr_eqb_refl.
    + destruct (IH Hd Hin) as (k & Hk). exists k. cbn [dict_get].
      destruct (pystr_eqb k0 k) eqn:E; [|exact Hk].
      apply pystr_eqb_eq in E. subst k0. exfalso. apply Hn.
      apply dict_get_In in Hk. unfold keys.
      change k with (fst (k, v)). now apply in_map.
  - intros (k & Hk). apply dict_get_In in Hk. unfold values.
    change v with (snd (k, v)). now apply in_map.
Qed.

(** X1. [get_devices_by_type] answers the cached devices of that type, in the
    order of the cache, and never raises. *)
Theorem get_devices_by_type_filters (b : Smartbridge) (type_ : pystr) :
  NoDup (keys (devices b)) ->
  get_devices_by_type b type_
  = Ok (filter (fun d => eq_str (type d) type_) (values (devices b))) /\
  forall d, In d (filter (fun d => eq_str (type d) type_) (values (devices b)))
            <-> (exists id, dict_get (devices b) id = Some d)
                /\ type d = JStr type_.
Proof.
  intros Hnd. split.
  - now apply collect_devices_all.
  - intros d. rewrite filter_In, eq_str_iff, In_values_dict_get by exact Hnd.
    reflexivity.
Qed.

Lemma get_devices_by_type_filters_witness :
  get_devices_by_type home (str "WallDimmer") = Ok [lamp].
Proof.
  refine (proj1 (@get_devices_by_type_filters home (str "WallDimmer") _)).
  repeat constructor; simpl; intuition discriminate.
Defined.

(** X2. [get_devices_by_types] answers the cached devices whose type is one of
    the list, each once and in the order of the cache, and never raises;
    with a list of one type it answers as [get_devices_by_type], with an
    empty list nothing. *)
Theorem get_devices_by_types_filters (b : Smartbridge) (types : list pystr) :
  NoDup (keys (devices b)) ->
  get_devices_by_types b types
  = Ok (filter (fun d => in_types types (type d)) (values (devices b))) /\
  (forall d, in_types types (type d) = true
             <-> exists t, In t types /\ type d = JStr t) /\
  (forall d, In d (filter (fun d => in_types types (type d)) (values (devices b)))
             <-> (exists id, dict_get (devices b) id = Some d) /\
                 exists t, In t types /\ type d = JStr t) /\
  get_devices_by_types b [] = Ok [] /\
  forall t, get_devices_by_types b [t] = get_devices_by_type b t.
Proof.
  intros Hnd. unfold get_devices_by_types, get_devices_by_type.
  rewrite !collect_devices_all by exact Hnd. repeat split.
  - apply in_types_iff.
  - apply in_types_iff.
  - rewrite filter_In, in_types_iff, In_values_dict_get in H by exact Hnd.
    tauto.
  - rewrite filter_In, in_types_iff, In_values_dict_get in H by exact Hnd.
    tauto.
  - intros [Hc Ht]. rewrite filter_In, in_types_iff, In_values_dict_get
      by exact Hnd. tauto.
  - f_equal. induction (values (devices b)) as [|d l IH]; [reflexivity|].
    cbn. exact IH.
  - intros t. rewrite !collect_devices_all by exact Hnd. f_equal.
    apply filter_ext. intros d. unfold in_types. cbn. apply orb_false_r.
Qed.

Lemma get_devices_by_types_filters_witness :
  get_devices_by_types home [str "Pico3Button"; str "WallDimmer"]
  = Ok [lamp; remote].
Proof.
  refine (proj1 (@get_devices_by_types_filters home
                   [str "Pico3Button"; str "WallDimmer"] _)).
  repeat constructor; simpl; intuition discriminate.
Defined.

(** X3. [get_devices_by_domain] never raises: for a domain that is not in the
    table it answers the empty list, and for one that is, the cached devices
    whose type the table lists under the domain. *)
Theorem get_devices_by_domain_lists (table : dict (list pystr))
    (b : Smartbridge) (domain : pystr) :
  NoDup (keys (devices b)) ->
  exists devs,
    get_devices_by_domain table b domain = Ok devs /\
    (dict_get table domain = None -> devs = []) /\
    forall d, In d devs <->
              (exists id, dict_get (devices b) id = Some d) /\
              exists types t, dict_get table domain = Some types /\
                              In t types /\ type d = JStr t.
Proof.
  intros Hnd. unfold get_devices_by_domain.
  destruct (dict_get table domain) as [types|].
  - rewrite collect_devices_all by exact Hnd. eexists.
    split; [reflexivity|]. split; [discriminate|]. intros d.
    rewrite filter_In, in_types_iff, In_values_dict_get by exact Hnd.
    split.
    + intros [Hc (t & Ht & Hty)]. split; [exact Hc|]. exists types, t. auto.
    + intros [Hc (types' & t & [= <-] & Ht & Hty)]. split; [exact Hc|]. eauto.
  - exists []. split; [reflexivity|]. split; [reflexivity|]. intros d. split.
    + intros [].
    + intros [_ (types & t & Habs & _)]. discriminate.
Qed.

Lemma get_devices_by_domain_lists_witness :
  get_devices_by_domain domains home (str "light") = Ok [lamp] /\
  get_devices_by_domain domains home (str "fan") = Ok [].
Proof.
  assert (Hnd : NoDup (keys (devices home)))
    by (repeat constructor; simpl; intuition discriminate).
  split.
  - destruct (@get_devices_by_domain_lists domains home (str "light") Hnd)
      as (devs & Hrun & _).
    rewrite Hrun. vm_compute in Hrun. now injection Hrun as <-.
  - destruct (@get_devices_by_domain_lists domains home (str "fan") Hnd)
      as (devs & Hrun & Hnone & _).
    rewrite Hrun. f_equal. apply Hnone. reflexivity.
Defined.

(** ** Subscribers and pushes *)

(** What handling a zone status does, as one equation. *)
Lemma handle_zone_status_run resp href level w :
  zone_status resp href level ->
  NoDup (keys (devices (self w))) ->
  _handle_response resp w =
  (Ok tt,
   mkWorld (set_devices
              (List.map (fun e => (fst e, pushed (last_segment href) level (snd e)))
                        (devices (self w))) (self w))
           (trace w ++ flat_map (notified (_subscribers (self w))
                                          (last_segment href))
                                (devices (self w)))
           (network w)).
Proof.
  intros Hzs Hnd.
  rewrite (@handle_response_zone_status resp href level w Hzs).
  unfold bind at 1, get_self at 1.
  now rewrite (@push_loop_run (last_segment href) level
                 (devices (self w)) [] w eq_refl Hnd).
Qed.

(** X4. [add_subscriber] replaces the callback of the device: at the next push
    for the zone of the device the callback called for it is the one
    registered last, once, whatever was registered before; and the caches
    are not touched by the registration. *)
Theorem add_subscriber_replaces_callback (w : World) (id : pystr)
    (callback_ : callback) (resp : json) (href : pystr) (level : json)
    (d : Device) :
  zone_status resp href level ->
  NoDup (keys (devices (self w))) ->
  dict_get (devices (self w)) id = Some d ->
  zone d = Some (last_segment href) ->
  devices (self (snd (add_subscriber id callback_ w))) = devices (self w) /\
  scenes (self (snd (add_subscriber id callback_ w))) = scenes (self w) /\
  exists evs w',
    (add_subscriber id callback_ ;; _handle_response resp) w = (Ok tt, w') /\
    trace w' = trace w ++ evs /\
    calls_of id evs = [EvCallback id callback_].
Proof.
  intros Hzs Hnd Hget Hzone. split; [reflexivity|]. split; [reflexivity|].
  unfold bind at 1, add_subscriber, update.
  rewrite (@handle_zone_status_run resp href level _ Hzs) by exact Hnd.
  eexists _, _. split; [reflexivity|]. cbn [trace self]. split; [reflexivity|].
  rewrite (@calls_of_entry _ _ id _ d) by assumption.
  unfold zone_matches. rewrite Hzone, pystr_eqb_refl.
  cbn [_subscribers set_subscribers]. now rewrite dict_get_set_same.
Qed.

Lemma add_subscriber_replaces_callback_witness :
  exists evs w',
    (add_subscriber (str "5") 2%nat ;; _handle_response push_42) home_world
    = (Ok tt, w') /\
    trace w' = trace home_world ++ evs /\
    calls_of (str "5") evs = [EvCallback (str "5") 2%nat].
Proof.
  refine (proj2 (proj2 (@add_subscriber_replaces_callback home_world (str "5")
            2%nat push_42 (str "/zone/3") (JInt 42) lamp _ _ _ _))).
  - econstructor; reflexivity.
  - repeat constructor; simpl; intuition discriminate.
  - reflexivity.
  - reflexivity.
Defined.

(** X5. After a push, [is_on] of a device of the pushed zone is the comparison
    of the pushed level with 0, whatever the level is: False for 0, True for
    a positive int, TypeError for a level that is not a number.  For the
    other devices [is_on] answers as before. *)
Theorem is_on_after_push (w : World) (resp : json) (href : pystr)
    (level : json) (id : pystr) (d : Device) :
  zone_status resp href level ->
  NoDup (keys (devices (self w))) ->
  dict_get (devices (self w)) id = Some d ->
  is_on (self (snd (_handle_response resp w))) id =
  if zone_matches (last_segment href) d then gt_zero level
  else is_on (self w) id.
Proof.
  intros Hzs Hnd Hget.
  rewrite (@handle_zone_status_run resp href level w Hzs Hnd).
  cbn [snd self]. unfold is_on. cbn [devices set_devices].
  rewrite dict_get_map_values, Hget. cbn [option_map]. unfold pushed.
  destruct (zone_matches (last_segment href) d); reflexivity.
Qed.

Lemma is_on_after_push_witness :
  is_on (self (snd (_handle_response push_42 home_world))) (str "5") = Ok true /\
  is_on (self (snd (_handle_response push_null home_world))) (str "5")
  = Raise TypeError.
Proof.
  assert (Hnd : NoDup (keys (devices (self home_world))))
    by (repeat constructor; simpl; intuition discriminate).
  split.
  - apply (@is_on_after_push home_world push_42 (str "/zone/3") (JInt 42)
             (str "5") lamp); [econstructor; reflexivity | exact Hnd | reflexivity].
  - apply (@is_on_after_push home_world push_null (str "/zone/3") JNull
             (str "5") lamp); [econstructor; reflexivity | exact Hnd | reflexivity].
Defined.

(** X6. Handling the same zone status twice leaves the caches as handling it
    once does; only the callbacks are called again. *)
Theorem push_is_idempotent_on_cache (w : World) (resp : json) (href : pystr)
    (level : json) :
  zone_status resp href level ->
  NoDup (keys (devices (self w))) ->
  let once := snd (_handle_response resp w) in
  let twice := snd (_handle_response resp once) in
  self twice = self once /\
  trace twice = trace once ++ flat_map (notified (_subscribers (self w))
                                                 (last_segment href))
                                       (devices (self w)).
Proof.
  intros Hzs Hnd. cbv zeta.
  rewrite (@handle_zone_status_run resp href level w Hzs Hnd). cbn [snd].
  rewrite (@handle_zone_status_run resp href level _ Hzs)
    by (cbn [self devices set_devices]; now rewrite pushed_keys).
  cbn [snd self trace devices set_devices _subscribers]. split.
  - unfold set_devices. cbn. f_equal. rewrite map_map. apply map_ext.
    intros [k d]. cbn [fst snd]. now rewrite pushed_idem.
  - f_equal. rewrite flat_map_concat_map, map_map, <- flat_map_concat_map.
    apply flat_map_ext. intros [k d]. unfold notified. cbn [fst snd].
    unfold pushed. destruct (zone_matches (last_segment href) d) eqn:E.
    + now rewrite zone_matches_set_current_state, E.
    + now rewrite E.
Qed.

Lemma push_is_idempotent_on_cache_witness :
  self (snd (_handle_response push_42 (snd (_handle_response push_42 home_world))))
  = self (snd (_handle_response push_42 home_world)).
Proof.
  refine (proj1 (@push_is_idempotent_on_cache home_world push_42 (str "/zone/3")
                   (JInt 42) _ _)).
  - econstructor; reflexivity.
  - repeat constructor; simpl; intuition discriminate.
Defined.

(** ** Messages that are not a zone status *)

Lemma getitem_error obj key e :
  getitem obj key = Raise e -> e = KeyError \/ e = TypeError.
Proof.
  destruct obj as [| | | | |d]; cbn; try (intros [= <-]; tauto).
  destruct (dict_get d key); [discriminate | intros [= <-]; tauto].
Qed.

Lemma href_id_error obj e : href_id obj = Raise e -> e = AttributeError.
Proof. destruct obj; cbn; congruence. Qed.

(** The loop of [_handle_response] finds every key it visits. *)
Lemma push_loop_returns id level ks : forall w,
  (forall k, In k ks -> dict_in k (devices (self w)) = true) ->
  fst (for_each ks (push_turn id level) w) = Ok tt.
Proof.
  induction ks as [|k ks IH]; intros w Hin; [reflexivity|].
  cbn [for_each]. unfold bind.
  destruct (push_turn id level k w) as [[[]|e] w1] eqn:Hstep.
  - apply IH. intros k' Hk'.
    pose proof (push_turn_inv k w (push_inv_refl id level _) Hstep k') as Hinv.
    specialize (Hin k' (or_intror Hk')). unfold dict_in in *.
    destruct (dict_get (devices (self w)) k'); [|discriminate].
    destruct Hinv as [-> | ->]; reflexivity.
  - exfalso. unfold push_turn, bind, get_self in Hstep.
    specialize (Hin k (or_introl eq_refl)). unfold dict_in in Hin.
    destruct (dict_get (devices (self w)) k) as [dk|]; [|discriminate].
    destruct (zone_matches id dk); [|discriminate].
    unfold update in Hstep.
    destruct (dict_get (_subscribers (self w)) k); discriminate.
Qed.

Lemma dict_in_keys {V} (D : dict V) k : In k (keys D) -> dict_in k D = true.
Proof.
  intros Hin. unfold dict_in. destruct (dict_get D k) eqn:E; [reflexivity|].
  apply dict_get_None in E. contradiction.
Qed.

Lemma handle_response_raise_inv resp w w' e :
  _handle_response resp w = (Raise e, w') -> w' = w /\ lookup_error e.
Proof.
  intros H. destruct (handle_response_cases resp w) as [Hsame|(href & level & Hzs)].
  - rewrite H in Hsame. cbn [snd] in Hsame. split; [exact Hsame|].
    revert H. unfold _handle_response, lookup_error.
    repeat (unfold bind at 1, lift at 1;
            match goal with
            | |- context [match getitem ?o ?k with _ => _ end] =>
                let E := fresh "E" in
                destruct (getitem o k) eqn:E;
                [|intros [= <- _]; apply getitem_error in E; tauto]
            | |- context [if eq_str ?a ?b then _ else _] =>
                destruct (eq_str a b); [|discriminate]
            | |- context [match href_id ?o with _ => _ end] =>
                let E := fresh "E" in
                destruct (href_id o) eqn:E;
                [|intros [= <- _]; apply href_id_error in E; tauto]
            end).
    unfold bind at 1, get_self at 1. intros Hloop. exfalso.
    match type of Hloop with
    | for_each _ (fun _ => _) _ = _ => idtac
    | _ => idtac
    end.
    match type of Hloop with
    | ?lhs = _ =>
        match lhs with
        | context [zone_matches ?zid _] =>
            match lhs with
            | context [set_current_state ?level _] =>
                pose proof (@push_loop_returns zid level
                              (keys (devices (self w))) w
                              (fun k Hk => dict_in_keys _ k Hk)) as Hret;
                change lhs with (for_each (keys (devices (self w)))
                                          (push_turn zid level) w) in Hloop
            end
        end
    end.
    rewrite Hloop in Hret. discriminate.
  - exfalso. rewrite (@handle_response_zone_status resp href level w Hzs) in H.
    unfold bind at 1, get_self at 1 in H.
    pose proof (@push_loop_returns (last_segment href) level
                  (keys (devices (self w))) w
                  (fun k Hk => dict_in_keys _ k Hk)) as Hret.
    rewrite H in Hret. discriminate.
Qed.




(** ** Devices that are not in the cache *)

(** X8. For an id that is not in the device cache every command and query of a
    device raises KeyError, and nothing is written or changed. *)
Theorem unknown_device_raises_KeyError (w : World) (id : pystr) (value : Z) :
  dict_get (devices (self w)) id = None ->
  get_value id w = (Raise KeyError, w) /\
  set_value id value w = (Raise KeyError, w) /\
  turn_on id w = (Raise KeyError, w) /\
  turn_off id w = (Raise KeyError, w) /\
  is_on (self w) id = Raise KeyError /\
  get_device_by_id (self w) id = Raise KeyError.
Proof.
  intros H.
  unfold turn_on, turn_off, get_value, set_value, is_on, get_device_by_id,
    bind, get_self, lift, _get_zone_id.
  rewrite H. repeat split.
Qed.

Lemma unknown_device_raises_KeyError_witness :
  turn_on (str "77") home_world = (Raise KeyError, home_world).
Proof.
  exact (proj1 (proj2 (proj2 (@unknown_device_raises_KeyError home_world
                                (str "77") 0%Z eq_refl)))).
Defined.

(** ** One turn of the monitor *)

Lemma login_live w r :
  _reader (self w) = Some r -> exception r = None -> at_eof r = false ->
  _login w = (Ok tt, w).
Proof.
  intros Hr Hexc Heof. unfold _login, bind, get_self.
  rewrite Hr, Hexc, Heof. reflexivity.
Qed.

Lemma read_object_line w r line r' :
  _reader (self w) = Some r ->
  readline r = (Ok line, r') ->
  _read_object w = (parse_line line, after_read w r').
Proof.
  intros Hr Hline. unfold _read_object, bind, get_self, update, lift.
  rewrite Hr, Hline. unfold after_read.
  destruct (parse_line line); reflexivity.
Qed.

(** A turn of the monitor on a live connection that delivers a line. *)
Lemma monitor_turn_line (w : World) (r r' : StreamReader) (line : bytes) :
  _reader (self w) = Some r ->
  exception r = None ->
  at_eof r = false ->
  readline r = (Ok line, r') ->
  _monitor_turn w =
  match parse_line line with
  | Ok JNull => (Ok tt, after_read w r')
  | Ok resp =>
      match _handle_response resp (after_read w r') with
      | (Raise ValueError, w') => (Ok tt, w')
      | (Raise ConnectionResetError, w') => (Ok tt, w')
      | other => other
      end
  | Raise ValueError => (Ok tt, after_read w r')
  | Raise ConnectionResetError => (Ok tt, after_read w r')
  | Raise e => (Raise e, after_read w r')
  end.
Proof.
  intros Hr He Heof Hline. unfold _monitor_turn.
  unfold bind at 1. rewrite (@login_live w r Hr He Heof). cbv beta iota.
  unfold bind at 1. rewrite (@read_object_line w r line r' Hr Hline).
  destruct (parse_line line) as [[| | | | |]|[]]; reflexivity.
Qed.

(** X9. The monitor does not give up on a line that is not JSON: the line is
    consumed, the turn returns, and nothing else changes. *)
Theorem monitor_swallows_bad_line (w : World) (r r' : StreamReader)
    (line : bytes) :
  _reader (self w) = Some r ->
  exception r = None ->
  at_eof r = false ->
  readline r = (Ok line, r') ->
  parse_line line = Raise ValueError ->
  _monitor_turn w = (Ok tt, after_read w r').
Proof.
  intros Hr He Heof Hline Hparse.
  rewrite (@monitor_turn_line w r r' line Hr He Heof Hline), Hparse.
  reflexivity.
Qed.

Lemma monitor_swallows_bad_line_witness :
  _monitor_turn (receiving garbage_line)
  = (Ok tt, after_read (receiving garbage_line) (mkReader [] false None)).
Proof.
  apply (@monitor_swallows_bad_line (receiving garbage_line)
           (mkReader garbage_line false None) (mkReader [] false None)
           garbage_line); vm_compute; reflexivity.
Defined.

(** X10. A turn of the monitor on a live connection whose next line is a zone
    status: the line is consumed and the turn returns, with the world given
    below.  For every cached device whose zone is the zone id of the href,
    the entry after the turn has the level of the message as current_state
    and is otherwise the entry before, and the callback registered for the
    device, if there is one, is called once; every other cached device keeps
    its entry and its callback is not called.  The calls are made in the
    order of the cache. *)
Theorem monitor_applies_push (w : World) (r r' : StreamReader) (line : bytes)
    (resp : json) (href : pystr) (level : json) :
  _reader (self w) = Some r ->
  exception r = None ->
  at_eof r = false ->
  readline r = (Ok line, r') ->
  parse_line line = Ok resp ->
  zone_status resp href level ->
  NoDup (keys (devices (self w))) ->
  let id := last_segment href in
  let calls := flat_map (notified (_subscribers (self w)) id)
                        (devices (self w)) in
  _monitor_turn w =
  (Ok tt,
   mkWorld (set_devices
              (List.map (fun e => (fst e, pushed id level (snd e)))
                        (devices (self w)))
              (set_streams (Some r') (_writer (self w)) (self w)))
           (trace w ++ calls)
           (network w)) /\
  forall k d,
    dict_get (devices (self w)) k = Some d ->
    exists d',
      dict_get (devices (self (snd (_monitor_turn w)))) k = Some d' /\
      (zone d = Some id ->
         current_state d' = level /\
         device_id d' = device_id d /\ name d' = name d /\
         type d' = type d /\ zone d' = zone d /\
         calls_of k calls
         = match dict_get (_subscribers (self w)) k with
           | Some callback_ => [EvCallback k callback_]
           | None => []
           end) /\
      (zone d <> Some id -> d' = d /\ calls_of k calls = []).
Proof.
  intros Hr He Heof Hline Hparse Hzs Hnd. cbv zeta.
  assert (Hrun : _monitor_turn w =
    (Ok tt,
     mkWorld (set_devices
                (List.map (fun e => (fst e, pushed (last_segment href) level (snd e)))
                          (devices (self w)))
                (set_streams (Some r') (_writer (self w)) (self w)))
             (trace w ++ flat_map (notified (_subscribers (self w))
                                            (last_segment href))
                                  (devices (self w)))
             (network w))).
  { rewrite (@monitor_turn_line w r r' line Hr He Heof Hline), Hparse.
    rewrite (@handle_zone_status_run resp href level (after_read w r') Hzs)
      by exact Hnd.
    destruct Hzs as [body status zone_ref H1 _ _ _ _ _].
    destruct resp; try discriminate H1. reflexivity. }
  split; [exact Hrun|].
  intros k d Hget. rewrite Hrun. cbn [snd self devices set_devices].
  now apply push_entry.
Qed.

Lemma monitor_applies_push_witness :
  _monitor_turn (receiving (dumps push_75 ++ CRLF))
  = (Ok tt,
     mkWorld (set_devices [(str "5", lamp_75); (str "9", remote)]
                (set_streams (Some (mkReader [] false None)) (Some hub_writer)
                             home))
             [EvCallback (str "5") 1%nat] []) /\
  exists d',
    dict_get (devices (self (snd (_monitor_turn
                                    (receiving (dumps push_75 ++ CRLF))))))
             (str "5") = Some d' /\
    current_state d' = JInt 75 /\
    calls_of (str "5") [EvCallback (str "5") 1%nat]
    = [EvCallback (str "5") 1%nat].
Proof.
  assert (Hzs : zone_status push_75 (str "/zone/3") (JInt 75))
    by (econstructor; reflexivity).
  assert (Hnd : NoDup (keys (devices (self (receiving (dumps push_75 ++ CRLF)))))).
  { repeat constructor; simpl; intuition discriminate. }
  assert (Hline : readline (mkReader (dumps push_75 ++ CRLF) false None)
                  = (Ok (dumps push_75 ++ CRLF), mkReader [] false None))
    by (vm_compute; reflexivity).
  assert (Hparse : parse_line (dumps push_75 ++ CRLF) = Ok push_75)
    by (vm_compute; reflexivity).
  destruct (@monitor_applies_push (receiving (dumps push_75 ++ CRLF))
              (mkReader (dumps push_75 ++ CRLF) false None)
              (mkReader [] false None) (dumps push_75 ++ CRLF)
              push_75 (str "/zone/3") (JInt 75)
              eq_refl eq_refl eq_refl Hline Hparse Hzs Hnd) as [Hrun Hall].
  split; [exact Hrun|].
  destruct (Hall (str "5") lamp eq_refl) as (d' & Hget & Hin & _).
  exists d'. split; [exact Hget|].
  destruct (Hin eq_refl) as (Hlevel & _ & _ & _ & _ & Hcalls).
  split; [exact Hlevel | exact Hcalls].
Defined.

(** X11. A message of another type than ReadResponse, such as the answer of the
    hub to a command, is ignored: the turn of the monitor consumes its line
    and changes nothing else. *)
Theorem monitor_ignores_other_types (w : World) (r r' : StreamReader)
    (line : bytes) (resp type_ : json) :
  _reader (self w) = Some r ->
  exception r = None ->
  at_eof r = false ->
  readline r = (Ok line, r') ->
  parse_line line = Ok resp ->
  getitem resp (str "CommuniqueType") = Ok type_ ->
  type_ <> JStr (str "ReadResponse") ->
  _monitor_turn w = (Ok tt, after_read w r').
Proof.
  intros Hr He Heof Hline Hparse Hty Hne.
  rewrite (@monitor_turn_line w r r' line Hr He Heof Hline), Hparse.
  assert (Hrun : _handle_response resp (after_read w r')
                 = (Ok tt, after_read w r')).
  { unfold _handle_response, bind at 1, lift at 1. rewrite Hty.
    destruct (eq_str type_ (str "ReadResponse")) eqn:E; [|reflexivity].
    apply eq_str_true in E. contradiction. }
  rewrite Hrun. destruct resp; try discriminate Hty. reflexivity.
Qed.

Lemma monitor_ignores_other_types_witness :
  _monitor_turn (receiving (dumps create_response ++ CRLF))
  = (Ok tt, after_read (receiving (dumps create_response ++ CRLF))
                       (mkReader [] false None)).
Proof.
  refine (@monitor_ignores_other_types (receiving (dumps create_response ++ CRLF))
            (mkReader (dumps create_response ++ CRLF) false None)
            (mkReader [] false None) (dumps create_response ++ CRLF)
            create_response (JStr (str "CreateResponse")) _ _ _ _ _ _ _).
  - reflexivity.
  - reflexivity.
  - reflexivity.
  - vm_compute. reflexivity.
  - vm_compute. reflexivity.
  - reflexivity.
  - discriminate.
Defined.

(** X12. An error that the handler raises escapes the loop of the monitor: its
    except clause names ValueError and ConnectionResetError only, and the
    handler raises KeyError, TypeError or AttributeError. *)
Theorem monitor_propagates_lookup_errors (w : World) (r r' : StreamReader)
    (line : bytes) (resp : json) (e : exn) (w' : World) :
  _reader (self w) = Some r ->
  exception r = None ->
  at_eof r = false ->
  readline r = (Ok line, r') ->
  parse_line line = Ok resp ->
  resp <> JNull ->
  _handle_response resp (after_read w r') = (Raise e, w') ->
  _monitor_turn w = (Raise e, after_read w r') /\ lookup_error e.
Proof.
  intros Hr He Heof Hline Hparse Hnn Hh.
  rewrite (@monitor_turn_line w r r' line Hr He Heof Hline), Hparse.
  destruct (@handle_response_raise_inv _ _ _ _ Hh) as [Hw Herr]. subst w'.
  rewrite Hh. split; [|exact Herr].
  destruct resp; try congruence;
    destruct Herr as [->|[->| ->]]; reflexivity.
Qed.

Lemma monitor_propagates_lookup_errors_witness :
  _monitor_turn (receiving (str "{}" ++ CRLF))
  = (Raise KeyError, after_read (receiving (str "{}" ++ CRLF))
                                (mkReader [] false None))
  /\ lookup_error KeyError.
Proof.
  refine (@monitor_propagates_lookup_errors (receiving (str "{}" ++ CRLF))
            (mkReader (str "{}" ++ CRLF) false None)
            (mkReader [] false None) (str "{}" ++ CRLF)
            (JObj []) KeyError _ _ _ _ _ _ _ _).
  - reflexivity.
  - reflexivity.
  - reflexivity.
  - vm_compute. reflexivity.
  - vm_compute. reflexivity.
  - discriminate.
  - vm_compute. reflexivity.
Defined.

(** ** The login that connects *)

Lemma login_connects w :
  must_connect (self w) -> _login w = connect_and_load (dropped w).
Proof.
  intros Hmust. unfold _login, bind at 1, get_self at 1, dropped.
  unfold must_connect in Hmust.
  destruct (_reader (self w)) as [r|]; [|reflexivity].
  destruct Hmust as [Hdead Hwr].
  assert (Hif : (match exception r with None => true | Some _ => false end)
                && negb (at_eof r) = false).
  { destruct Hdead as [He|He].
    - destruct (exception r); [reflexivity | congruence].
    - rewrite He. apply andb_false_r. }
  rewrite Hif.
  destruct (_writer (self w)) as [wr|]; [|congruence].
  unfold bind at 1, emit at 1. unfold bind at 1, update at 1.
  reflexivity.
Qed.

Lemma login_eq w :
  must_connect (self w) ->
  _login w =
  match lookup_endpoint (network w) (_hostname (self w)) LEAP_PORT with
  | Some r => load_state (r, mkWriter (_hostname (self w)) LEAP_PORT)
                         (connecting (dropped w))
  | None => (Raise OSError, connecting (dropped w))
  end.
Proof.
  intros Hmust. rewrite (login_connects _ Hmust), connect_and_load_eq.
  unfold dropped. destruct (_reader (self w)); reflexivity.
Qed.

Lemma write_object_Ok obj w w1 :
  _write_object obj w = (Ok tt, w1) ->
  w1 = with_events w [EvWrite (dumps obj ++ CRLF)].
Proof.
  intros H. destruct (_writer (self w)) as [wr|] eqn:Hw.
  - destruct (@write_object_world obj w wr Hw) as [Hs _].
    rewrite H in Hs. exact Hs.
  - revert H. unfold _write_object, bind, lift, get_self, raise.
    rewrite wire_form_dumps. cbv beta iota zeta. rewrite Hw. discriminate.
Qed.

Lemma load_devices_world w w' :
  _load_devices w = (Ok tt, w') ->
  exists r line r' device_json ds,
    _reader (self w) = Some r /\
    readline r = (Ok line, r') /\
    parse_line line = Ok device_json /\
    listed_devices device_json = Ok ds /\
    w' = mkWorld (fold_left (fun b e => store_device e b) ds
                    (set_streams (Some r') (_writer (self w)) (self w)))
                 (trace w ++ [EvWrite (dumps (read_request (str "/device")) ++ CRLF)])
                 (network w).
Proof.
  unfold _load_devices. intros H.
  apply bind_Ok_inv in H as ([] & w1 & Hw & H).
  apply write_object_Ok in Hw. subst w1.
  apply bind_Ok_inv in H as (device_json & w2 & Hr & H).
  apply read_object_Ok in Hr as (r & line & r' & Hrd & Hline & Hparse & ->).
  apply bind_Ok_inv in H as (body & w3 & Hb & H).
  apply lift_Ok_inv in Hb as [Hb ->].
  apply bind_Ok_inv in H as (listed & w3 & Hl & H).
  apply lift_Ok_inv in Hl as [Hl ->].
  apply bind_Ok_inv in H as (elements & w3 & He & H).
  apply lift_Ok_inv in He as [He ->].
  apply for_each_store in H as (ds & Hm & ->).
  exists r, line, r', device_json, ds.
  repeat split; auto.
  unfold listed_devices. rewrite Hb. cbn [and_then]. rewrite Hl. cbn [and_then].
  now rewrite He.
Qed.

Lemma load_scenes_world w w' :
  _load_scenes w = (Ok tt, w') ->
  exists r line r' scene_json ss,
    _reader (self w) = Some r /\
    readline r = (Ok line, r') /\
    parse_line line = Ok scene_json /\
    listed_scenes scene_json = Ok ss /\
    w' = mkWorld (fold_left (fun b e => store_scene e b) ss
                    (set_streams (Some r') (_writer (self w)) (self w)))
                 (trace w ++ [EvWrite (dumps (read_request (str "/virtualbutton"))
                                       ++ CRLF)])
                 (network w).
Proof.
  unfold _load_scenes. intros H.
  apply bind_Ok_inv in H as ([] & w1 & Hw & H).
  apply write_object_Ok in Hw. subst w1.
  apply bind_Ok_inv in H as (scene_json & w2 & Hr & H).
  apply read_object_Ok in Hr as (r & line & r' & Hrd & Hline & Hparse & ->).
  apply bind_Ok_inv in H as (body & w3 & Hb & H).
  apply lift_Ok_inv in Hb as [Hb ->].
  apply bind_Ok_inv in H as (listed & w3 & Hl & H).
  apply lift_Ok_inv in Hl as [Hl ->].
  apply bind_Ok_inv in H as (elements & w3 & He & H).
  apply lift_Ok_inv in He as [He ->].
  apply for_each_store in H as (ss & Hm & ->).
  exists r, line, r', scene_json, ss.
  repeat split; auto.
  unfold listed_scenes. rewrite Hb. cbn [and_then]. rewrite Hl. cbn [and_then].
  now rewrite He.
Qed.

Lemma with_events_app w evs evs' :
  with_events (with_events w evs) evs' = with_events w (evs ++ evs').
Proof. unfold with_events. cbn [self trace network]. now rewrite List.app_assoc. Qed.

(** The loop of [_login] over the cache: one status request for each
    device that has a zone. *)
Lemma status_loop_Ok : forall l w w',
  for_each l (fun device =>
    match zone device with
    | Some z => _write_object (read_request (str "/zone/" ++ z ++ str "/status"))
    | None => ret tt
    end) w = (Ok tt, w') ->
  w' = with_events w (flat_map status_request_of l).
Proof.
  induction l as [|d l IH]; intros w w'; cbn [for_each flat_map].
  - unfold ret. intros [= <-]. symmetry. apply with_events_nil.
  - intros H. apply bind_Ok_inv in H as ([] & w1 & Hd & H).
    apply IH in H. subst w'.
    assert (E : status_request_of d =
                match zone d with
                | Some z => [EvWrite (dumps (read_request
                               (str "/zone/" ++ z ++ str "/status")) ++ CRLF)]
                | None => []
                end) by reflexivity.
    rewrite E. clear E.
    destruct (zone d) as [z|].
    + apply write_object_Ok in Hd. subst w1. apply with_events_app.
    + unfold ret in Hd. injection Hd as <-. reflexivity.
Qed.

(** The world after the part of [_login] that loads the caches. *)
Lemma load_state_world stream writer w w' :
  load_state (stream, writer) w = (Ok tt, w') ->
  exists after_devices after_scenes line1 line2 device_json scene_json ds ss,
    readline stream = (Ok line1, after_devices) /\
    parse_line line1 = Ok device_json /\
    readline after_devices = (Ok line2, after_scenes) /\
    parse_line line2 = Ok scene_json /\
    listed_devices device_json = Ok ds /\
    listed_scenes scene_json = Ok ss /\
    self w' = set_logged_in true
                (fold_left (fun b e => store_scene e b) ss
                   (fold_left (fun b e => store_device e b) ds
                      (set_streams (Some after_scenes) (Some writer) (self w)))) /\
    trace w' = trace w
               ++ EvWrite (dumps (read_request (str "/device")) ++ CRLF)
               :: EvWrite (dumps (read_request (str "/virtualbutton")) ++ CRLF)
               :: flat_map status_request_of (values (devices (self w'))) /\
    network w' = network w.
Proof.
  unfold load_state. intros H.
  apply bind_Ok_inv in H as ([] & w1 & Hu & H).
  unfold update in Hu. injection Hu as <-. cbn [fst snd] in H.
  apply bind_Ok_inv in H as ([] & w2 & Hd & H).
  apply load_devices_world in Hd
    as (r & line1 & r1 & device_json & ds & Hr & Hline1 & Hp1 & Hl1 & ->).
  cbn [self set_streams _reader _writer trace network] in *. injection Hr as <-.
  apply bind_Ok_inv in H as ([] & w3 & Hsc & H).
  apply load_scenes_world in Hsc
    as (r & line2 & r2 & scene_json & ss & Hr & Hline2 & Hp2 & Hl2 & ->).
  cbn [self trace network] in *.
  match type of Hr with
  | _reader (fold_left _ ds ?b0) = _ =>
      destruct (store_device_frame ds b0) as (Fs & Fr & Fw & Fd)
  end.
  cbv zeta in Fs, Fr, Fw, Fd.
  rewrite Fr in Hr. cbn [_reader] in Hr. injection Hr as <-.
  apply bind_Ok_inv in H as (b' & w4 & Hg & H).
  unfold get_self in Hg. injection Hg as <- <-.
  apply bind_Ok_inv in H as ([] & w5 & Hloop & H).
  unfold update in H. injection H as <-.
  apply status_loop_Ok in Hloop. subst w5.
  cbn [self trace network with_events set_logged_in devices] in *.
  exists r1, r2, line1, line2, device_json, scene_json, ds, ss.
  repeat split; auto.
  - f_equal. rewrite Fw. cbn [_writer].
    match goal with
    | |- fold_left _ ss ?a = fold_left _ ss ?b => assert (E : a = b)
    end.
    { clear. revert r1 r2. generalize (self w).
      induction ds as [|d ds IH]; intros b r1 r2; cbn [fold_left].
      - reflexivity.
      - specialize (IH (store_device d b) r1 r2).
        cbn [store_device set_devices set_streams devices scenes logged_in
             _subscribers _hostname _port _reader _writer] in *.
        exact IH. }
    now rewrite E.
  - rewrite <- !List.app_assoc. reflexivity.
Qed.

(** ** What a statement keeps *)

Lemma preserves_ret {A X} (p : Smartbridge -> X) (a : A) : preserves p (ret a).
Proof. intros w r w'. unfold ret. now intros [= _ <-]. Qed.

Lemma preserves_raise {A X} (p : Smartbridge -> X) (e : exn) :
  preserves p (@raise A e).
Proof. intros w r w'. unfold raise. now intros [= _ <-]. Qed.

Lemma preserves_lift {A X} (p : Smartbridge -> X) (r : result A) :
  preserves p (lift r).
Proof. intros w r0 w'. unfold lift. now intros [= _ <-]. Qed.

Lemma preserves_get_self {X} (p : Smartbridge -> X) : preserves p get_self.
Proof. intros w r w'. unfold get_self. now intros [= _ <-]. Qed.

Lemma preserves_emit {X} (p : Smartbridge -> X) (e : event) :
  preserves p (emit e).
Proof. intros w r w'. unfold emit. now intros [= _ <-]. Qed.

Lemma preserves_update {X} (p : Smartbridge -> X) f :
  (forall b, p (f b) = p b) -> preserves p (update f).
Proof. intros Hf w r w'. unfold update. intros [= _ <-]. apply Hf. Qed.

Lemma preserves_bind {A B X} (p : Smartbridge -> X) (c : M A) (k : A -> M B) :
  preserves p c -> (forall a, preserves p (k a)) -> preserves p (bind c k).
Proof.
  intros Hc Hk w r w'. unfold bind.
  destruct (c w) as [[a|e] w1] eqn:E.
  - intros H. rewrite (Hk a _ _ _ H). exact (Hc _ _ _ E).
  - intros [= _ <-]. exact (Hc _ _ _ E).
Qed.

Lemma preserves_for_each {A X} (p : Smartbridge -> X) (body : A -> M unit) :
  (forall x, preserves p (body x)) -> forall l, preserves p (for_each l body).
Proof.
  intros Hb. induction l as [|x l IH]; cbn [for_each].
  - apply preserves_ret.
  - apply preserves_bind; [apply Hb | intros _; exact IH].
Qed.

Lemma preserves_write_object {X} (p : Smartbridge -> X) obj :
  preserves p (_write_object obj).
Proof.
  intros w r w' H. pose proof (write_object_self obj w) as [Hs _].
  rewrite H in Hs. cbn [snd] in Hs. now rewrite Hs.
Qed.

Section Frames.

Context {X : Type} (p : Smartbridge -> X).

Hypothesis p_streams : forall r wr b, p (set_streams r wr b) = p b.

Lemma preserves_read_object : preserves p _read_object.
Proof.
  unfold _read_object. apply preserves_bind; [apply preserves_get_self|].
  intros b. destruct (_reader b) as [r|]; [|apply preserves_raise].
  destruct (readline r) as [received r'].
  apply preserves_bind; [apply preserves_update; intros; apply p_streams|].
  intros _. apply preserves_bind; [apply preserves_lift|].
  intros line. apply preserves_lift.
Qed.

Hypothesis p_devices : forall d b, p (set_devices d b) = p b.

Lemma preserves_load_devices : preserves p _load_devices.
Proof.
  unfold _load_devices.
  apply preserves_bind; [apply preserves_write_object|]. intros _.
  apply preserves_bind; [apply preserves_read_object|]. intros device_json.
  apply preserves_bind; [apply preserves_lift|]. intros body.
  apply preserves_bind; [apply preserves_lift|]. intros listed.
  apply preserves_bind; [apply preserves_lift|]. intros elements.
  apply preserves_for_each. intros device.
  apply preserves_bind; [apply preserves_lift|]. intros entry.
  apply preserves_update. intros b. apply p_devices.
Qed.

Lemma preserves_handle_response resp : preserves p (_handle_response resp).
Proof.
  unfold _handle_response.
  apply preserves_bind; [apply preserves_lift|]. intros comm_type.
  destruct (eq_str comm_type (str "ReadResponse")); [|apply preserves_ret].
  do 7 (apply preserves_bind; [apply preserves_lift|]; intros ?).
  apply preserves_bind; [apply preserves_get_self|]. intros b.
  apply preserves_for_each. intros id.
  apply preserves_bind; [apply preserves_get_self|]. intros b'.
  destruct (dict_get (devices b') id) as [device|]; [|apply preserves_raise].
  destruct (zone_matches _ device); [|apply preserves_ret].
  apply preserves_bind; [apply preserves_update; intros; apply p_devices|].
  intros _. destruct (dict_get (_subscribers b') id);
    [apply preserves_emit | apply preserves_ret].
Qed.

Hypothesis p_scenes : forall s b, p (set_scenes s b) = p b.

Lemma preserves_load_scenes : preserves p _load_scenes.
Proof.
  unfold _load_scenes.
  apply preserves_bind; [apply preserves_write_object|]. intros _.
  apply preserves_bind; [apply preserves_read_object|]. intros scene_json.
  apply preserves_bind; [apply preserves_lift|]. intros body.
  apply preserves_bind; [apply preserves_lift|]. intros listed.
  apply preserves_bind; [apply preserves_lift|]. intros elements.
  apply preserves_for_each. intros scene.
  apply preserves_bind; [apply preserves_lift|]. intros entry.
  apply preserves_update. intros b. destruct entry; [apply p_scenes|reflexivity].
Qed.

Hypothesis p_logged_in : forall l b, p (set_logged_in l b) = p b.

Lemma preserves_connect_and_load : preserves p connect_and_load.
Proof.
  unfold connect_and_load.
  apply preserves_bind; [apply preserves_update; intros; apply p_logged_in|].
  intros _. apply preserves_bind; [apply preserves_get_self|]. intros b.
  apply preserves_bind.
  { intros w r w'. unfold open_connection.
    destruct (lookup_endpoint _ _ _); now intros [= _ <-]. }
  intros socket.
  apply preserves_bind; [apply preserves_update; intros; apply p_streams|].
  intros _.
  apply preserves_bind; [apply preserves_load_devices|]. intros _.
  apply preserves_bind; [apply preserves_load_scenes|]. intros _.
  apply preserves_bind; [apply preserves_get_self|]. intros b'.
  apply preserves_bind.
  { apply preserves_for_each. intros device.
    destruct (zone device); [apply preserves_write_object | apply preserves_ret]. }
  intros _. apply preserves_update. intros; apply p_logged_in.
Qed.

Lemma preserves_login : preserves p _login.
Proof.
  unfold _login. apply preserves_bind; [apply preserves_get_self|]. intros b.
  destruct (_reader b) as [r|]; [|apply preserves_connect_and_load].
  destruct (_ && _); [apply preserves_ret|].
  apply preserves_bind.
  { destruct (_writer b); [apply preserves_emit | apply preserves_raise]. }
  intros _.
  apply preserves_bind; [apply preserves_update; intros; apply p_streams|].
  intros _. apply preserves_connect_and_load.
Qed.

Lemma preserves_monitor_turn : preserves p _monitor_turn.
Proof.
  assert (H : preserves p (_login ;;
                           received <- _read_object ;;
                           match received with
                           | JNull => ret tt
                           | _ => _handle_response received
                           end)).
  { apply preserves_bind; [apply preserves_login|]. intros _.
    apply preserves_bind; [apply preserves_read_object|]. intros received.
    destruct received; try apply preserves_handle_response.
    apply preserves_ret. }
  intros w r w'. unfold _monitor_turn.
  match goal with
  | |- context [match ?c w with _ => _ end] =>
      specialize (H w); destruct (c w) as [[[]|e] w1] eqn:E
  end.
  - intros [= _ <-]. exact (H _ _ eq_refl).
  - destruct e; intros [= _ <-]; exact (H _ _ eq_refl).
Qed.

End Frames.

Lemma bind_Raise_inv {A B} (c : M A) (k : A -> M B) w e w' :
  bind c k w = (Raise e, w') ->
  c w = (Raise e, w') \/ exists a w1, c w = (Ok a, w1) /\ k a w1 = (Raise e, w').
Proof.
  unfold bind. destruct (c w) as [[a|e0] w1].
  - intros H. right. now exists a, w1.
  - intros [= <- <-]. now left.
Qed.

(** A load that fails leaves [logged_in] as the connection attempt has set
    it. *)
Lemma load_state_Raise socket w e w' :
  load_state socket w = (Raise e, w') ->
  logged_in (self w') = logged_in (self w).
Proof.
  unfold load_state. intros H.
  apply bind_Raise_inv in H as [H|([] & w1 & H1 & H)];
    [unfold update in H; discriminate|].
  assert (P1 : logged_in (self w1) = logged_in (self w)).
  { unfold update in H1. injection H1 as <-. reflexivity. }
  rewrite <- P1. clear P1 H1 w.
  apply bind_Raise_inv in H as [H|([] & w2 & H2 & H)].
  { exact (preserves_load_devices logged_in (fun _ _ _ => eq_refl)
             (fun _ _ => eq_refl) _ _ _ H). }
  rewrite <- (preserves_load_devices logged_in (fun _ _ _ => eq_refl)
                (fun _ _ => eq_refl) _ _ _ H2).
  clear H2 w1.
  apply bind_Raise_inv in H as [H|([] & w3 & H3 & H)].
  { exact (preserves_load_scenes logged_in (fun _ _ _ => eq_refl)
             (fun _ _ => eq_refl) _ _ _ H). }
  rewrite <- (preserves_load_scenes logged_in (fun _ _ _ => eq_refl)
                (fun _ _ => eq_refl) _ _ _ H3).
  clear H3 w2.
  apply bind_Raise_inv in H as [H|(b' & w4 & H4 & H)];
    [unfold get_self in H; discriminate|].
  unfold get_self in H4. injection H4 as <- <-.
  apply bind_Raise_inv in H as [H|([] & w5 & H5 & H)];
    [|unfold update in H; discriminate].
  revert H. apply preserves_for_each. intros device.
  destruct (zone device); [apply preserves_write_object | apply preserves_ret].
Qed.

(** [logged_in] after a login that had to connect. *)
Lemma login_logged_in (w : World) (r : result unit) (w' : World) :
  must_connect (self w) ->
  _login w = (r, w') ->
  logged_in (self w') = match r with Ok _ => true | Raise _ => false end.
Proof.
  intros Hmust. rewrite (login_eq _ Hmust).
  destruct (lookup_endpoint _ _ _) as [stream|].
  - destruct r as [[]|e]; intros H.
    + apply load_state_world in H
        as (r1 & r2 & l1 & l2 & dj & sj & ds & ss & _ & _ & _ & _ & _ & _ & Hs & _).
      rewrite Hs. reflexivity.
    + apply load_state_Raise in H. rewrite H. reflexivity.
  - intros [= <- <-]. reflexivity.
Qed.

(** X13. [is_connected] after a login that had to connect tells how the login
    ended: True when it returned, False when it raised, whether the hub did
    not answer or one of the loads failed. *)
Theorem login_outcome_is_connected (w : World) (r : result unit) (w' : World) :
  must_connect (self w) ->
  _login w = (r, w') ->
  is_connected (self w') = match r with Ok _ => true | Raise _ => false end.
Proof. unfold is_connected. apply login_logged_in. Qed.

Lemma login_outcome_is_connected_witness :
  is_connected (self (snd (_login stale_world))) = true.
Proof.
  apply (@login_outcome_is_connected stale_world (Ok tt) (snd (_login stale_world))).
  - split; [right; reflexivity | discriminate].
  - vm_compute. reflexivity.
Defined.

(** X14. What a login that connects and succeeds does on the network, in
    order: it closes the old connection if there was one, opens one
    connection, to the host name and LEAP_PORT, writes the request for the
    devices and the request for the virtual buttons, and then one status
    request for each device of the cache that has a zone, in the order of
    the cache, and nothing else. *)
Theorem login_trace (w w' : World) :
  must_connect (self w) ->
  _login w = (Ok tt, w') ->
  trace w' =
  trace w
  ++ match _reader (self w) with Some _ => [EvClose] | None => [] end
  ++ EvConnect (_hostname (self w)) LEAP_PORT
  :: EvWrite (dumps (read_request (str "/device")) ++ CRLF)
  :: EvWrite (dumps (read_request (str "/virtualbutton")) ++ CRLF)
  :: flat_map status_request_of (values (devices (self w'))).
Proof.
  intros Hmust. rewrite (login_eq _ Hmust).
  destruct (lookup_endpoint _ _ _) as [stream|]; [|discriminate].
  intros H.
  apply load_state_world in H
    as (r1 & r2 & l1 & l2 & dj & sj & ds & ss & _ & _ & _ & _ & _ & _ & _ & Ht & _).
  rewrite Ht. unfold connecting, dropped. cbn [trace].
  destruct (_reader (self w)); cbn [trace self set_streams _hostname];
    rewrite <- ?List.app_assoc; reflexivity.
Qed.

Lemma login_trace_witness :
  trace (snd (_login stale_world)) =
  trace stale_world
  ++ match _reader (self stale_world) with Some _ => [EvClose] | None => [] end
  ++ EvConnect (_hostname (self stale_world)) LEAP_PORT
  :: EvWrite (dumps (read_request (str "/device")) ++ CRLF)
  :: EvWrite (dumps (read_request (str "/virtualbutton")) ++ CRLF)
  :: flat_map status_request_of
       (values (devices (self (snd (_login stale_world))))).
Proof.
  apply (@login_trace stale_world (snd (_login stale_world))).
  - split; [right; reflexivity | discriminate].
  - vm_compute. reflexivity.
Defined.

Lemma map_result_In {A B} (f : A -> result B) : forall l ys y,
  map_result f l = Ok ys -> In y ys -> exists x, In x l /\ f x = Ok y.
Proof.
  induction l as [|x l IH]; intros ys y; cbn [map_result].
  - intros [= <-] [].
  - destruct (f x) as [y0|e] eqn:E; cbn [and_then]; [|discriminate].
    destruct (map_result f l) as [ys0|e]; cbn [and_then]; [|discriminate].
    intros [= <-] [<-|Hin].
    + exists x. split; [now left | exact E].
    + destruct (IH ys0 y eq_refl Hin) as (x' & Hx & Hf).
      exists x'. split; [now right | exact Hf].
Qed.

Lemma last_device_In id : forall ds d,
  last_device id ds = Some d -> In d ds /\ device_id d = id.
Proof.
  induction ds as [|d0 ds IH]; intros d; cbn [last_device]; [discriminate|].
  destruct (last_device id ds) as [d'|].
  - intros [= <-]. destruct (IH d' eq_refl). split; [now right | assumption].
  - destruct (pystr_eqb (device_id d0) id) eqn:E; [|discriminate].
    intros [= <-]. split; [now left | now apply pystr_eqb_eq].
Qed.

Lemma last_scene_In id : forall ss s,
  last_scene id ss = Some s -> In (Some s) ss /\ scene_id s = id.
Proof.
  induction ss as [|e ss IH]; intros s; cbn [last_scene]; [discriminate|].
  destruct (last_scene id ss) as [s'|].
  - intros [= <-]. destruct (IH s' eq_refl). split; [now right | assumption].
  - destruct e as [s0|]; [|discriminate].
    destruct (pystr_eqb (scene_id s0) id) eqn:E; [|discriminate].
    intros [= <-]. split; [now left | now apply pystr_eqb_eq].
Qed.

(** X15. After a login that connects and succeeds, every device that the hub
    has listed is in the cache with the entry made of its listing, whose
    level is the initial -1: [is_on] says False for it, whatever level the
    cache held before the login. *)
Theorem login_resets_listed_devices (w w' : World) :
  must_connect (self w) ->
  _login w = (Ok tt, w') ->
  exists stream line rest device_json ds,
    lookup_endpoint (network w) (_hostname (self w)) LEAP_PORT = Some stream /\
    readline stream = (Ok line, rest) /\
    parse_line line = Ok device_json /\
    listed_devices device_json = Ok ds /\
    forall id d, last_device id ds = Some d ->
                 get_device_by_id (self w') id = Ok d /\
                 is_on (self w') id = Ok false.
Proof.
  intros Hmust. rewrite (login_eq _ Hmust).
  destruct (lookup_endpoint _ _ _) as [stream|]; [|discriminate].
  intros H.
  apply load_state_Ok in H
    as (r1 & r2 & l1 & l2 & dj & sj & ds & ss & A & B & _ & _ & E & _ & G & _).
  exists stream, l1, r1, dj, ds. repeat split; auto;
    specialize (G id); rewrite H in G.
  - unfold get_device_by_id. now rewrite G.
  - unfold is_on. rewrite G.
    apply last_device_In in H as [Hin _].
    unfold listed_devices, and_then in E.
    destruct (getitem dj _) as [body|]; [|discriminate].
    destruct (getitem body _) as [listed|]; [|discriminate].
    destruct (iterate listed) as [elements|]; [|discriminate].
    destruct (map_result_In _ _ _ _ E Hin) as (x & _ & Hx).
    apply device_of_current_state in Hx. now rewrite Hx.
Qed.

Lemma login_resets_listed_devices_witness :
  exists stream line rest device_json ds,
    lookup_endpoint (network stale_world) (_hostname (self stale_world)) LEAP_PORT
    = Some stream /\
    readline stream = (Ok line, rest) /\
    parse_line line = Ok device_json /\
    listed_devices device_json = Ok ds /\
    forall id d, last_device id ds = Some d ->
                 get_device_by_id (self (snd (_login stale_world))) id = Ok d /\
                 is_on (self (snd (_login stale_world))) id = Ok false.
Proof.
  apply (@login_resets_listed_devices stale_world (snd (_login stale_world))).
  - split; [right; reflexivity | discriminate].
  - vm_compute. reflexivity.
Defined.

(** Storing entries changes the caches only. *)
Lemma stores_keep {X} (p : Smartbridge -> X) :
  (forall d b, p (set_devices d b) = p b) ->
  (forall s b, p (set_scenes s b) = p b) ->
  forall ss ds b,
    p (fold_left (fun b e => store_scene e b) ss
         (fold_left (fun b e => store_device e b) ds b)) = p b.
Proof.
  intros Pd Ps ss ds b.
  transitivity (p (fold_left (fun b e => store_device e b) ds b)).
  - generalize (fold_left (fun b e => store_device e b) ds b).
    induction ss as [|e l IH]; intros b0; cbn [fold_left]; [reflexivity|].
    rewrite IH. destruct e; [apply Ps | reflexivity].
  - revert b. induction ds as [|e l IH]; intros b0; cbn [fold_left];
      [reflexivity|]. rewrite IH. apply Pd.
Qed.

(** X16. A bridge object that has been built holds in its caches the devices
    and the programmed scenes of the two answers of the hub, and nothing
    else; it has no subscriber and is connected. *)
Theorem init_loads_exactly_listed (hostname : pystr) (port : option Z)
    (net : list (pystr * Z * StreamReader)) (w' : World) :
  __init__ hostname port net = (Ok tt, w') ->
  exists stream after_devices after_scenes line1 line2 device_json scene_json
         ds ss,
    lookup_endpoint net hostname LEAP_PORT = Some stream /\
    readline stream = (Ok line1, after_devices) /\
    parse_line line1 = Ok device_json /\
    readline after_devices = (Ok line2, after_scenes) /\
    parse_line line2 = Ok scene_json /\
    listed_devices device_json = Ok ds /\
    listed_scenes scene_json = Ok ss /\
    (forall id, dict_get (get_devices (self w')) id = last_device id ds) /\
    (forall id, dict_get (get_scenes (self w')) id = last_scene id ss) /\
    _subscribers (self w') = [] /\
    is_connected (self w') = true.
Proof.
  unfold __init__. rewrite login_eq by exact I.
  cbn [self network _hostname].
  destruct (lookup_endpoint net hostname LEAP_PORT) as [stream|]; [|discriminate].
  intros H. pose proof H as H'.
  apply load_state_Ok in H
    as (r1 & r2 & l1 & l2 & dj & sj & ds & ss & A & B & C & D & E & F & G & K).
  apply load_state_world in H'
    as (r1' & r2' & l1' & l2' & dj' & sj' & ds' & ss' & _ & _ & _ & _ & _ & _
        & Hs & _).
  exists stream, r1, r2, l1, l2, dj, sj, ds, ss.
  repeat split; auto.
  - intros id. unfold get_devices. rewrite G. now destruct (last_device id ds).
  - intros id. unfold get_scenes. rewrite K. now destruct (last_scene id ss).
  - rewrite Hs.
    cbn [set_logged_in _subscribers].
    now rewrite (stores_keep _subscribers (fun _ _ => eq_refl) (fun _ _ => eq_refl)).
  - rewrite Hs. reflexivity.
Qed.

Lemma init_loads_exactly_listed_witness :
  exists stream after_devices after_scenes line1 line2 device_json scene_json
         ds ss,
    lookup_endpoint (network stale_world) (str "hub") LEAP_PORT = Some stream /\
    readline stream = (Ok line1, after_devices) /\
    parse_line line1 = Ok device_json /\
    readline after_devices = (Ok line2, after_scenes) /\
    parse_line line2 = Ok scene_json /\
    listed_devices device_json = Ok ds /\
    listed_scenes scene_json = Ok ss /\
    (forall id, dict_get (get_devices
        (self (snd (__init__ (str "hub") None (network stale_world))))) id
                = last_device id ds) /\
    (forall id, dict_get (get_scenes
        (self (snd (__init__ (str "hub") None (network stale_world))))) id
                = last_scene id ss) /\
    _subscribers (self (snd (__init__ (str "hub") None (network stale_world)))) = [] /\
    is_connected (self (snd (__init__ (str "hub") None (network stale_world))))
    = true.
Proof.
  apply (@init_loads_exactly_listed (str "hub") None (network stale_world)
           (snd (__init__ (str "hub") None (network stale_world)))).
  vm_compute. reflexivity.
Defined.

(** X17. Where an entry of the device cache comes from: an element of the list
    Body.Devices of the answer.  Its id is the last segment of the href of
    the element, its name and type are the Name and DeviceType, its level is
    -1, and its zone is the last segment of the href of the first of the
    LocalZones, or None when the element has no such key. *)
Theorem cached_device_comes_from_listing (device_json : json)
    (ds : list Device) (id : pystr) (d : Device) :
  listed_devices device_json = Ok ds ->
  last_device id ds = Some d ->
  exists body listed elements element href,
    getitem device_json (str "Body") = Ok body /\
    getitem body (str "Devices") = Ok listed /\
    iterate listed = Ok elements /\
    In element elements /\
    getitem element (str "href") = Ok (JStr href) /\
    id = last_segment href /\
    device_id d = id /\
    getitem element (str "Name") = Ok (name d) /\
    getitem element (str "DeviceType") = Ok (type d) /\
    current_state d = JInt (-1) /\
    match zone d with
    | None => contains element (str "LocalZones") = Ok false
    | Some z =>
        exists zones first zone_href,
          getitem element (str "LocalZones") = Ok zones /\
          getitem0 zones = Ok first /\
          getitem first (str "href") = Ok (JStr zone_href) /\
          z = last_segment zone_href
    end.
Proof.
  intros Hl Hlast. apply last_device_In in Hlast as [Hin Hid].
  unfold listed_devices in Hl.
  destruct (getitem device_json (str "Body")) as [body|] eqn:Hb;
    cbn [and_then] in Hl; [|discriminate].
  destruct (getitem body (str "Devices")) as [listed|] eqn:Hd;
    cbn [and_then] in Hl; [|discriminate].
  destruct (iterate listed) as [elements|] eqn:Hi;
    cbn [and_then] in Hl; [|discriminate].
  destruct (map_result_In _ _ _ _ Hl Hin) as (element & Hel & Hof).
  unfold device_of in Hof.
  destruct (getitem element (str "href")) as [href|] eqn:Hh;
    cbn [and_then] in Hof; [|discriminate].
  destruct (href_id href) as [i|] eqn:Hi';
    cbn [and_then] in Hof; [|discriminate].
  destruct href as [| | |href| |]; try discriminate Hi'.
  cbn [href_id] in Hi'. injection Hi' as <-.
  destruct (contains element (str "LocalZones")) as [has|] eqn:Hc;
    cbn [and_then] in Hof; [|discriminate].
  exists body, listed, elements, element, href.
  destruct has.
  - destruct (getitem element (str "LocalZones")) as [zones|] eqn:Hz;
      cbn [and_then] in Hof; [|discriminate].
    destruct (getitem0 zones) as [first|] eqn:Hf;
      cbn [and_then] in Hof; [|discriminate].
    destruct (getitem first (str "href")) as [zh|] eqn:Hzh;
      cbn [and_then] in Hof; [|discriminate].
    destruct (href_id zh) as [z|] eqn:Hz';
      cbn [and_then] in Hof; [|discriminate].
    destruct zh as [| | |zh| |]; try discriminate Hz'.
    cbn [href_id] in Hz'. injection Hz' as <-.
    destruct (getitem element (str "Name")) as [n|] eqn:Hn;
      cbn [and_then] in Hof; [|discriminate].
    destruct (getitem element (str "DeviceType")) as [t|] eqn:Ht;
      cbn [and_then] in Hof; [|discriminate].
    injection Hof as <-. cbn [device_id name type zone current_state] in *.
    repeat split; auto. now exists zones, first, zh.
  - destruct (getitem element (str "Name")) as [n|] eqn:Hn;
      cbn [and_then] in Hof; [|discriminate].
    destruct (getitem element (str "DeviceType")) as [t|] eqn:Ht;
      cbn [and_then] in Hof; [|discriminate].
    injection Hof as <-. cbn [device_id name type zone current_state] in *.
    repeat split; auto.
Qed.

Lemma cached_device_comes_from_listing_witness :
  exists body listed elements element href,
    getitem hub_devices (str "Body") = Ok body /\
    getitem body (str "Devices") = Ok listed /\
    iterate listed = Ok elements /\
    In element elements /\
    getitem element (str "href") = Ok (JStr href) /\
    str "5" = last_segment href /\
    device_id fresh_lamp = str "5" /\
    getitem element (str "Name") = Ok (name fresh_lamp) /\
    getitem element (str "DeviceType") = Ok (type fresh_lamp) /\
    current_state fresh_lamp = JInt (-1) /\
    match zone fresh_lamp with
    | None => contains element (str "LocalZones") = Ok false
    | Some z =>
        exists zones first zone_href,
          getitem element (str "LocalZones") = Ok zones /\
          getitem0 zones = Ok first /\
          getitem first (str "href") = Ok (JStr zone_href) /\
          z = last_segment zone_href
    end.
Proof.
  apply (@cached_device_comes_from_listing hub_devices [fresh_lamp] (str "5")
           fresh_lamp); vm_compute; reflexivity.
Defined.

(** X18. Where an entry of the scene cache comes from: an element of the list
    Body.VirtualButtons of the answer whose IsProgrammed is true.  Its id is
    the last segment of the href of the element and its name is the Name.
    A virtual button that is not programmed makes no entry. *)
Theorem cached_scene_comes_from_listing (scene_json : json)
    (ss : list (option Scene)) (id : pystr) (s : Scene) :
  listed_scenes scene_json = Ok ss ->
  last_scene id ss = Some s ->
  exists body listed elements element programmed href,
    getitem scene_json (str "Body") = Ok body /\
    getitem body (str "VirtualButtons") = Ok listed /\
    iterate listed = Ok elements /\
    In element elements /\
    getitem element (str "IsProgrammed") = Ok programmed /\
    truthy programmed = true /\
    getitem element (str "href") = Ok (JStr href) /\
    id = last_segment href /\
    scene_id s = id /\
    getitem element (str "Name") = Ok (scene_name s).
Proof.
  intros Hl Hlast. apply last_scene_In in Hlast as [Hin Hid].
  unfold listed_scenes in Hl.
  destruct (getitem scene_json (str "Body")) as [body|] eqn:Hb;
    cbn [and_then] in Hl; [|discriminate].
  destruct (getitem body (str "VirtualButtons")) as [listed|] eqn:Hd;
    cbn [and_then] in Hl; [|discriminate].
  destruct (iterate listed) as [elements|] eqn:Hi;
    cbn [and_then] in Hl; [|discriminate].
  destruct (map_result_In _ _ _ _ Hl Hin) as (element & Hel & Hof).
  unfold scene_of in Hof.
  destruct (getitem element (str "IsProgrammed")) as [programmed|] eqn:Hp;
    cbn [and_then] in Hof; [|discriminate].
  destruct (truthy programmed) eqn:Ht; [|discriminate].
  destruct (getitem element (str "href")) as [href|] eqn:Hh;
    cbn [and_then] in Hof; [|discriminate].
  destruct (href_id href) as [i|] eqn:Hi';
    cbn [and_then] in Hof; [|discriminate].
  destruct href as [| | |href| |]; try discriminate Hi'.
  cbn [href_id] in Hi'. injection Hi' as <-.
  destruct (getitem element (str "Name")) as [n|] eqn:Hn;
    cbn [and_then] in Hof; [|discriminate].
  injection Hof as <-. cbn [scene_id scene_name] in *.
  exists body, listed, elements, element, programmed, href.
  repeat split; auto.
Qed.

Lemma cached_scene_comes_from_listing_witness :
  exists body listed elements element programmed href,
    getitem hub_buttons (str "Body") = Ok body /\
    getitem body (str "VirtualButtons") = Ok listed /\
    iterate listed = Ok elements /\
    In element elements /\
    getitem element (str "IsProgrammed") = Ok programmed /\
    truthy programmed = true /\
    getitem element (str "href") = Ok (JStr href) /\
    str "1" = last_segment href /\
    scene_id (mkScene (str "1") (JStr (str "Night"))) = str "1" /\
    getitem element (str "Name")
    = Ok (scene_name (mkScene (str "1") (JStr (str "Night")))).
Proof.
  apply (@cached_scene_comes_from_listing hub_buttons
           [Some (mkScene (str "1") (JStr (str "Night"))); None] (str "1")
           (mkScene (str "1") (JStr (str "Night")))); vm_compute; reflexivity.
Defined.

Lemma write_object_run obj w wr :
  _writer (self w) = Some wr ->
  (forall r, _reader (self w) = Some r -> exception r = None) ->
  _write_object obj w = (Ok tt, with_events w [EvWrite (dumps obj ++ CRLF)]).
Proof.
  intros Hw Hr. destruct (@write_object_world obj w wr Hw) as [Hs Hf].
  destruct (_write_object obj w) as [res w1]. cbn [fst snd] in *. subst w1.
  destruct Hf as [->|(r & e & Hrd & He & _)]; [reflexivity|].
  rewrite (Hr r Hrd) in He. discriminate.
Qed.

Lemma for_each_store_stops {A E} (f : A -> result E)
    (g : E -> Smartbridge -> Smartbridge) (bad : A) (rest : list A) (e : exn) :
  f bad = Raise e ->
  forall good entries w,
    map_result f good = Ok entries ->
    for_each (good ++ bad :: rest)
             (fun x => entry <- lift (f x) ;; update (g entry)) w
    = (Raise e, mkWorld (fold_left (fun b e => g e b) entries (self w))
                        (trace w) (network w)).
Proof.
  intros Hbad. induction good as [|x good IH]; intros entries w;
    cbn [map_result List.app for_each].
  - intros [= <-]. unfold bind at 1. unfold bind at 1, lift at 1. rewrite Hbad.
    destruct w; reflexivity.
  - destruct (f x) as [y|] eqn:Hx; cbn [and_then]; [|discriminate].
    destruct (map_result f good) as [ys|]; cbn [and_then]; [|discriminate].
    intros [= <-]. unfold bind at 1. unfold bind at 1, lift at 1. rewrite ?Hx.
    unfold update at 1. cbv beta iota. rewrite (IH ys _ eq_refl).
    reflexivity.
Qed.

(** X19. The load of the devices is not atomic.  When an element of the list
    of the hub cannot be made an entry, the load raises the error of that
    element, and the devices listed before it are in the cache already; the
    elements after it are not looked at. *)
Theorem load_devices_stops_at_bad_element (w : World) (r r' : StreamReader)
    (wr : StreamWriter) (line : bytes) (device_json body listed : json)
    (good : list json) (bad : json) (rest : list json) (ds : list Device)
    (e : exn) :
  _writer (self w) = Some wr ->
  _reader (self w) = Some r ->
  exception r = None ->
  readline r = (Ok line, r') ->
  parse_line line = Ok device_json ->
  getitem device_json (str "Body") = Ok body ->
  getitem body (str "Devices") = Ok listed ->
  iterate listed = Ok (good ++ bad :: rest) ->
  map_result device_of good = Ok ds ->
  device_of bad = Raise e ->
  _load_devices w =
  (Raise e,
   mkWorld (fold_left (fun b entry => store_device entry b) ds
              (set_streams (Some r') (Some wr) (self w)))
           (trace w ++ [EvWrite (dumps (read_request (str "/device")) ++ CRLF)])
           (network w)).
Proof.
  intros Hw Hr He Hline Hparse Hb Hl Hi Hgood Hbad.
  unfold _load_devices. unfold bind at 1.
  rewrite (@write_object_run _ w wr Hw)
    by (intros r0 Hr0; rewrite Hr in Hr0; now injection Hr0 as <-).
  unfold bind at 1.
  rewrite (@read_object_line (with_events w _) r line r' Hr Hline), Hparse.
  unfold bind at 1, lift at 1. rewrite Hb.
  unfold bind at 1, lift at 1. rewrite Hl.
  unfold bind at 1, lift at 1. rewrite Hi.
  rewrite (for_each_store_stops device_of store_device bad rest e Hbad good ds _ Hgood).
  unfold after_read, with_events. cbn [self trace network]. now rewrite Hw.
Qed.

Lemma load_devices_stops_at_bad_element_witness :
  _load_devices broken_world =
  (Raise IndexError,
   mkWorld (fold_left (fun b entry => store_device entry b) [fresh_lamp]
              (set_streams
                 (Some (mkReader no_buttons_line false None))
                 (Some hub_writer) (self broken_world)))
           (trace broken_world
            ++ [EvWrite (dumps (read_request (str "/device")) ++ CRLF)])
           (network broken_world)).
Proof.
  refine (@load_devices_stops_at_bad_element broken_world broken_stream
            (mkReader no_buttons_line false None)
            hub_writer
            broken_line
            (JObj [(str "Body",
                    JObj [(str "Devices", JArr [lamp_element; fan_element])])])
            (JObj [(str "Devices", JArr [lamp_element; fan_element])])
            (JArr [lamp_element; fan_element])
            [lamp_element] fan_element [] [fresh_lamp] IndexError
            _ _ _ _ _ _ _ _ _ _); vm_compute; reflexivity.
Defined.

(** X20. A login whose load fails is not tried again while the connection
    lives.  The failed login leaves the new connection in the bridge object;
    the next login finds it alive, returns at once and loads nothing, and
    [is_connected] stays False. *)
Theorem login_failure_is_not_retried (w : World) (e : exn) (w1 : World)
    (r1 : StreamReader) :
  must_connect (self w) ->
  _login w = (Raise e, w1) ->
  _reader (self w1) = Some r1 ->
  exception r1 = None ->
  at_eof r1 = false ->
  _login w1 = (Ok tt, w1) /\ is_connected (self w1) = false.
Proof.
  intros Hmust Hlogin Hr He Heof. split.
  - exact (login_live _ _ Hr He Heof).
  - exact (login_logged_in _ _ _ Hmust Hlogin).
Qed.

Lemma login_failure_is_not_retried_witness :
  _login (snd (_login unloaded_world)) = (Ok tt, snd (_login unloaded_world)) /\
  is_connected (self (snd (_login unloaded_world))) = false.
Proof.
  refine (@login_failure_is_not_retried unloaded_world IndexError
            (snd (_login unloaded_world))
            (mkReader no_buttons_line false None) _ _ _ _ _).
  - exact I.
  - vm_compute. reflexivity.
  - vm_compute. reflexivity.
  - reflexivity.
  - reflexivity.
Defined.

(** X21. When the connection is lost and the hub does not accept a new one, the
    loop of the monitor ends: the error of the connection attempt is not one
    of the two that the loop catches.  The bridge object is left without
    streams and not logged in. *)
Theorem unreachable_hub_ends_monitor (w : World) (r : StreamReader)
    (wr : StreamWriter) (turns : nat) :
  _reader (self w) = Some r ->
  exception r <> None \/ at_eof r = true ->
  _writer (self w) = Some wr ->
  lookup_endpoint (network w) (_hostname (self w)) LEAP_PORT = None ->
  _monitor (S turns) w =
  (Raise OSError,
   mkWorld (set_logged_in false (set_streams None None (self w)))
           (trace w ++ [EvClose; EvConnect (_hostname (self w)) LEAP_PORT])
           (network w)).
Proof.
  intros Hr Hdead Hw Hnet.
  assert (Hmust : must_connect (self w)).
  { unfold must_connect. rewrite Hr, Hw. split; [exact Hdead | discriminate]. }
  cbn [_monitor]. unfold bind at 1, _monitor_turn. unfold bind at 1.
  rewrite (login_eq _ Hmust), Hnet.
  unfold connecting, dropped. rewrite Hr.
  cbn [self trace network set_streams _hostname].
  now rewrite <- List.app_assoc.
Qed.

Lemma unreachable_hub_ends_monitor_witness :
  _monitor 3 offline_world =
  (Raise OSError,
   mkWorld (set_logged_in false (set_streams None None (self offline_world)))
           (trace offline_world
            ++ [EvClose; EvConnect (_hostname (self offline_world)) LEAP_PORT])
           (network offline_world)).
Proof.
  refine (@unreachable_hub_ends_monitor offline_world (mkReader [] true None)
            hub_writer 2 _ _ _ _).
  - reflexivity.
  - right. reflexivity.
  - reflexivity.
  - reflexivity.
Defined.

(** X22. A command that runs while the bridge object has no writer, as it has
    none while a login is opening a new connection, raises AttributeError,
    at the write, and changes nothing: the level of a device with a zone
    cannot be set or asked for, and a cached scene cannot be activated. *)
Theorem commands_need_a_connection (w : World) :
  _writer (self w) = None ->
  (forall id d c z value,
     dict_get (devices (self w)) id = Some d ->
     zone d = Some (c :: z) ->
     set_value id value w = (Raise AttributeError, w) /\
     get_value id w = (Raise AttributeError, w)) /\
  (forall id, dict_in id (scenes (self w)) = true ->
              activate_scene id w = (Raise AttributeError, w)).
Proof.
  intros Hw.
  assert (Hwrite : forall obj, _write_object obj w = (Raise AttributeError, w)).
  { intros obj. unfold _write_object, bind, lift, get_self, raise.
    rewrite wire_form_dumps. cbv beta iota zeta. now rewrite Hw. }
  split.
  - intros id d c z value Hd Hz. split.
    + unfold set_value. unfold bind at 1, get_self at 1.
      unfold bind at 1, lift at 1, _get_zone_id. rewrite Hd, Hz.
      unfold _send_command, _send_command_from_loop, bind at 1.
      now rewrite Hwrite.
    + unfold get_value. unfold bind at 1, get_self at 1.
      unfold bind at 1, lift at 1, _get_zone_id. rewrite Hd, Hz.
      unfold _send_command, _send_command_from_loop, bind at 1.
      now rewrite Hwrite.
  - intros id Hin. unfold activate_scene. unfold bind at 1, get_self at 1.
    rewrite Hin. unfold _send_command, _send_command_from_loop, bind at 1.
    now rewrite Hwrite.
Qed.

(** The bridge of [stale_world] at the point where its login waits for the
    new connection: the lamp and the scene are cached and nothing can be
    written. *)
Lemma commands_need_a_connection_witness :
  set_value (str "5") 40 (connecting (dropped stale_world))
  = (Raise AttributeError, connecting (dropped stale_world)) /\
  get_value (str "5") (connecting (dropped stale_world))
  = (Raise AttributeError, connecting (dropped stale_world)) /\
  activate_scene (str "7") (connecting (dropped stale_world))
  = (Raise AttributeError, connecting (dropped stale_world)).
Proof.
  destruct (@commands_need_a_connection (connecting (dropped stale_world))
              eq_refl) as [Hdev Hscene].
  destruct (Hdev (str "5") lamp 51 [] 40%Z eq_refl eq_refl) as [Hset Hget].
  split; [exact Hset|]. split; [exact Hget|].
  exact (Hscene (str "7") eq_refl).
Defined.

Lemma preserves_monitor {X} (p : Smartbridge -> X) :
  (forall r wr b, p (set_streams r wr b) = p b) ->
  (forall d b, p (set_devices d b) = p b) ->
  (forall s b, p (set_scenes s b) = p b) ->
  (forall l b, p (set_logged_in l b) = p b) ->
  forall turns, preserves p (_monitor turns).
Proof.
  intros P1 P2 P3 P4. induction turns as [|n IH]; cbn [_monitor].
  - apply preserves_ret.
  - apply preserves_bind; [now apply preserves_monitor_turn | intros _; exact IH].
Qed.

(** X23. A subscription lasts: once a callback is registered for a device, it
    is the callback of that device after any number of turns of the
    monitor, through the pushes it handles, the lines it drops, and the
    logins that reconnect and load the caches again. *)
Theorem subscription_survives_monitor (id : pystr) (callback_ : callback)
    (turns : nat) (w : World) (r : result unit) (w' : World) :
  (add_subscriber id callback_ ;; _monitor turns) w = (r, w') ->
  dict_get (_subscribers (self w')) id = Some callback_.
Proof.
  unfold bind at 1, add_subscriber, update at 1. intros H.
  rewrite (preserves_monitor _subscribers (fun _ _ _ => eq_refl)
             (fun _ _ => eq_refl) (fun _ _ => eq_refl) (fun _ _ => eq_refl)
             turns _ _ _ H).
  cbn [self set_subscribers _subscribers]. apply dict_get_set_same.
Qed.

Lemma subscription_survives_monitor_witness :
  dict_get (_subscribers
              (self (snd ((add_subscriber (str "9") 2%nat ;; _monitor 2)
                            stale_world))))
           (str "9") = Some 2%nat.
Proof.
  apply (@subscription_survives_monitor (str "9") 2%nat 2%nat stale_world
           (fst ((add_subscriber (str "9") 2%nat ;; _monitor 2) stale_world))
           (snd ((add_subscriber (str "9") 2%nat ;; _monitor 2) stale_world))).
  vm_compute. reflexivity.
Defined.

(** X24. [set_value] of a cached device with a zone, on a connection in good
    order, writes one line, the CreateRequest of the GoToLevel command for
    the zone with the value as it was given, and returns None; the value is
    not checked against the range from 0 to 100. *)
Theorem set_value_sends_level (w : World) (id : pystr) (d : Device)
    (c : N) (z : pystr) (wr : StreamWriter) (value : Z) :
  dict_get (devices (self w)) id = Some d ->
  zone d = Some (c :: z) ->
  _writer (self w) = Some wr ->
  (forall r, _reader (self w) = Some r -> exception r = None) ->
  set_value id value w =
  (Ok JNull,
   with_events w
     [EvWrite (dumps (request_json
                        (mkRequest (str "CreateRequest")
                           (str "/zone/" ++ (c :: z) ++ str "/commandprocessor")
                           (Some (go_to_level value))))
               ++ CRLF)]).
Proof.
  intros Hd Hz Hw Hr. unfold set_value.
  unfold bind at 1, get_self at 1.
  unfold bind at 1, lift at 1, _get_zone_id. rewrite Hd, Hz.
  unfold _send_command, _send_command_from_loop, bind at 1.
  match goal with
  | |- context [_write_object ?cmd w] =>
      rewrite (@write_object_run cmd w wr Hw Hr)
  end.
  reflexivity.
Qed.

Lemma set_value_sends_level_witness :
  set_value (str "5") 250 home_world =
  (Ok JNull,
   with_events home_world
     [EvWrite (dumps (request_json
                        (mkRequest (str "CreateRequest")
                           (str "/zone/" ++ str "3" ++ str "/commandprocessor")
                           (Some (go_to_level 250))))
               ++ CRLF)]).
Proof.
  refine (@set_value_sends_level home_world (str "5") lamp 51 [] hub_writer 250
            _ _ _ _).
  - reflexivity.
  - reflexivity.
  - reflexivity.
  - intros r [= <-]. reflexivity.
Defined.

(** X25. [activate_scene] of a cached scene, on a connection in good order,
    writes one line, the CreateRequest of the PressAndRelease command for
    the virtual button, and returns None. *)
Theorem activate_scene_sends_press (w : World) (id : pystr)
    (wr : StreamWriter) :
  dict_in id (scenes (self w)) = true ->
  _writer (self w) = Some wr ->
  (forall r, _reader (self w) = Some r -> exception r = None) ->
  activate_scene id w =
  (Ok JNull,
   with_events w
     [EvWrite (dumps (request_json
                        (mkRequest (str "CreateRequest")
                           (str "/virtualbutton/" ++ id ++ str "/commandprocessor")
                           (Some press_and_release)))
               ++ CRLF)]).
Proof.
  intros Hin Hw Hr. unfold activate_scene.
  unfold bind at 1, get_self at 1. rewrite Hin.
  unfold _send_command, _send_command_from_loop, bind at 1.
  match goal with
  | |- context [_write_object ?cmd w] =>
      rewrite (@write_object_run cmd w wr Hw Hr)
  end.
  reflexivity.
Qed.

Lemma activate_scene_sends_press_witness :
  activate_scene (str "7") home_world =
  (Ok JNull,
   with_events home_world
     [EvWrite (dumps (request_json
                        (mkRequest (str "CreateRequest")
                           (str "/virtualbutton/" ++ str "7"
                            ++ str "/commandprocessor")
                           (Some press_and_release)))
               ++ CRLF)]).
Proof.
  refine (@activate_scene_sends_press home_world (str "7") hub_writer _ _ _).
  - reflexivity.
  - reflexivity.
  - intros r [= <-]. reflexivity.
Defined.

(** X26. What the bridge writes, the other end reads: the line that
    [_write_object] has written for an object, at the head of the stream of
    a reader, is read by [_read_object] as that object, and what follows it
    in the stream is left for the next read. *)
Theorem written_line_is_read_back (v : json) (w w1 : World) :
  json_ok v = true ->
  (N.of_nat (List.length (dumps v)) < LIMIT)%N ->
  _write_object v w = (Ok tt, w1) ->
  exists data,
    w1 = with_events w [EvWrite data] /\
    forall peer r rest,
      _reader (self peer) = Some r ->
      exception r = None ->
      buffer r = data ++ rest ->
      _read_object peer =
      (Ok v, mkWorld (set_streams (Some (mkReader rest (eof r) None))
                                  (_writer (self peer)) (self peer))
                     (trace peer) (network peer)).
Proof.
  intros Hok Hlen Hw. exists (dumps v ++ CRLF).
  split; [now apply write_object_Ok|].
  intros peer r rest Hr He Hbuf.
  apply (@read_object_of_written v peer r rest Hok Hlen Hr He).
  now rewrite Hbuf, <- List.app_assoc.
Qed.

Lemma written_line_is_read_back_witness :
  exists data,
    snd (_write_object (read_request (str "/device")) home_world)
    = with_events home_world [EvWrite data] /\
    forall peer r rest,
      _reader (self peer) = Some r ->
      exception r = None ->
      buffer r = data ++ rest ->
      _read_object peer =
      (Ok (read_request (str "/device")),
       mkWorld (set_streams (Some (mkReader rest (eof r) None))
                            (_writer (self peer)) (self peer))
               (trace peer) (network peer)).
Proof.
  apply (@written_line_is_read_back (read_request (str "/device")) home_world
           (snd (_write_object (read_request (str "/device")) home_world)));
    vm_compute; reflexivity.
Defined.

(** X27. When the hub accepts the connection and closes it without an answer,
    the login raises TypeError, from the subscript of the None that
    [_read_object] returns at the end of the stream, and not an error of the
    connection; the bridge is not logged in, and the loop of the monitor,
    which does not catch TypeError, ends. *)
Theorem closed_connection_raises_TypeError (w : World) (stream : StreamReader) :
  must_connect (self w) ->
  lookup_endpoint (network w) (_hostname (self w)) LEAP_PORT = Some stream ->
  exception stream = None ->
  buffer stream = [] ->
  eof stream = true ->
  exists w',
    _login w = (Raise TypeError, w') /\
    is_connected (self w') = false /\
    forall turns, _monitor (S turns) w = (Raise TypeError, w').
Proof.
  intros Hmust Hnet He Hbuf Heof.
  assert (Hlogin : exists w', _login w = (Raise TypeError, w')).
  { rewrite (login_eq _ Hmust), Hnet.
    unfold load_state. unfold bind at 1, update at 1. cbn [fst snd].
    unfold bind at 1. unfold _load_devices. unfold bind at 1.
    erewrite write_object_run; [|reflexivity|intros r [= <-]; exact He].
    unfold bind at 1.
    erewrite read_object_line; [|reflexivity|].
    2:{ unfold readline. rewrite He, Hbuf, Heof. reflexivity. }
    cbn [parse_line]. unfold bind at 1, lift at 1. cbn [getitem].
    eexists. reflexivity. }
  destruct Hlogin as (w' & Hlogin). exists w'. split; [exact Hlogin|]. split.
  - exact (login_logged_in _ _ _ Hmust Hlogin).
  - intros turns. cbn [_monitor]. unfold bind at 1, _monitor_turn.
    unfold bind at 1. now rewrite Hlogin.
Qed.

Lemma closed_connection_raises_TypeError_witness :
  exists w',
    _login (mkWorld (self offline_world) []
                    [(str "hub", LEAP_PORT, mkReader [] true None)])
    = (Raise TypeError, w') /\
    is_connected (self w') = false /\
    forall turns,
      _monitor (S turns)
        (mkWorld (self offline_world) []
                 [(str "hub", LEAP_PORT, mkReader [] true None)])
      = (Raise TypeError, w').
Proof.
  refine (@closed_connection_raises_TypeError
            (mkWorld (self offline_world) []
                     [(str "hub", LEAP_PORT, mkReader [] true None)])
            (mkReader [] true None) _ _ _ _ _).
  - split; [right; reflexivity | discriminate].
  - reflexivity.
  - reflexivity.
  - reflexivity.
  - reflexivity.
Defined.
